(** * canvas_bulk_download: a shallow embedding and its properties

    The script walks the courses of a Canvas account and mirrors their files
    on the local disk.  The embedding follows [canvas_bulk_download.py]
    function by function:

    - Python [str] values are lists of Unicode code points;
    - the calls that leave the process (the Canvas client, [requests], the
      Unicode table behind [\w], [int]) are parameters of the development:
      every theorem holds for whatever they answer;
    - the local disk, the console and the record of the calls made form an
      explicit [World], threaded through a state-and-exception monad;
    - the thread pool of [process_files] is a transition system
      ([batch_step]) in which the calling thread and the workers
      interleave; a call of [process_files] ends in the final state of the
      run a [Scheduler] picks, and the theorems hold for every scheduler.

    Progress bars ([tqdm]) and colours ([colorama]) only render on the
    terminal and are left out. *)

From Stdlib Require Import ZArith NArith Lia Ascii String.
From stdpp Require Import gmap list relations strings.

Set Default Proof Using "Type".

(** ** Python strings *)

Definition char := N.
Definition str := list char.

(** A literal of the source, as code points. *)
Definition lit (s : string) : str := N_of_ascii <$> list_ascii_of_string s.

Definition chr (a : ascii) : char := N_of_ascii a.

(** [s.startswith(p)] *)
Fixpoint startswith (s p : str) : bool :=
  match p, s with
  | [], _ => true
  | _ :: _, [] => false
  | c :: p', d :: s' => (c =? d)%N && startswith s' p'
  end.

(** [os.path.join(a, b)] for two components (posixpath): an absolute [b]
    discards [a]; otherwise a separator is put between them unless [a] is
    empty or already ends with one. *)
Definition sep : char := chr "/".

Definition os_path_join (a b : str) : str :=
  if startswith b [sep] then b
  else match last a with
       | None => b
       | Some c => if (c =? sep)%N then a ++ b else a ++ sep :: b
       end.

(** The path with its last component removed and the last component
    ([os.path.dirname], [os.path.basename]). *)
Fixpoint split_last_sep (p : str) : option (str * str) :=
  match p with
  | [] => None
  | c :: p' =>
      match split_last_sep p' with
      | Some (d, b) => Some (c :: d, b)
      | None => if (c =? sep)%N then Some ([], p') else None
      end
  end.

Definition basename (p : str) : str :=
  match split_last_sep p with Some (_, b) => b | None => p end.

Definition dirname (p : str) : str :=
  match split_last_sep p with Some (d, _) => d | None => [] end.

(** The non-empty proper prefixes of [p] that stop in front of a separator:
    the directories [os.makedirs] creates on the way to [p]. *)
Fixpoint ancestors_from (acc p : str) : list str :=
  match p with
  | [] => []
  | c :: p' =>
      (if (c =? sep)%N && negb (bool_decide (acc = [])) then [acc] else [])
      ++ ancestors_from (acc ++ [c]) p'
  end.

Definition ancestors (p : str) : list str := ancestors_from [] p.

(** ** Data model: the value objects of the Canvas client *)

Inductive Exn :=
  | Unauthorized            (* canvasapi.exceptions.Unauthorized *)
  | ResourceDoesNotExist    (* canvasapi.exceptions.ResourceDoesNotExist *)
  | StopIteration           (* next() on an exhausted generator *)
  | HTTPError (status : Z)  (* response.raise_for_status() *)
  | ConnectionError         (* requests: the request could not be made *)
  | ValueError              (* int() on a malformed header *)
  | OSError.                (* open(), os.makedirs() *)

Global Instance Exn_eq_dec : EqDecision Exn.
Proof. solve_decision. Defined.

Inductive Res (A : Type) :=
  | Ok (a : A)
  | Raise (e : Exn).
Arguments Ok {A} a.
Arguments Raise {A} e.

(** What iterating a [PaginatedList] of the Canvas client yields: the items
    fetched, then either the end or the exception of a failed page request.
    A Python list is a listing without fault. *)
Record Listing (A : Type) := mkListing { items : list A; fault : option Exn }.
Arguments mkListing {A} items fault.
Arguments items {A} l.
Arguments fault {A} l.

Definition py_list {A} (l : list A) : Listing A := mkListing l None.

Record File := mkFile {
  file_id : Z;
  display_name : str;
  url : option str;          (* None, or a str (possibly empty) *)
}.

#[local] Set Warnings "-register-all".
Inductive Folder :=
  mkFolder (id : Z) (name full_name : str)
           (files : Listing File)                 (* folder.get_files() *)
           (subfolders : list Folder)             (* folder.get_folders(): items *)
           (subfolders_fault : option Exn).       (* folder.get_folders(): fault *)

Definition folder_id (f : Folder) : Z := let 'mkFolder i _ _ _ _ _ := f in i.
Definition folder_name (f : Folder) : str := let 'mkFolder _ n _ _ _ _ := f in n.
Definition folder_full_name (f : Folder) : str := let 'mkFolder _ _ n _ _ _ := f in n.
Definition folder_files (f : Folder) : Listing File := let 'mkFolder _ _ _ l _ _ := f in l.
Definition folder_subfolders (f : Folder) : list Folder := let 'mkFolder _ _ _ _ l _ := f in l.
Definition folder_subfolders_fault (f : Folder) : option Exn :=
  let 'mkFolder _ _ _ _ _ e := f in e.

Record ModuleItem := mkModuleItem {
  item_id : Z;
  item_type : str;
  content_id : Z;
}.

Record Module := mkModule {
  module_id : Z;
  module_name : str;
  module_items : Listing ModuleItem;    (* module.get_module_items() *)
}.

Record Course := mkCourse {
  course_name : str;
  course_folders : Listing Folder;      (* course.get_folders() *)
  course_modules : Listing Module;      (* course.get_modules() *)
}.

(** The answer to a streamed GET: the status line and what
    [iter_content] yields (a listing: the stream may break). *)
Record Response := mkResponse {
  status_code : Z;
  body : Listing (list N);
}.

(** The services the script calls.  Their answers are inputs of the
    script; an answer is a value or the exception raised. *)
Class Services := {
  py_int : str → Res Z;                        (* int(text) *)
  requests_head : str → Res (option str);      (* the content-length header, if any *)
  requests_get : str → Res Response;
  canvas_get_course : Z → Res Course;
  canvas_get_file : Z → Res File;
}.

(** The Unicode table behind [\w]. *)
Class Unicode := { isalnum : char → bool }.

(** ** The world the script acts on *)

Inductive Call :=
  | GetCourse (course_id : Z)
  | CourseGetFolders (course_id : Z)
  | CourseGetModules (course_id : Z)
  | FolderGetFiles (folder_id : Z)
  | FolderGetFolders (folder_id : Z)
  | ModuleGetItems (module_id : Z)
  | GetFile (content_id : Z)
  | Head (url : str)
  | Get (url : str).

(** One constructor per [print] of the script. *)
Inductive Line :=
  | InvalidURL (url : str)
  | Downloaded (dest_path : str)
  | DownloadFailed (url : str) (e : Exn)
  | SkipNoURL (file : File)
  | UnauthorizedFolder (folder_id : Z) (e : Exn)
  | ProcessingCourse (name : str)
  | SkipCourse (name : str)
  | UnauthorizedCourseFiles (course_id : Z) (e : Exn)
  | ErrorCourseFiles (course_id : Z) (e : Exn)
  | NoURLModuleItem (item_id course_id : Z)
  | FileNotFoundModuleItem (item_id course_id : Z)
  | UnauthorizedModuleItems (module_id course_id : Z) (e : Exn)
  | ErrorModuleItems (module_id course_id : Z) (e : Exn)
  | UnauthorizedModules (course_id : Z) (e : Exn)
  | ErrorModules (course_id : Z) (e : Exn)
  | UnauthorizedCourse (course_id : Z) (e : Exn)
  | CourseDoesNotExist (course_id : Z) (e : Exn)
  | ErrorCourse (course_id : Z) (e : Exn).

(** The local disk (directories, and regular files with their content,
    both by path as spelled: [.] and [..] are not resolved), the console
    and the calls made to the services, oldest first.  The disk is that
    of the script as long as no two spellings name one entry: on worlds
    and paths that are plain ([real_disk] and [plain] below); the
    theorems that depend on a path not being there assume as much. *)
Record World := mkWorld {
  dirs : gset str;
  files : gmap str (list N);
  console : list Line;
  calls : list Call;
}.

(** State and exceptions: what was done before a [raise] stays done. *)
Definition M (A : Type) : Type := World → Res A * World.

Definition ret {A} (a : A) : M A := λ w, (Ok a, w).
Definition raise {A} (e : Exn) : M A := λ w, (Raise e, w).
Definition bind {A B} (m : M A) (k : A → M B) : M B :=
  λ w, match m w with
       | (Ok a, w') => k a w'
       | (Raise e, w') => (Raise e, w')
       end.

Notation "x <- m ;; k" := (bind m (λ x, k))
  (at level 100, m at next level, right associativity).
Notation "m ;; k" := (bind m (λ _, k))
  (at level 100, right associativity).

(** [try: body except Exception as e: handler(e)]; a narrower [except]
    clause is a handler that raises the others again. *)
Definition try_except {A} (body : M A) (handler : Exn → M A) : M A :=
  λ w, match body w with
       | (Ok a, w') => (Ok a, w')
       | (Raise e, w') => handler e w'
       end.

Definition lift {A} (r : Res A) : M A := λ w, (r, w).

(** The world with one more line on the console. *)
Definition printed (l : Line) (w : World) : World :=
  mkWorld (dirs w) (files w) (console w ++ [l]) (calls w).

(** The world with one more call on record. *)
Definition recorded (c : Call) (w : World) : World :=
  mkWorld (dirs w) (files w) (console w) (calls w ++ [c]).

Definition print (l : Line) : M unit := λ w, (Ok tt, printed l w).

(** A call to a service: recorded, then answered. *)
Definition call {A} (c : Call) (answer : Res A) : M A := λ w, (answer, recorded c w).

(** [for x in listing: body(x)] *)
Definition for_each {A} (body : A → M unit) (fl : option Exn) : list A → M unit :=
  fix go (l : list A) : M unit :=
    match l with
    | [] => match fl with Some e => raise e | None => ret tt end
    | x :: l' => body x ;; go l'
    end.

(** *** The local disk *)

Definition is_dir (p : str) (w : World) : bool := bool_decide (p ∈ dirs w).
Definition is_file (p : str) (w : World) : bool := bool_decide (p ∈ dom (files w)).

(** [os.path.exists(p)], for the path as spelled *)
Definition os_path_exists (p : str) : M bool :=
  λ w, (Ok (is_dir p w || is_file p w), w).

(** [os.makedirs(p, exist_ok=True)], for the path as spelled: fails when
    [p] is empty or when [p] or a directory on the way to it is a regular
    file, else creates what is missing.  Other failures of the operating
    system (permissions, a full disk) are left out. *)
Definition os_makedirs (p : str) : M unit :=
  λ w, if bool_decide (p = []) || existsb (λ q, is_file q w) (ancestors p ++ [p])
       then (Raise OSError, w)
       else (Ok tt, mkWorld (dirs w ∪ list_to_set (ancestors p ++ [p]))
                            (files w) (console w) (calls w)).

(** [open(p, "wb")]: fails when [p] names a directory or its directory is
    missing (the current and the root directory are always there), else
    the file is there and empty. *)
Definition names_directory (p : str) (w : World) : bool :=
  is_dir p w
  || bool_decide (basename p = []) || bool_decide (basename p = lit ".")
  || bool_decide (basename p = lit "..").

Definition parent_missing (p : str) (w : World) : bool :=
  negb (bool_decide (dirname p = []) || is_dir (dirname p) w).

Definition open_wb (p : str) : M unit :=
  λ w, if names_directory p w || parent_missing p w then (Raise OSError, w)
       else (Ok tt, mkWorld (dirs w) (<[p := []]> (files w)) (console w) (calls w)).

(** [f.write(chunk)] on the file opened at [p] *)
Definition write (p : str) (chunk : list N) : M unit :=
  λ w, (Ok tt, mkWorld (dirs w) (<[p := default [] (files w !! p) ++ chunk]> (files w))
                       (console w) (calls w)).

(** ** 4.1 Filename sanitizer *)

(** The members of a regular-expression character set, as far as the
    pattern of [sanitize_filename] uses them. *)
Inductive ClassItem :=
  | CWord                 (* \w *)
  | CChar (c : char).     (* a literal or escaped character *)

Section Program.
Context `{Unicode} `{Services}.

(** [\w] on a [str] pattern: alphanumeric in the Unicode table, or the
    underscore. *)
Definition is_word (c : char) : bool := isalnum c || (c =? chr "_")%N.

Definition item_matches (c : char) (it : ClassItem) : bool :=
  match it with
  | CWord => is_word c
  | CChar d => (c =? d)%N
  end.

(** [[...]] and [[^...]] *)
Definition class_matches (negated : bool) (set : list ClassItem) (c : char) : bool :=
  xorb negated (existsb (item_matches c) set).

(** [re.sub(pattern, repl, s)] for a pattern that is one character set:
    every matching character is replaced by [repl], the others are kept. *)
Definition re_sub_class (negated : bool) (set : list ClassItem) (repl s : str) : str :=
  flat_map (λ c, if class_matches negated set c then repl else [c]) s.

(** The set of [r"[^\w\-_\. ]"]. *)
Definition sanitize_set : list ClassItem :=
  [CWord; CChar (chr "-"); CChar (chr "_"); CChar (chr "."); CChar (chr " ")].

Definition sanitize_filename (name : str) : str :=
  re_sub_class true sanitize_set (lit "_") name.

(** ** 4.2 Bounded concurrent downloader *)

Definition MAX_THREADS : nat := 2.

(** [response.raise_for_status()]: client and server errors raise. *)
Definition raise_for_status (r : Response) : M unit :=
  if bool_decide (400 ≤ status_code r < 600)%Z then raise (HTTPError (status_code r))
  else ret tt.

(** [for chunk in response.iter_content(...): if chunk: f.write(chunk)] *)
Definition write_chunks (dest_path : str) (chunks : Listing (list N)) : M unit :=
  for_each (λ chunk, match chunk with
                     | [] => ret tt
                     | _ :: _ => write dest_path chunk
                     end)
           (fault chunks) (items chunks).

Definition download_file (file_url file_name folder_dir : str) : M unit :=
  if negb (startswith file_url (lit "http")) then
    print (InvalidURL file_url)
  else
    let dest_path := os_path_join folder_dir (sanitize_filename file_name) in
    try_except
      (response <- call (Get file_url) (requests_get file_url) ;;
       raise_for_status response ;;
       open_wb dest_path ;;
       write_chunks dest_path (body response) ;;
       print (Downloaded dest_path))
      (λ e, print (DownloadFailed file_url e)).

(** The arguments of one [executor.submit(download_file, ...)]. *)
Record Task := mkTask { task_url : str; task_name : str; task_dir : str }.

(** Python truth of [file.url]. *)
Definition falsy (u : option str) : bool :=
  match u with
  | None | Some [] => true
  | Some (_ :: _) => false
  end.

(** [int(requests.head(url).headers.get("content-length", 0))] *)
Definition size_probe (u : str) : M Z :=
  header <- call (Head u) (requests_head u) ;;
  match header with
  | None => ret 0%Z
  | Some text => lift (py_int text)
  end.

(** One turn of [for file in files] in [process_files]: a file without URL
    is reported and skipped; for the others the size is probed (it only
    feeds the progress bar) and the download is submitted.  The result is
    the task submitted, if any. *)
Definition loop_body (file : File) (folder_dir : str) : M (option Task) :=
  if falsy (url file) then
    print (SkipNoURL file) ;; ret None
  else
    let u := default [] (url file) in
    file_size <- size_probe u ;;
    ret (Some (mkTask u (display_name file) folder_dir)).

(** What a worker does with a task.  [download_file] handles every
    exception itself (lemma [download_file_returns]), so the future holds
    no exception and [future.result()] returns.  The effects of a task
    reach the world when the task completes. *)
Definition run_task (t : Task) (w : World) : World :=
  (download_file (task_url t) (task_name t) (task_dir t) w).2.

(** *** The executor as a transition system *)

(** Where the calling thread is. *)
Inductive Pc :=
  | Looping (todo : list File) (fl : option Exn)   (* in [for file in files] *)
  | Waiting                   (* in [future.result()] / leaving [with] *)
  | Unwinding (e : Exn)       (* leaving [with] on an exception *)
  | Returned
  | Propagated (e : Exn).

Record Batch := mkBatch {
  pc : Pc;
  queue : list Task;          (* submitted, not started *)
  running : list Task;        (* in flight on a worker *)
  completed : list Task;
  world : World;
}.

(** Entering [with ThreadPoolExecutor(max_workers=MAX_THREADS)]: a fresh
    executor, nothing submitted. *)
Definition batch_init (fs : Listing File) (w : World) : Batch :=
  mkBatch (Looping (items fs) (fault fs)) [] [] [] w.

(** One step of a call of [process_files].  The calling thread takes a
    turn of its loop ([step_iter], [step_iter_raise]) or leaves the loop
    ([step_exhausted], [step_fault]); a worker takes the task at the head
    of the queue, which the executor allows while fewer than
    [max_workers = MAX_THREADS] tasks are in flight ([step_start]); a task
    in flight completes ([step_finish]); once nothing is queued or in
    flight the calling thread, which waits in [future.result()] or in the
    exit of the [with] block, returns or raises again ([step_return],
    [step_propagate]). *)
Inductive batch_step (folder_dir : str) : Batch → Batch → Prop :=
  | step_iter file todo fl q r c w ot w' :
      loop_body file folder_dir w = (Ok ot, w') →
      batch_step folder_dir
        (mkBatch (Looping (file :: todo) fl) q r c w)
        (mkBatch (Looping todo fl) (q ++ option_list ot) r c w')
  | step_iter_raise file todo fl q r c w e w' :
      loop_body file folder_dir w = (Raise e, w') →
      batch_step folder_dir
        (mkBatch (Looping (file :: todo) fl) q r c w)
        (mkBatch (Unwinding e) q r c w')
  | step_exhausted q r c w :
      batch_step folder_dir
        (mkBatch (Looping [] None) q r c w) (mkBatch Waiting q r c w)
  | step_fault e q r c w :
      batch_step folder_dir
        (mkBatch (Looping [] (Some e)) q r c w) (mkBatch (Unwinding e) q r c w)
  | step_start p t q r c w :
      length r < MAX_THREADS →
      batch_step folder_dir (mkBatch p (t :: q) r c w) (mkBatch p q (r ++ [t]) c w)
  | step_finish p q r1 t r2 c w :
      batch_step folder_dir
        (mkBatch p q (r1 ++ t :: r2) c w)
        (mkBatch p q (r1 ++ r2) (c ++ [t]) (run_task t w))
  | step_return c w :
      batch_step folder_dir (mkBatch Waiting [] [] c w) (mkBatch Returned [] [] c w)
  | step_propagate e c w :
      batch_step folder_dir
        (mkBatch (Unwinding e) [] [] c w) (mkBatch (Propagated e) [] [] c w).

(** The call is over. *)
Definition terminal (b : Batch) : Prop :=
  match pc b with
  | Returned | Propagated _ => True
  | _ => False
  end.

(** Batches one after the other, as the walker and the module pass issue
    them: each call of [process_files] makes its own executor, and the
    next call starts when the current one is over.  [earlier] keeps the
    executors of the calls that are over. *)
Record Session := mkSession {
  current : Batch;
  current_dir : str;
  earlier : list Batch;
}.

Inductive session_step : Session → Session → Prop :=
  | session_batch d b b' past :
      batch_step d b b' →
      session_step (mkSession b d past) (mkSession b' d past)
  | session_next d b past fs d' :
      terminal b →
      session_step (mkSession b d past)
        (mkSession (batch_init fs (world b)) d' (b :: past)).

(** The downloads in flight, over all the executors of the session. *)
Definition in_flight (s : Session) : nat :=
  length (running (current s)) + sum_list (length ∘ running <$> earlier s).

Definition session_init (fs : Listing File) (d : str) (w : World) : Session :=
  mkSession (batch_init fs w) d [].

(** *** Schedules *)

(** A scheduler settles, for each call of [process_files], how the calling
    thread and the workers interleave: it yields one complete run of the
    executor. *)
Class Scheduler := {
  run_batch : Listing File → str → World → Batch;
  run_batch_run fs d w : rtc (batch_step d) (batch_init fs w) (run_batch fs d w);
  run_batch_terminal fs d w : terminal (run_batch fs d w);
}.

(** Where the calling thread ends, from the outcome of its loop. *)
Definition end_pc (out : option Exn) : Pc :=
  match out with
  | None => Returned
  | Some e => Propagated e
  end.

(** One scheduler: the calling thread first runs its loop to the end
    ([submit_all] gives the tasks it submitted), the workers then take the
    tasks one after the other. *)
Fixpoint submit_all (todo : list File) (fl : option Exn) (folder_dir : str)
    (w : World) : list Task * option Exn * World :=
  match todo with
  | [] => ([], fl, w)
  | file :: todo' =>
      match loop_body file folder_dir w with
      | (Ok ot, w') =>
          let '(ts, out, w'') := submit_all todo' fl folder_dir w' in
          (option_list ot ++ ts, out, w'')
      | (Raise e, w') => ([], Some e, w')
      end
  end.

Definition in_order (fs : Listing File) (folder_dir : str) (w : World) : Batch :=
  let '(ts, out, w') := submit_all (items fs) (fault fs) folder_dir w in
  mkBatch (end_pc out) [] [] ts (foldl (λ w t, run_task t w) w' ts).

Lemma submit_all_run d todo fl q c w :
  rtc (batch_step d)
    (mkBatch (Looping todo fl) q [] c w)
    (mkBatch (match (submit_all todo fl d w).1.2 with
              | None => Waiting
              | Some e => Unwinding e
              end)
       (q ++ (submit_all todo fl d w).1.1) [] c (submit_all todo fl d w).2).
Proof.
  revert q w. induction todo as [|file todo IH]; intros q w; simpl.
  - rewrite app_nil_r. destruct fl; apply rtc_once; constructor.
  - destruct (loop_body file d w) as [[ot|e] w'] eqn:Hb.
    + eapply rtc_l; [by apply step_iter|].
      specialize (IH (q ++ option_list ot) w').
      destruct (submit_all todo fl d w') as [[ts out] w'']; simpl in *.
      by rewrite app_assoc.
    + simpl. rewrite app_nil_r. apply rtc_once. by apply step_iter_raise.
Qed.

Lemma workers_run d p ts c w :
  rtc (batch_step d)
    (mkBatch p ts [] c w)
    (mkBatch p [] [] (c ++ ts) (foldl (λ w t, run_task t w) w ts)).
Proof.
  revert c w. induction ts as [|t ts IH]; intros c w; simpl.
  - by rewrite app_nil_r.
  - eapply rtc_l; [apply step_start; simpl; unfold MAX_THREADS; lia|].
    eapply rtc_l; [apply (step_finish d p ts [] t [])|]. simpl.
    rewrite (cons_middle t c ts), app_assoc. apply IH.
Qed.

Lemma in_order_run fs d w : rtc (batch_step d) (batch_init fs w) (in_order fs d w).
Proof.
  unfold in_order, batch_init.
  pose proof (submit_all_run d (items fs) (fault fs) [] [] w) as Hmain.
  destruct (submit_all (items fs) (fault fs) d w) as [[ts out] w']; simpl in *.
  etrans; [exact Hmain|].
  etrans; [apply workers_run|]. simpl.
  destruct out; apply rtc_once; constructor.
Qed.

Lemma in_order_terminal fs d w : terminal (in_order fs d w).
Proof.
  unfold in_order, terminal.
  destruct (submit_all (items fs) (fault fs) d w) as [[ts out] w']; simpl.
  by destruct out.
Qed.

Definition in_order_scheduler : Scheduler :=
  {| run_batch := in_order;
     run_batch_run := in_order_run;
     run_batch_terminal := in_order_terminal |}.

(** *** [process_files] *)

Context `{!Scheduler}.

(** [process_files]: the [with] block is entered ([batch_init]), the loop
    and the workers run interleaved as the scheduler has it
    ([batch_step]), and the call returns, or raises the exception that
    ended its loop, once every submitted task has completed. *)
Definition process_files (fs : Listing File) (folder_dir : str) : M unit :=
  λ w, let b := run_batch fs folder_dir w in
       (match pc b with
        | Propagated e => Raise e
        | _ => Ok tt
        end, world b).

(** ** 4.3 Recursive folder walker *)

Definition except_unauthorized (line : Exn → Line) (e : Exn) : M unit :=
  match e with
  | Unauthorized => print (line e)
  | _ => raise e
  end.

Fixpoint download_folder_contents (folder : Folder) (folder_dir : str) : M unit :=
  let 'mkFolder id _ _ fs subfolders subfolders_fault := folder in
  try_except
    (fs' <- call (FolderGetFiles id) (Ok fs) ;;
     process_files fs' folder_dir ;;
     call (FolderGetFolders id) (Ok tt) ;;
     for_each (λ subfolder,
                 let subfolder_dir :=
                   os_path_join folder_dir (sanitize_filename (folder_name subfolder)) in
                 os_makedirs subfolder_dir ;;
                 download_folder_contents subfolder subfolder_dir)
              subfolders_fault subfolders)
    (except_unauthorized (UnauthorizedFolder id)).

(** ** 4.4 Course processor *)

(** [next(x for x in listing if test(x))] *)
Fixpoint next_where {A} (test : A → bool) (fl : option Exn) (l : list A) : Res A :=
  match l with
  | [] => Raise (default StopIteration fl)
  | x :: l' => if test x then Ok x else next_where test fl l'
  end.

Definition is_course_files (f : Folder) : bool :=
  bool_decide (folder_full_name f = lit "course files").

(** The first [try] of [download_course_files]: the folder pass. *)
Definition folder_pass (course : Course) (course_id : Z) (course_dir : str) : M unit :=
  try_except
    (folders <- call (CourseGetFolders course_id) (Ok (course_folders course)) ;;
     root_folder <- lift (next_where is_course_files (fault folders) (items folders)) ;;
     download_folder_contents root_folder course_dir)
    (λ e, match e with
          | Unauthorized => print (UnauthorizedCourseFiles course_id e)
          | _ => print (ErrorCourseFiles course_id e)
          end).

(** The body of [for item in module_items]. *)
Definition module_item_body (course_id : Z) (module_dir : str) (item : ModuleItem) : M unit :=
  if bool_decide (item_type item = lit "File") then
    try_except
      (file <- call (GetFile (content_id item)) (canvas_get_file (content_id item)) ;;
       if negb (falsy (url file)) then process_files (py_list [file]) module_dir
       else print (NoURLModuleItem (item_id item) course_id))
      (λ e, match e with
            | ResourceDoesNotExist => print (FileNotFoundModuleItem (item_id item) course_id)
            | _ => raise e
            end)
  else ret tt.

(** The body of [for module in modules]. *)
Definition module_body (course_id : Z) (course_dir : str) (module : Module) : M unit :=
  let module_dir := os_path_join course_dir (sanitize_filename (module_name module)) in
  os_makedirs module_dir ;;
  try_except
    (module_items' <- call (ModuleGetItems (module_id module)) (Ok (module_items module)) ;;
     for_each (module_item_body course_id module_dir)
              (fault module_items') (items module_items'))
    (λ e, match e with
          | Unauthorized => print (UnauthorizedModuleItems (module_id module) course_id e)
          | _ => print (ErrorModuleItems (module_id module) course_id e)
          end).

(** The second [try] of [download_course_files]: the module pass. *)
Definition module_pass (course : Course) (course_id : Z) (course_dir : str) : M unit :=
  try_except
    (modules <- call (CourseGetModules course_id) (Ok (course_modules course)) ;;
     for_each (module_body course_id course_dir) (fault modules) (items modules))
    (λ e, match e with
          | Unauthorized => print (UnauthorizedModules course_id e)
          | _ => print (ErrorModules course_id e)
          end).

Definition course_dir_of (course : Course) : str :=
  os_path_join (lit "canvas_downloads") (sanitize_filename (course_name course)).

Definition download_course_files (course_id : Z) : M unit :=
  try_except
    (course <- call (GetCourse course_id) (canvas_get_course course_id) ;;
     print (ProcessingCourse (course_name course)) ;;
     let course_dir := course_dir_of course in
     there <- os_path_exists course_dir ;;
     if there : bool then
       print (SkipCourse (course_name course))
     else
       os_makedirs course_dir ;;
       folder_pass course course_id course_dir ;;
       module_pass course course_id course_dir)
    (λ e, match e with
          | Unauthorized => print (UnauthorizedCourse course_id e)
          | ResourceDoesNotExist => print (CourseDoesNotExist course_id e)
          | _ => print (ErrorCourse course_id e)
          end).

(** ** The script *)

(** [os.makedirs(p)], without [exist_ok]: as above, but an existing [p]
    is an error. *)
Definition os_makedirs_new (p : str) : M unit :=
  λ w, if is_dir p w || is_file p w then (Raise OSError, w) else os_makedirs p w.

(** [[x for x in listing]]: the whole listing is read before the list is
    there. *)
Definition py_list_of {A} (l : Listing A) : Res (list A) :=
  match fault l with
  | Some e => Raise e
  | None => Ok (items l)
  end.

(** The courses the user is enrolled in, as
    [canvas.get_courses(enrollment_state=["active", "completed"])] lists
    them, by id. *)
Class Enrollment := { canvas_get_courses : Listing Z }.

Context `{Enrollment}.

(** The block under [if __name__ == "__main__"].  The listing of the
    courses is not put on the record of calls. *)
Definition main : M unit :=
  there <- os_path_exists (lit "canvas_downloads") ;;
  (if there : bool then ret tt else os_makedirs_new (lit "canvas_downloads")) ;;
  course_ids <- lift (py_list_of canvas_get_courses) ;;
  for_each download_course_files None (reverse course_ids).

End Program.

(** ** Notions used to state the properties *)

Section Analysis.
Context `{Unicode} `{Services} `{!Scheduler}.

(** The allow-list in the words of the specification. *)
Definition allow_listed (c : char) : Prop :=
  is_word c = true ∨ c = chr "-" ∨ c = chr "_" ∨ c = chr "." ∨ c = chr " ".

(** How one world continues another: directories are only added, the
    console and the record of calls only grow. *)
Record extends (w w' : World) : Prop := {
  ext_dirs : dirs w ⊆ dirs w';
  ext_files : dom (files w) ⊆ dom (files w');
  ext_console : console w `prefix_of` console w';
  ext_calls : calls w `prefix_of` calls w';
}.

(** A step that leaves the directories alone. *)
Record same_dirs (w w' : World) : Prop := {
  sd_dirs : dirs w' = dirs w;
  sd_files : dom (files w) ⊆ dom (files w');
  sd_console : console w `prefix_of` console w';
  sd_calls : calls w `prefix_of` calls w';
}.

(** Where a download writes: [dest_path] of [download_file]. *)
Definition dest_of (file_name folder_dir : str) : str :=
  os_path_join folder_dir (sanitize_filename file_name).

(** [open(p, "wb")] fails, given the directories [ds] of the disk. *)
Definition cannot_open (p : str) (ds : gset str) : bool :=
  bool_decide (p ∈ ds)
  || bool_decide (basename p = []) || bool_decide (basename p = lit ".")
  || bool_decide (basename p = lit "..")
  || negb (bool_decide (dirname p = []) || bool_decide (dirname p ∈ ds)).

(** The line a download prints, from its arguments, the answer to its GET
    request and the directories of the disk. *)
Definition download_line (t : Task) (ds : gset str) : Line :=
  if negb (startswith (task_url t) (lit "http")) then InvalidURL (task_url t)
  else
    match requests_get (task_url t) with
    | Raise e => DownloadFailed (task_url t) e
    | Ok r =>
        if bool_decide (400 ≤ status_code r < 600)%Z
        then DownloadFailed (task_url t) (HTTPError (status_code r))
        else if cannot_open (dest_of (task_name t) (task_dir t)) ds
        then DownloadFailed (task_url t) OSError
        else match fault (body r) with
             | Some e => DownloadFailed (task_url t) e
             | None => Downloaded (dest_of (task_name t) (task_dir t))
             end
    end.

(** The content of the disk after the chunks are written to [p]. *)
Definition written (p : str) (chunks : list (list N)) (fs : gmap str (list N)) :
    gmap str (list N) :=
  foldl (λ fs chunk, match chunk with
                     | [] => fs
                     | _ :: _ => <[p := default [] (fs !! p) ++ chunk]> fs
                     end) fs chunks.

(** The GET request raises, or [raise_for_status] does on its answer. *)
Definition get_fails (u : str) : bool :=
  match requests_get u with
  | Raise _ => true
  | Ok r => bool_decide (400 ≤ status_code r < 600)%Z
  end.

(** The size probe, as a value. *)
Definition probe (u : str) : Res Z :=
  match requests_head u with
  | Raise e => Raise e
  | Ok None => Ok 0%Z
  | Ok (Some text) => py_int text
  end.

(** What a turn of the loop yields: nothing for a file without URL, the
    task for a file whose probe answers, the exception of the probe. *)
Definition turn (file : File) (folder_dir : str) : Res (option Task) :=
  if falsy (url file) then Ok None
  else match probe (default [] (url file)) with
       | Ok _ => Ok (Some (mkTask (default [] (url file)) (display_name file) folder_dir))
       | Raise e => Raise e
       end.

(** The tasks the loop submits and how it ends: by the end of the
    listing ([None]) or by an exception. *)
Fixpoint plan (todo : list File) (fl : option Exn) (folder_dir : str) :
    list Task * option Exn :=
  match todo with
  | [] => ([], fl)
  | file :: todo' =>
      match turn file folder_dir with
      | Ok ot => let '(ts, out) := plan todo' fl folder_dir in (option_list ot ++ ts, out)
      | Raise e => ([], Some e)
      end
  end.

(** The files the loop reports as skipped. *)
Fixpoint skips (todo : list File) (folder_dir : str) : list File :=
  match todo with
  | [] => []
  | file :: todo' =>
      match turn file folder_dir with
      | Ok ot => (if falsy (url file) then [file] else []) ++ skips todo' folder_dir
      | Raise e => []
      end
  end.

(** The files named on the skip lines of a console. *)
Definition skip_lines (c : list Line) : list File :=
  omap (λ l, match l with SkipNoURL f => Some f | _ => None end) c.

(** The folders named on the unauthorized-folder lines of a console. *)
Definition unauthorized_lines (c : list Line) : list Z :=
  omap (λ l, match l with UnauthorizedFolder i _ => Some i | _ => None end) c.

(** A task has run: its line is on the console, and the file is on the
    disk if the line says so. *)
Definition task_done (t : Task) (w : World) : Prop :=
  download_line t (dirs w) ∈ console w ∧
  ∀ p, download_line t (dirs w) = Downloaded p → p ∈ dom (files w).

(** What is still to come from the calling thread. *)
Definition rest_tasks (d : str) (p : Pc) : list Task :=
  match p with
  | Looping todo fl => (plan todo fl d).1
  | _ => []
  end.

(** The skip lines still to come. *)
Definition rest_skips (d : str) (p : Pc) : list File :=
  match p with
  | Looping todo fl => skips todo d
  | _ => []
  end.

(** How the call will end: by returning ([None]) or raising. *)
Definition outcome (d : str) (p : Pc) : option Exn :=
  match p with
  | Looping todo fl => (plan todo fl d).2
  | Waiting | Returned => None
  | Unwinding e | Propagated e => Some e
  end.

(** The tasks of a batch, whatever their stage. *)
Definition all_tasks (d : str) (b : Batch) : list Task :=
  queue b ++ running b ++ completed b ++ rest_tasks d (pc b).

(** What every step of a batch keeps. *)
Record batch_kept (d : str) (b b' : Batch) : Prop := {
  kept_tasks : all_tasks d b' ≡ₚ all_tasks d b;
  kept_outcome : outcome d (pc b') = outcome d (pc b);
  kept_skips :
    skip_lines (console (world b')) ++ rest_skips d (pc b') =
    skip_lines (console (world b)) ++ rest_skips d (pc b);
  kept_world : same_dirs (world b) (world b');
  kept_unauthorized :
    unauthorized_lines (console (world b')) = unauthorized_lines (console (world b));
  kept_lines :
    (∀ t, t ∈ completed b → task_done t (world b)) →
    (∀ t, t ∈ completed b' → task_done t (world b'));
  kept_completed : completed b `prefix_of` completed b';
}.

(** The bound of the pool, and no task left when the call is over. *)
Record batch_ok (b : Batch) : Prop := {
  ok_bound : length (running b) ≤ MAX_THREADS;
  ok_idle : terminal b → queue b = [] ∧ running b = [];
}.

(** A quantity every step of a batch lowers. *)
Definition measure (b : Batch) : nat :=
  match pc b with
  | Looping todo _ => 3 * length todo + 3
  | Waiting | Unwinding _ => 2
  | Returned | Propagated _ => 1
  end + 2 * length (queue b) + length (running b).

Global Instance terminal_dec b : Decision (terminal b).
Proof. unfold terminal. destruct (pc b); apply _. Defined.

(** The steps of [batch_step] as data, so that a schedule can be run. *)
Inductive Move :=
  | Main                 (* the calling thread advances *)
  | Start                (* a worker takes the next task of the queue *)
  | Finish (i : nat).    (* the i-th task in flight completes *)

Definition move (d : str) (m : Move) (b : Batch) : option Batch :=
  match m with
  | Main =>
      match pc b with
      | Looping (file :: todo) fl =>
          match loop_body file d (world b) with
          | (Ok ot, w') =>
              Some (mkBatch (Looping todo fl) (queue b ++ option_list ot)
                      (running b) (completed b) w')
          | (Raise e, w') =>
              Some (mkBatch (Unwinding e) (queue b) (running b) (completed b) w')
          end
      | Looping [] None =>
          Some (mkBatch Waiting (queue b) (running b) (completed b) (world b))
      | Looping [] (Some e) =>
          Some (mkBatch (Unwinding e) (queue b) (running b) (completed b) (world b))
      | Waiting =>
          match queue b, running b with
          | [], [] => Some (mkBatch Returned [] [] (completed b) (world b))
          | _, _ => None
          end
      | Unwinding e =>
          match queue b, running b with
          | [], [] => Some (mkBatch (Propagated e) [] [] (completed b) (world b))
          | _, _ => None
          end
      | Returned | Propagated _ => None
      end
  | Start =>
      match queue b with
      | t :: q =>
          if decide (length (running b) < MAX_THREADS)
          then Some (mkBatch (pc b) q (running b ++ [t]) (completed b) (world b))
          else None
      | [] => None
      end
  | Finish i =>
      match running b !! i with
      | Some t =>
          Some (mkBatch (pc b) (queue b) (delete i (running b)) (completed b ++ [t])
                  (run_task t (world b)))
      | None => None
      end
  end.

Fixpoint moves (d : str) (ms : list Move) (b : Batch) : option Batch :=
  match ms with
  | [] => Some b
  | m :: ms' =>
      match move d m b with
      | Some b' => moves d ms' b'
      | None => None
      end
  end.

(** The task a file with a URL is downloaded by. *)
Definition task_of (d : str) (f : File) : Task :=
  mkTask (default [] (url f)) (display_name f) d.

(** The size probe of the file answers, if the file has a URL at all. *)
Definition probe_answers (f : File) : Prop :=
  falsy (url f) = false → ∃ n, probe (default [] (url f)) = Ok n.

(** The current executor respects its bound and the earlier ones are
    idle. *)
Record session_ok (s : Session) : Prop := {
  sok_current : batch_ok (current s);
  sok_earlier : Forall (λ b, running b = []) (earlier s);
}.

(** The body of [for subfolder in subfolders] in
    [download_folder_contents]. *)
Definition subfolder_body (folder_dir : str) (subfolder : Folder) : M unit :=
  let subfolder_dir := os_path_join folder_dir (sanitize_filename (folder_name subfolder)) in
  os_makedirs subfolder_dir ;;
  download_folder_contents subfolder subfolder_dir.

(** The body of the [try] of [download_folder_contents]. *)
Definition walk_body (folder : Folder) (folder_dir : str) : M unit :=
  fs' <- call (FolderGetFiles (folder_id folder)) (Ok (folder_files folder)) ;;
  process_files fs' folder_dir ;;
  call (FolderGetFolders (folder_id folder)) (Ok tt) ;;
  for_each (subfolder_body folder_dir) (folder_subfolders_fault folder)
           (folder_subfolders folder).

(** Steps that only add to the world. *)
Definition grows {A} (m : M A) : Prop := ∀ w, extends w (m w).2.

(** The [except] clauses of the folder pass and of the whole function. *)
Definition folder_pass_handler (course_id : Z) (e : Exn) : M unit :=
  match e with
  | Unauthorized => print (UnauthorizedCourseFiles course_id e)
  | _ => print (ErrorCourseFiles course_id e)
  end.

Definition course_handler (course_id : Z) (e : Exn) : M unit :=
  match e with
  | Unauthorized => print (UnauthorizedCourse course_id e)
  | ResourceDoesNotExist => print (CourseDoesNotExist course_id e)
  | _ => print (ErrorCourse course_id e)
  end.

(** The disk after a download: the destination holds what was streamed
    when the request was answered without error status and the file could
    be opened; otherwise the disk is as it was. *)
Definition download_disk (t : Task) (w : World) : gmap str (list N) :=
  if negb (startswith (task_url t) (lit "http")) then files w
  else
    match requests_get (task_url t) with
    | Raise _ => files w
    | Ok r =>
        if bool_decide (400 ≤ status_code r < 600)%Z then files w
        else if cannot_open (dest_of (task_name t) (task_dir t)) (dirs w) then files w
        else <[dest_of (task_name t) (task_dir t) := concat (items (body r))]> (files w)
    end.

(** The calls [process_files] makes. *)
Definition is_http_call (c : Call) : Prop :=
  match c with
  | Head _ | Get _ => True
  | _ => False
  end.

(** [w'] is [w] after some more calls, all of them in [P]. *)
Definition adds_calls (P : Call → Prop) (w w' : World) : Prop :=
  ∃ k, calls w' = calls w ++ k ∧ Forall P k.

(** The lines still to be printed in a batch: the skip lines of the loop
    and the line of every task that has not completed. *)
Definition pending_lines (d : str) (ds : gset str) (b : Batch) : list Line :=
  (SkipNoURL <$> rest_skips d (pc b)) ++
  ((λ t, download_line t ds) <$> (queue b ++ running b ++ rest_tasks d (pc b))).

(** The world after the skip lines of the files [pre]. *)
Definition skipped_world (w : World) (pre : list File) : World :=
  mkWorld (dirs w) (files w) (console w ++ (SkipNoURL <$> pre)) (calls w).

(** A step whose worlds are always related by [R]. *)
Definition keeps (R : relation World) {A} (m : M A) : Prop := ∀ w, R w (m w).2.

(** Every call but the resolution of a course. *)
Definition not_get_course (c : Call) : Prop :=
  match c with
  | GetCourse _ => False
  | _ => True
  end.

(** The courses resolved, from the record of calls. *)
Definition course_calls (cs : list Call) : list Z :=
  omap (λ c, match c with GetCourse i => Some i | _ => None end) cs.

(** What [download_course_files] does once the course is resolved. *)
Definition course_body (course_id : Z) (course : Course) : M unit :=
  print (ProcessingCourse (course_name course)) ;;
  let course_dir := course_dir_of course in
  there <- os_path_exists course_dir ;;
  if there : bool then
    print (SkipCourse (course_name course))
  else
    os_makedirs course_dir ;;
    folder_pass course course_id course_dir ;;
    module_pass course course_id course_dir.

(** The download root of the script. *)
Definition downloads_root : str := lit "canvas_downloads".

(** The world once the script has made sure of its download root. *)
Definition rooted (w : World) : World :=
  if is_dir downloads_root w || is_file downloads_root w then w
  else mkWorld (dirs w ∪ {[downloads_root]}) (files w) (console w) (calls w).

(** The calls of the folder pass after the listing of the folders, and
    those of the module pass after the listing of the modules. *)
Definition is_walk_call (c : Call) : Prop :=
  match c with
  | FolderGetFiles _ | FolderGetFolders _ | Head _ | Get _ => True
  | _ => False
  end.

Definition is_module_call (c : Call) : Prop :=
  match c with
  | ModuleGetItems _ | GetFile _ | Head _ | Get _ => True
  | _ => False
  end.

(** The files asked for by content id, from the record of calls. *)
Definition file_calls (cs : list Call) : list Z :=
  omap (λ c, match c with GetFile i => Some i | _ => None end) cs.

(** The content ids of the module items of type [File]. *)
Definition file_items (l : list ModuleItem) : list Z :=
  content_id <$> filter (λ item, item_type item = lit "File") l.

(** A module item of type [File] whose file is not there, or is there
    with a size probe that answers if it has a URL. *)
Definition item_answers (item : ModuleItem) : Prop :=
  item_type item = lit "File" →
  canvas_get_file (content_id item) = Raise ResourceDoesNotExist ∨
  ∃ f, canvas_get_file (content_id item) = Ok f ∧ probe_answers f.

(** The directory of a module and the [except] clauses around its items. *)
Definition module_dir_of (course_dir : str) (module : Module) : str :=
  os_path_join course_dir (sanitize_filename (module_name module)).

Definition module_items_handler (module : Module) (course_id : Z) (e : Exn) : Line :=
  match e with
  | Unauthorized => UnauthorizedModuleItems (module_id module) course_id e
  | _ => ErrorModuleItems (module_id module) course_id e
  end.

(** [p] is on the way to [d] or below it, as the paths are spelled. *)
Definition along (d p : str) : Prop := p `prefix_of` d ∨ d `prefix_of` p.

(** What the disk of [w'] has more than that of [w] is spelled along [d]
    (directories) or below it (files). *)
Record confined (d : str) (w w' : World) : Prop := {
  conf_dirs : ∀ p, p ∈ dirs w' → p ∈ dirs w ∨ along d p;
  conf_files : ∀ p, p ∈ dom (files w') → p ∈ dom (files w) ∨ d `prefix_of` p;
}.

(** The tasks queued or in flight write to [d]. *)
Record batch_in (d : str) (b : Batch) : Prop := {
  in_queue : Forall (λ t, task_dir t = d) (queue b);
  in_running : Forall (λ t, task_dir t = d) (running b);
}.

(** What the disk of [w'] has more than that of [w] is spelled below
    [d]. *)
Record below (d : str) (w w' : World) : Prop := {
  below_dirs : ∀ p, p ∈ dirs w' → p ∈ dirs w ∨ d `prefix_of` p;
  below_files : ∀ p, p ∈ dom (files w') → p ∈ dom (files w) ∨ d `prefix_of` p;
}.

(** *** Where the disk of the model is a real disk *)

(** A name that makes a new entry in its directory: not empty, not [.]
    and not [..]. *)
Definition proper_name (n : str) : bool :=
  negb (bool_decide (n = [])) && negb (bool_decide (n = lit "."))
  && negb (bool_decide (n = lit "..")).

(** The names a path is made of, and the plain paths: relative, made of
    proper names.  The disk is keyed by paths as spelled; two plain paths
    name one entry of a real disk only when they are spelled the same. *)
Fixpoint components_from (acc p : str) : list str :=
  match p with
  | [] => [acc]
  | c :: p' =>
      if (c =? sep)%N then acc :: components_from [] p'
      else components_from (acc ++ [c]) p'
  end.

Definition components (p : str) : list str := components_from [] p.

Definition plain (p : str) : bool := forallb proper_name (components p).

(** A world that describes a real disk: every path on it is plain and
    every entry lies in a directory that is there. *)
Record real_disk (w : World) : Prop := {
  rd_dirs : ∀ p, p ∈ dirs w → plain p = true;
  rd_files : ∀ p, p ∈ dom (files w) → plain p = true;
  rd_dir_parents : ∀ p q, p ∈ dirs w → q ∈ ancestors p → q ∈ dirs w;
  rd_file_parents : ∀ p q, p ∈ dom (files w) → q ∈ ancestors p → q ∈ dirs w;
}.

(** The local directory of a subfolder, and the folders whose proper
    subfolders all have proper sanitized names. *)
Definition child_dir (d : str) (s : Folder) : str :=
  os_path_join d (sanitize_filename (folder_name s)).

Fixpoint plain_names (folder : Folder) : bool :=
  let 'mkFolder _ _ _ _ subfolders _ := folder in
  forallb (λ s, proper_name (sanitize_filename (folder_name s)) && plain_names s)
          subfolders.

(** The walk of [folder] as far as its [i]-th subfolder: the files of
    the folder and the subfolders listed before the [i]-th. *)
Definition descent (folder : Folder) (d : str) (i : nat) : M unit :=
  fs' <- call (FolderGetFiles (folder_id folder)) (Ok (folder_files folder)) ;;
  process_files fs' d ;;
  call (FolderGetFolders (folder_id folder)) (Ok tt) ;;
  for_each (subfolder_body d) None (take i (folder_subfolders folder)).

(** The walk of [folder], started in [w], enters its [i]-th subfolder
    [s] in the world [w1]: nothing raised on the way (a refused listing of
    the files of [folder] would), the directory of [s] could be made, and
    the folders met so far have proper names. *)
Record enters (folder : Folder) (d : str) (i : nat) (s : Folder) (w w1 : World) :
    Prop := {
  enters_child : folder_subfolders folder !! i = Some s;
  enters_earlier :
    forallb (λ x, proper_name (sanitize_filename (folder_name x)) && plain_names x)
            (take i (folder_subfolders folder)) = true;
  enters_name : proper_name (sanitize_filename (folder_name s)) = true;
  enters_run : (descent folder d i ;; os_makedirs (child_dir d s)) w = (Ok tt, w1);
}.

(** The world in which the folder pass over a new course starts its
    walk. *)
Definition walk_start (course_id : Z) (course : Course) (w : World) : World :=
  mkWorld (dirs w ∪ list_to_set (ancestors (course_dir_of course) ++
                                 [course_dir_of course]))
    (files w) (console w ++ [ProcessingCourse (course_name course)])
    (calls w ++ [GetCourse course_id; CourseGetFolders course_id]).

(** The line of the folder pass when no folder is the root. *)
Definition no_root_line (course_id : Z) (course : Course) : Line :=
  match default StopIteration (fault (course_folders course)) with
  | Unauthorized => UnauthorizedCourseFiles course_id Unauthorized
  | e => ErrorCourseFiles course_id e
  end.

End Analysis.

(** ** Sample services and data, used to run the definitions *)

(** ASCII letters and digits: the part of the Unicode table the samples
    need. *)
Definition ascii_isalnum (c : char) : bool :=
  ((48 <=? c) && (c <=? 57) || (65 <=? c) && (c <=? 90) || (97 <=? c) && (c <=? 122))%N.

Definition sample_unicode : Unicode := {| isalnum := ascii_isalnum |}.

(** A disk with the given directories and no file, before any output. *)
Definition disk_with (ds : list str) : World := mkWorld (list_to_set ds) ∅ [] [].

Definition sample_body : Listing (list N) := py_list [[1; 2; 3]%N; []; [4]%N].

(** URLs ending in [/gone] answer 404, those ending in [/moved] answer 304,
    those ending in [/down] cannot be reached; the size probe of a URL
    ending in [/noprobe] fails. *)
Definition url_ends (u : str) (s : string) : bool :=
  bool_decide (basename u = lit s).

Definition sample_services : Services := {|
  py_int := λ _, Ok 4%Z;
  requests_head := λ u, if url_ends u "noprobe" then Raise ConnectionError
                        else Ok (Some (lit "4"));
  requests_get := λ u,
    if url_ends u "down" then Raise ConnectionError
    else if url_ends u "gone" then Ok (mkResponse 404 (py_list []))
    else if url_ends u "moved" then Ok (mkResponse 304 (py_list []))
    else Ok (mkResponse 200 sample_body);
  canvas_get_course := λ i,
    if bool_decide (i = 7%Z) then
      Ok (mkCourse (lit "Bio: 101")
            (py_list [mkFolder 1 (lit "course files") (lit "course files")
                        (py_list []) [] None])
            (py_list []))
    else Raise ResourceDoesNotExist;
  canvas_get_file := λ _, Raise ResourceDoesNotExist;
|}.

Definition file_a : File := mkFile 1 (lit "a?.txt") (Some (lit "http://h/a")).
Definition file_nourl : File := mkFile 2 (lit "b.txt") None.
Definition file_empty_url : File := mkFile 3 (lit "c.txt") (Some []).
Definition file_noprobe : File := mkFile 4 (lit "d.txt") (Some (lit "http://h/noprobe")).
Definition file_gone : File := mkFile 5 (lit "e.txt") (Some (lit "http://h/gone")).
Definition file_moved : File := mkFile 6 (lit "f.txt") (Some (lit "http://h/moved")).
Definition file_upper : File := mkFile 7 (lit "g.txt") (Some (lit "HTTP://h/g")).

(** A folder tree with a file three folders below the root. *)
Definition folder_c : Folder :=
  mkFolder 13 (lit "data") (lit "course files/Week 1/Lab:A/data")
    (py_list [file_a]) [] None.
Definition folder_b : Folder :=
  mkFolder 12 (lit "Lab:A") (lit "course files/Week 1/Lab:A") (py_list []) [folder_c] None.
Definition folder_a : Folder :=
  mkFolder 11 (lit "Week 1") (lit "course files/Week 1") (py_list []) [folder_b] None.
Definition sample_root : Folder :=
  mkFolder 10 (lit "course files") (lit "course files") (py_list []) [folder_a] None.

(** The same tree when Canvas refuses to list the files of [Week 1]. *)
Definition folder_a_refused : Folder :=
  mkFolder 11 (lit "Week 1") (lit "course files/Week 1")
    (mkListing [] (Some Unauthorized)) [folder_b] None.
Definition sample_root_refused : Folder :=
  mkFolder 10 (lit "course files") (lit "course files") (py_list []) [folder_a_refused] None.

(** Three sibling folders, the second of which is refused. *)
Definition sibling_1 : Folder := mkFolder 21 (lit "one") (lit "one") (py_list []) [] None.
Definition sibling_2 : Folder :=
  mkFolder 22 (lit "two") (lit "two") (mkListing [] (Some Unauthorized)) [] None.
Definition sibling_3 : Folder := mkFolder 23 (lit "three") (lit "three") (py_list []) [] None.

(** A second set of services: the stream of a URL ending in [/cut]
    breaks after its first chunk; file 1 is there, file 3 may not be
    seen, the others do not exist; every course has the sample tree and
    one module. *)
Definition cut_body : Listing (list N) := mkListing [[1; 2]%N] (Some ConnectionError).

Definition item_missing : ModuleItem := mkModuleItem 41 (lit "File") 2.
Definition item_page : ModuleItem := mkModuleItem 42 (lit "Page") 9.
Definition item_there : ModuleItem := mkModuleItem 43 (lit "File") 1.
Definition item_refused : ModuleItem := mkModuleItem 44 (lit "File") 3.

Definition sample_module : Module :=
  mkModule 31 (lit "Unit 1") (py_list [item_missing; item_page; item_there]).
Definition refused_module : Module :=
  mkModule 32 (lit "Unit 2") (py_list [item_missing; item_refused; item_there]).

Definition module_services : Services := {|
  py_int := λ _, Ok 4%Z;
  requests_head := λ _, Ok None;
  requests_get := λ u,
    if url_ends u "cut" then Ok (mkResponse 200 cut_body)
    else Ok (mkResponse 200 sample_body);
  canvas_get_course := λ _,
    Ok (mkCourse (lit "Chem") (py_list [sample_root])
          (py_list [sample_module; refused_module]));
  canvas_get_file := λ i,
    if bool_decide (i = 1%Z) then Ok file_a
    else if bool_decide (i = 3%Z) then Raise Unauthorized
    else Raise ResourceDoesNotExist;
|}.

(** Two listings of courses: one that comes through and one that breaks
    after its first course. *)
Definition sample_enrollment : Enrollment := {| canvas_get_courses := py_list [7; 8; 9]%Z |}.
Definition broken_enrollment : Enrollment :=
  {| canvas_get_courses := mkListing [7%Z] (Some ConnectionError) |}.

(** A course whose only folder literally named [course files] is a
    nested one. *)
Definition folder_old : Folder :=
  mkFolder 2 (lit "course files") (lit "course files/Old/course files")
    (py_list [file_a]) [] None.

Definition nested_course : Course :=
  mkCourse (lit "Chem") (py_list [folder_old]) (py_list []).

Definition nested_services : Services := {|
  py_int := λ _, Ok 4%Z;
  requests_head := λ _, Ok None;
  requests_get := λ _, Ok (mkResponse 200 sample_body);
  canvas_get_course := λ _, Ok nested_course;
  canvas_get_file := λ _, Raise ResourceDoesNotExist;
|}.

Section SampleRuns.
Existing Instance sample_unicode.
Existing Instance sample_services.
Existing Instance in_order_scheduler.

Definition four_files : Listing File := py_list [file_a; file_gone; file_moved; file_nourl].

(** A worked schedule: the calling thread probes three files, two workers
    start. *)
Definition busy_batch : Batch :=
  Eval vm_compute in
    default (batch_init four_files (disk_with [lit "d"]))
      (moves (lit "d") [Main; Main; Main; Start; Start]
         (batch_init four_files (disk_with [lit "d"]))).

Definition batch_with_failure : Listing File := py_list [file_a; file_gone; file_nourl].

(** A first batch that is over, and a second one with two downloads in
    flight. *)
Definition first_batch_over : Batch :=
  Eval vm_compute in run_batch four_files (lit "d") (disk_with [lit "d"; lit "e"]).

Definition second_batch_busy : Batch :=
  Eval vm_compute in
    default first_batch_over
      (moves (lit "e") [Main; Main; Start; Main; Start]
         (batch_init four_files (world first_batch_over))).

Definition course_7 : Course :=
  mkCourse (lit "Bio: 101")
    (py_list [mkFolder 1 (lit "course files") (lit "course files") (py_list []) [] None])
    (py_list []).

(** The batch of [four_files] under another schedule: the second
    download completes first. *)
Definition reordered_batch : Batch :=
  Eval vm_compute in
    default (batch_init four_files (disk_with [lit "d"]))
      (moves (lit "d")
         [Main; Start; Main; Start; Finish 1; Main; Start; Main; Main;
          Finish 0; Finish 0; Main]
         (batch_init four_files (disk_with [lit "d"]))).

End SampleRuns.

(** * Properties *)

Section Properties.
Context `{Unicode} `{Services} `{!Scheduler}.

(** ** The sanitizer *)

Lemma sanitize_set_allow c :
  class_matches true sanitize_set c = false ↔ allow_listed c.
Proof.
  unfold class_matches, sanitize_set, allow_listed, existsb, item_matches.
  rewrite <- !N.eqb_eq.
  destruct (is_word c), (c =? chr "-")%N, (c =? chr "_")%N, (c =? chr ".")%N,
    (c =? chr " ")%N; simpl; intuition discriminate.
Qed.

Lemma sanitize_filename_cons c s :
  sanitize_filename (c :: s) =
  (if class_matches true sanitize_set c then chr "_" else c) :: sanitize_filename s.
Proof.
  unfold sanitize_filename, re_sub_class. cbn [flat_map].
  by destruct (class_matches true sanitize_set c).
Qed.

Lemma underscore_kept : class_matches true sanitize_set (chr "_") = false.
Proof. apply sanitize_set_allow. right; right; by left. Qed.

Lemma sanitize_filename_allowed s : Forall allow_listed (sanitize_filename s).
Proof.
  induction s as [|c s IH]; [constructor|].
  rewrite sanitize_filename_cons. constructor; [|done].
  destruct (class_matches true sanitize_set c) eqn:E.
  - apply sanitize_set_allow, underscore_kept.
  - by apply sanitize_set_allow.
Qed.

Lemma sanitize_filename_fixed s :
  Forall allow_listed s → sanitize_filename s = s.
Proof.
  induction 1 as [|c s Hc _ IH]; [done|].
  rewrite sanitize_filename_cons, IH.
  apply sanitize_set_allow in Hc. by rewrite Hc.
Qed.

(** C1. Every character of [sanitize_filename s] is on the allow-list
    (a word character, hyphen, underscore, period or space), and
    sanitizing twice is sanitizing once. *)
Theorem sanitize_filename_allowlist_idempotent (s : str) :
  Forall allow_listed (sanitize_filename s) ∧
  sanitize_filename (sanitize_filename s) = sanitize_filename s.
Proof.
  split.
  - apply sanitize_filename_allowed.
  - apply sanitize_filename_fixed, sanitize_filename_allowed.
Qed.

(** *** Sanitized names in paths *)

Lemma sep_not_allowed : isalnum sep = false → ¬ allow_listed sep.
Proof.
  intros Hsep. unfold allow_listed, is_word. rewrite Hsep.
  intros [Hw|[Hw|[Hw|[Hw|Hw]]]]; discriminate Hw.
Qed.

Lemma sanitize_filename_no_sep s : isalnum sep = false → sep ∉ sanitize_filename s.
Proof.
  intros Hsep Hin. pose proof (sanitize_filename_allowed s) as Hall.
  rewrite Forall_forall in Hall. by apply (sep_not_allowed Hsep), Hall.
Qed.

Lemma split_last_sep_no_sep (b : str) : sep ∉ b → split_last_sep b = None.
Proof.
  induction b as [|c b IH]; [done|]. intros Hb.
  apply not_elem_of_cons in Hb as [Hc Hb]. simpl. rewrite (IH Hb).
  destruct (c =? sep)%N eqn:E; [|done]. apply N.eqb_eq in E. congruence.
Qed.

Lemma split_last_sep_app (a b : str) :
  sep ∉ b → split_last_sep (a ++ sep :: b) = Some (a, b).
Proof.
  intros Hb. induction a as [|c a IH]; simpl.
  - by rewrite (split_last_sep_no_sep b Hb).
  - by rewrite IH.
Qed.

Lemma startswith_sep_false (b : str) : sep ∉ b → startswith b [sep] = false.
Proof.
  destruct b as [|c b]; [done|]. intros [Hc _]%not_elem_of_cons.
  cbn [startswith]. destruct (sep =? c)%N eqn:E; [|done].
  apply N.eqb_eq in E. congruence.
Qed.

Lemma os_path_join_under (a b : str) :
  a ≠ [] → last a ≠ Some sep → sep ∉ b → os_path_join a b = a ++ sep :: b.
Proof.
  intros Ha Hl Hb. unfold os_path_join. rewrite (startswith_sep_false b Hb).
  destruct (last a) as [x|] eqn:Hx; [|by apply last_None in Hx].
  destruct (x =? sep)%N eqn:E; [|done]. apply N.eqb_eq in E. congruence.
Qed.

(** ** The monad *)

Lemma bind_ok {A B} (m : M A) (k : A → M B) w a w' :
  m w = (Ok a, w') → bind m k w = k a w'.
Proof. unfold bind. by intros ->. Qed.

Lemma bind_raise {A B} (m : M A) (k : A → M B) w e w' :
  m w = (Raise e, w') → bind m k w = (Raise e, w').
Proof. unfold bind. by intros ->. Qed.

Global Instance extends_refl : Reflexive extends.
Proof. intros w. by split. Qed.

Global Instance extends_trans : Transitive extends.
Proof.
  intros w1 w2 w3 [D1 F1 C1 K1] [D2 F2 C2 K2].
  split; [set_solver|set_solver|by trans (console w2)|by trans (calls w2)].
Qed.

Global Instance same_dirs_refl : Reflexive same_dirs.
Proof. intros w. by split. Qed.

Global Instance same_dirs_trans : Transitive same_dirs.
Proof.
  intros w1 w2 w3 [D1 F1 C1 K1] [D2 F2 C2 K2].
  split; [congruence|by trans (dom (files w2))|by trans (console w2)|by trans (calls w2)].
Qed.

Lemma same_dirs_extends w w' : same_dirs w w' → extends w w'.
Proof. intros [E ? ? ?]. split; [by rewrite E|done..]. Qed.

(** ** [download_file] *)

Lemma written_dom p chunks fs : p ∈ dom fs → p ∈ dom (written p chunks fs).
Proof.
  revert fs. induction chunks as [|c chunks IH]; intros fs Hp; [done|].
  simpl. apply IH. destruct c; [done|]. rewrite dom_insert_L. set_solver.
Qed.

Lemma written_dom_mono p chunks fs : dom fs ⊆ dom (written p chunks fs).
Proof.
  revert fs. induction chunks as [|c chunks IH]; intros fs; [done|].
  simpl. etrans; [|apply IH]. destruct c; [done|]. rewrite dom_insert_L. set_solver.
Qed.

Lemma write_chunks_spec p l w :
  write_chunks p l w =
  (match fault l with Some e => Raise e | None => Ok tt end,
   mkWorld (dirs w) (written p (items l) (files w)) (console w) (calls w)).
Proof.
  unfold write_chunks. destruct l as [chunks fl]; simpl.
  revert w. induction chunks as [|c chunks IH]; intros w.
  - destruct w; by destruct fl.
  - simpl. destruct c as [|x c].
    + unfold bind, ret. rewrite IH. by destruct w.
    + unfold bind, write. rewrite IH. done.
Qed.

Lemma download_file_spec u n d w :
  ∃ fs',
    download_file u n d w =
      (Ok tt, mkWorld (dirs w) fs'
                (console w ++ [download_line (mkTask u n d) (dirs w)])
                (calls w ++ if startswith u (lit "http") then [Get u] else [])) ∧
    (startswith u (lit "http") = false ∨ get_fails u = true → fs' = files w) ∧
    (∀ p, download_line (mkTask u n d) (dirs w) = Downloaded p → p ∈ dom fs') ∧
    dom (files w) ⊆ dom fs'.
Proof.
  unfold download_file, download_line, get_fails; simpl.
  destruct (startswith u (lit "http")) eqn:Ehttp; simpl.
  2:{ exists (files w). unfold print, printed. rewrite app_nil_r. split; [done|].
      split; [done|]. split; [|done]. intros p [=]. }
  unfold try_except, bind, call, recorded.
  destruct (requests_get u) as [r|e]; simpl.
  2:{ exists (files w). unfold print, printed; simpl. split; [done|].
      split; [done|]. split; [|done]. intros p [=]. }
  unfold raise_for_status.
  destruct (bool_decide (400 ≤ status_code r < 600)%Z) eqn:Est; simpl.
  { exists (files w). unfold raise, print, printed; simpl. split; [done|].
    split; [done|]. split; [|done]. intros p [=]. }
  unfold ret, open_wb, names_directory, parent_missing, is_dir, cannot_open, dest_of; simpl.
  set (dest := os_path_join d (sanitize_filename n)).
  destruct (bool_decide (dest ∈ dirs w) || bool_decide (basename dest = [])
            || bool_decide (basename dest = lit ".")
            || bool_decide (basename dest = lit "..")
            || negb (bool_decide (dirname dest = []) || bool_decide (dirname dest ∈ dirs w)))
    eqn:Eopen; simpl.
  { exists (files w). unfold print, printed; simpl. split; [done|].
    split; [by intros [[=]|[=]]|]. split; [|done]. intros p [=]. }
  rewrite write_chunks_spec; simpl.
  eexists. split.
  { destruct (fault (body r)); unfold print, printed; simpl; reflexivity. }
  split; [by intros [[=]|[=]]|]. split.
  - intros p Hp. destruct (fault (body r)); simplify_eq.
    apply written_dom. rewrite dom_insert_L. set_solver.
  - etrans; [|apply written_dom_mono]. rewrite dom_insert_L. set_solver.
Qed.

Lemma download_file_returns u n d w : (download_file u n d w).1 = Ok tt.
Proof. destruct (download_file_spec u n d w) as (fs' & -> & _). done. Qed.

Lemma run_task_spec t w :
  ∃ fs', run_task t w =
         mkWorld (dirs w) fs' (console w ++ [download_line t (dirs w)])
           (calls w ++ if startswith (task_url t) (lit "http")
                       then [Get (task_url t)] else []) ∧
         (∀ p, download_line t (dirs w) = Downloaded p → p ∈ dom fs') ∧
         dom (files w) ⊆ dom fs'.
Proof.
  unfold run_task. destruct t as [u n d]; simpl.
  destruct (download_file_spec u n d w) as (fs' & -> & _ & ? & ?). by exists fs'.
Qed.

(** ** One turn of the loop of [process_files] *)

Lemma loop_body_spec file d w :
  loop_body file d w =
  (turn file d,
   mkWorld (dirs w) (files w)
     (console w ++ if falsy (url file) then [SkipNoURL file] else [])
     (calls w ++ if falsy (url file) then [] else [Head (default [] (url file))])).
Proof.
  unfold loop_body, turn, probe, size_probe.
  destruct (falsy (url file)); simpl.
  - unfold bind, print, printed, ret; simpl. by rewrite app_nil_r.
  - unfold bind, call, recorded, lift, ret; simpl. rewrite app_nil_r.
    destruct (requests_head _) as [[text|]|e]; simpl; [|done..].
    by destruct (py_int text).
Qed.

Lemma skip_lines_app c1 c2 : skip_lines (c1 ++ c2) = skip_lines c1 ++ skip_lines c2.
Proof. apply omap_app. Qed.

Lemma skip_lines_download t ds : skip_lines [download_line t ds] = [].
Proof.
  unfold download_line.
  repeat (case_match; simpl; try done).
Qed.

Lemma skip_lines_prefix c1 c2 : c1 `prefix_of` c2 → skip_lines c1 `prefix_of` skip_lines c2.
Proof. intros [k ->]. rewrite skip_lines_app. by eexists. Qed.

Lemma unauthorized_lines_app c1 c2 :
  unauthorized_lines (c1 ++ c2) = unauthorized_lines c1 ++ unauthorized_lines c2.
Proof. apply omap_app. Qed.

Lemma unauthorized_lines_download t ds : unauthorized_lines [download_line t ds] = [].
Proof.
  unfold download_line.
  repeat (case_match; simpl; try done).
Qed.

Lemma task_done_later t w w' : same_dirs w w' → task_done t w → task_done t w'.
Proof.
  intros [Hd Hf [k Hc] _] [Hline Hfile]. unfold task_done. rewrite Hd, Hc. split.
  - apply elem_of_app. by left.
  - intros p Hp. apply Hf. by apply Hfile.
Qed.

Lemma batch_kept_refl d b : batch_kept d b b.
Proof. by split. Qed.

Lemma batch_kept_trans d b1 b2 b3 :
  batch_kept d b1 b2 → batch_kept d b2 b3 → batch_kept d b1 b3.
Proof.
  intros [] []. split.
  - by etrans.
  - congruence.
  - congruence.
  - by etrans.
  - congruence.
  - auto.
  - by etrans.
Qed.

Lemma batch_step_kept d b b' : batch_step d b b' → batch_kept d b b'.
Proof.
  destruct 1 as [file todo fl q r c w ot w' Hb|file todo fl q r c w e w' Hb
                |q r c w|e q r c w|p t q r c w Hlen|p q r1 t r2 c w|c w|e c w].
  - rewrite loop_body_spec in Hb. injection Hb as Ht <-.
    assert (same_dirs w (mkWorld (dirs w) (files w)
              (console w ++ (if falsy (url file) then [SkipNoURL file] else []))
              (calls w ++ (if falsy (url file) then [] else [Head (default [] (url file))]))))
      as Hsame by (split; simpl; [done..|by apply prefix_app_r|by apply prefix_app_r]).
    split; unfold all_tasks; simpl; rewrite ?Ht.
    + destruct (plan todo fl d) as [ts out]; simpl.
      rewrite <- !app_assoc. apply Permutation_app_head.
      rewrite !(app_assoc r c). apply Permutation_app_swap_app.
    + by destruct (plan todo fl d).
    + rewrite skip_lines_app, <- app_assoc. f_equal.
      by destruct (falsy (url file)).
    + done.
    + rewrite unauthorized_lines_app. destruct (falsy (url file)); simpl; by rewrite app_nil_r.
    + intros Hc t Ht'. eapply task_done_later; [exact Hsame|by apply Hc].
    + done.
  - rewrite loop_body_spec in Hb. injection Hb as Ht <-.
    assert (same_dirs w (mkWorld (dirs w) (files w)
              (console w ++ (if falsy (url file) then [SkipNoURL file] else []))
              (calls w ++ (if falsy (url file) then [] else [Head (default [] (url file))]))))
      as Hsame by (split; simpl; [done..|by apply prefix_app_r|by apply prefix_app_r]).
    split; unfold all_tasks; simpl; rewrite ?Ht; simpl.
    + done.
    + done.
    + rewrite skip_lines_app, <- app_assoc. f_equal.
      unfold turn in Ht. by destruct (falsy (url file)).
    + done.
    + rewrite unauthorized_lines_app. destruct (falsy (url file)); simpl; by rewrite app_nil_r.
    + intros Hc t Ht'. eapply task_done_later; [exact Hsame|by apply Hc].
    + done.
  - by split.
  - by split.
  - split; unfold all_tasks; simpl; try done.
    rewrite <- !app_assoc. simpl. rewrite !(app_assoc q r).
    symmetry. apply Permutation_middle.
  - destruct (run_task_spec t w) as (fs' & Hrun & Hfile & Hdom).
    assert (same_dirs w (run_task t w)) as Hsame.
    { rewrite Hrun. split; simpl; [done..|by apply prefix_app_r|by apply prefix_app_r]. }
    split; unfold all_tasks; simpl.
    + rewrite <- !app_assoc. simpl. do 2 apply Permutation_app_head.
      rewrite !(app_assoc r2 c). symmetry. apply Permutation_middle.
    + done.
    + rewrite Hrun; simpl.
      by rewrite skip_lines_app, skip_lines_download, app_nil_r.
    + done.
    + rewrite Hrun; simpl.
      by rewrite unauthorized_lines_app, unauthorized_lines_download, app_nil_r.
    + intros Hc t' Ht'. rewrite elem_of_app in Ht'.
      destruct Ht' as [Ht'|Ht'%list_elem_of_singleton].
      * eapply task_done_later; [exact Hsame|by apply Hc].
      * subst t'. rewrite Hrun. split; simpl; [|done].
        apply elem_of_app. right. by apply list_elem_of_singleton.
    + by apply prefix_app_r.
  - by split.
  - by split.
Qed.

Lemma batch_run_kept d b b' : rtc (batch_step d) b b' → batch_kept d b b'.
Proof.
  induction 1 as [b|b1 b2 b3 Hstep _ IH]; [apply batch_kept_refl|].
  eapply batch_kept_trans; [by apply batch_step_kept|done].
Qed.

Lemma batch_init_ok fs w : batch_ok (batch_init fs w).
Proof. split; simpl; [lia|done]. Qed.

Lemma batch_step_ok d b b' : batch_ok b → batch_step d b b' → batch_ok b'.
Proof.
  intros [Hbound Hidle] Hstep.
  destruct Hstep; simpl in *; split; simpl; try done; try lia.
  - rewrite length_app; simpl. lia.
  - intros Hp. by destruct (Hidle Hp).
  - rewrite length_app in *; simpl in *. lia.
  - intros Hp. destruct (Hidle Hp) as [_ Hr]. by destruct r1.
Qed.

Lemma batch_run_ok d b b' : batch_ok b → rtc (batch_step d) b b' → batch_ok b'.
Proof. intros Hok. induction 1; eauto using batch_step_ok. Qed.

(** *** Every run of a batch ends *)

Lemma batch_step_measure d b b' : batch_step d b b' → measure b' < measure b.
Proof.
  destruct 1 as [? ? ? ? ? ? ? ot| | | | | | |]; unfold measure; simpl;
    rewrite ?length_app; simpl; try lia.
  destruct ot; simpl; lia.
Qed.

Lemma batch_sn d b : sn (batch_step d) b.
Proof.
  remember (measure b) as n eqn:Hn. revert b Hn.
  induction n as [n IH] using lt_wf_ind. intros b ->.
  constructor. intros b' Hstep. eapply IH; [|done].
  by eapply batch_step_measure.
Qed.

Lemma batch_progress d b : ¬ terminal b → red (batch_step d) b.
Proof.
  destruct b as [p q r c w]. unfold terminal; simpl. intros Hp.
  destruct p as [[|file todo] fl| | | |]; try done.
  - destruct fl; eexists; constructor.
  - destruct (loop_body file d w) as [[ot|e] w'] eqn:Hb; eexists.
    + by apply step_iter.
    + by apply step_iter_raise.
  - destruct r as [|t r].
    + destruct q; eexists; [apply step_return|apply step_start; simpl; unfold MAX_THREADS; lia].
    + eexists. apply (step_finish d _ _ [] t r).
  - destruct r as [|t r].
    + destruct q; eexists; [apply step_propagate|apply step_start; simpl; unfold MAX_THREADS; lia].
    + eexists. apply (step_finish d _ _ [] t r).
Qed.

Lemma batch_finishes d b : ∃ b', rtc (batch_step d) b b' ∧ terminal b'.
Proof.
  induction (batch_sn d b) as [b _ IH].
  destruct (decide (terminal b)) as [Ht|Ht]; [by exists b|].
  destruct (batch_progress d b Ht) as [b1 Hstep].
  destruct (IH b1 Hstep) as (b' & Hrun & Hb'). exists b'. split; [|done].
  by eapply rtc_l.
Qed.

(** *** Schedules as data *)

Lemma move_sound d m b b' : move d m b = Some b' → batch_step d b b'.
Proof.
  destruct b as [p q r c w]. destruct m as [| |i]; simpl.
  - destruct p as [[|file todo] fl| |e| |]; try done.
    + destruct fl; intros [= <-]; constructor.
    + destruct (loop_body file d w) as [[ot|e] w'] eqn:Hb; intros [= <-].
      * by apply step_iter.
      * by apply step_iter_raise.
    + destruct q, r; intros [= <-]; constructor.
    + destruct q, r; intros [= <-]; constructor.
  - destruct q as [|t q]; [done|]. case_decide; [|done].
    intros [= <-]. by constructor.
  - destruct (r !! i) as [t|] eqn:Hi; [|done]. intros [= <-].
    rewrite delete_take_drop.
    rewrite <- (take_drop_middle r i t Hi) at 1. constructor.
Qed.

Lemma moves_sound d ms b b' : moves d ms b = Some b' → rtc (batch_step d) b b'.
Proof.
  revert b. induction ms as [|m ms IH]; intros b; simpl.
  - by intros [= <-].
  - destruct (move d m b) as [b1|] eqn:Hm; [|done]. intros Hms.
    eapply rtc_l; [by eapply move_sound|by apply IH].
Qed.

(** *** What a finished batch looks like *)

Lemma batch_terminal_facts fs d w b :
  rtc (batch_step d) (batch_init fs w) b → terminal b →
  queue b = [] ∧ running b = [] ∧
  completed b ≡ₚ (plan (items fs) (fault fs) d).1 ∧
  pc b = end_pc (plan (items fs) (fault fs) d).2 ∧
  skip_lines (console (world b)) = skip_lines (console w) ++ skips (items fs) d ∧
  same_dirs w (world b) ∧
  unauthorized_lines (console (world b)) = unauthorized_lines (console w) ∧
  (∀ t, t ∈ completed b → task_done t (world b)).
Proof.
  intros Hrun Hterm.
  destruct (batch_run_ok d _ _ (batch_init_ok fs w) Hrun) as [_ Hidle].
  destruct (Hidle Hterm) as [Hq Hr].
  destruct (batch_run_kept d _ _ Hrun) as [Htasks Hout Hskips Hworld Hun Hlines _].
  unfold all_tasks in Htasks. rewrite Hq, Hr in Htasks. simpl in *.
  unfold terminal in Hterm.
  destruct (pc b) eqn:Hpc; try done; simpl in *;
    rewrite !app_nil_r in *; split_and!; try done;
    try (by rewrite <- Hout);
    try (intros t Ht; apply Hlines; [|done];
         intros t' Ht'; by apply not_elem_of_nil in Ht').
Qed.

Lemma plan_probes_answer files fl d :
  Forall probe_answers files →
  plan files fl d = (task_of d <$> filter (λ f, falsy (url f) = false) files, fl) ∧
  skips files d = filter (λ f, falsy (url f) = true) files.
Proof.
  induction 1 as [|f files Hf _ [IHp IHs]]; [done|].
  simpl. unfold turn, probe_answers in *.
  rewrite IHp, IHs. rewrite !filter_cons.
  destruct (falsy (url f)) eqn:Hu; simpl; [done|].
  by destruct (Hf eq_refl) as [n ->].
Qed.

Lemma filter_falsy_length (files : list File) :
  length (filter (λ f, falsy (url f) = false) files) =
  length files - length (filter (λ f, falsy (url f) = true) files).
Proof.
  induction files as [|f files IH]; [done|].
  rewrite !filter_cons.
  pose proof (length_filter (λ f, falsy (url f) = true) files).
  destruct (falsy (url f)); simpl; lia.
Qed.

Lemma plan_first_failure pre f post fl d e :
  Forall probe_answers pre →
  falsy (url f) = false → probe (default [] (url f)) = Raise e →
  plan (pre ++ f :: post) fl d =
    (task_of d <$> filter (λ f, falsy (url f) = false) pre, Some e) ∧
  skips (pre ++ f :: post) d = filter (λ f, falsy (url f) = true) pre.
Proof.
  intros Hpre Hu He.
  induction Hpre as [|g pre Hg _ [IHp IHs]]; simpl.
  - unfold turn. by rewrite Hu, He.
  - unfold turn, probe_answers in *. rewrite IHp, IHs, !filter_cons.
    destruct (falsy (url g)) eqn:Hgu; simpl; [done|].
    by destruct (Hg eq_refl) as [n ->].
Qed.

Lemma turn_without_url f d : falsy (url f) = true → turn f d = Ok None.
Proof. unfold turn. by intros ->. Qed.

(** C3 (amended). For every batch of M files of which N have no URL and
    in which the size probe of every other file answers: every run of
    [process_files] ends by returning, with exactly one skip line per
    file without URL (N lines) and M - N download tasks run; a file
    without URL yields no exception. *)
Theorem process_files_skips_and_attempts (batch : list File) (d : str) (w : World) :
  Forall probe_answers batch →
  (∃ b, rtc (batch_step d) (batch_init (py_list batch) w) b ∧ terminal b) ∧
  (process_files (py_list batch) d w).1 = Ok tt ∧
  (∀ f, f ∈ batch → falsy (url f) = true → turn f d = Ok None) ∧
  ∀ b, rtc (batch_step d) (batch_init (py_list batch) w) b → terminal b →
    pc b = Returned ∧
    skip_lines (console (world b)) =
      skip_lines (console w) ++ filter (λ f, falsy (url f) = true) batch ∧
    length (completed b) =
      length batch - length (filter (λ f, falsy (url f) = true) batch).
Proof.
  intros Hprobes.
  destruct (plan_probes_answer batch None d Hprobes) as [Hplan Hskips].
  assert (∀ b, rtc (batch_step d) (batch_init (py_list batch) w) b → terminal b →
    pc b = Returned ∧
    skip_lines (console (world b)) =
      skip_lines (console w) ++ filter (λ f, falsy (url f) = true) batch ∧
    length (completed b) =
      length batch - length (filter (λ f, falsy (url f) = true) batch)) as Hall.
  { intros b Hrun Hterm.
    destruct (batch_terminal_facts _ _ _ _ Hrun Hterm)
      as (_ & _ & Hc & Hpc & Hsk & _). simpl in *.
    rewrite Hplan in Hc, Hpc. rewrite Hskips in Hsk. simpl in *.
    split_and!; [done..|].
    by rewrite Hc, length_fmap, filter_falsy_length. }
  split_and!; [apply batch_finishes| |by auto using turn_without_url|done].
  destruct (Hall _ (run_batch_run (py_list batch) d w) (run_batch_terminal _ _ _))
    as (Hpc & _).
  unfold process_files; simpl. by rewrite Hpc.
Qed.

Lemma download_line_failed t ds :
  startswith (task_url t) (lit "http") = true → get_fails (task_url t) = true →
  ∃ e, download_line t ds = DownloadFailed (task_url t) e.
Proof.
  unfold download_line, get_fails. intros -> Hget; simpl.
  destruct (requests_get (task_url t)) as [r|e]; [|by eexists].
  rewrite Hget. by eexists.
Qed.

Lemma download_line_failed_same t ds ds' :
  startswith (task_url t) (lit "http") = true → get_fails (task_url t) = true →
  download_line t ds = download_line t ds'.
Proof.
  unfold download_line, get_fails. intros -> Hget; simpl.
  destruct (requests_get (task_url t)) as [r|e]; [|done]. by rewrite Hget.
Qed.

(** C4 (amended). A download that fails because the GET request raises or
    answers with a status from 400 to 599 is handled in its own task: the
    task returns, having printed its failure line and left the disk
    alone.  In every finished run of the batch all the submitted tasks
    have run to their end, each has printed the line it prints on its own,
    and the call ends the way its loop alone decides. *)
Theorem download_failure_is_contained (fs : Listing File) (d : str) (w : World)
    (b : Batch) (t : Task) :
  rtc (batch_step d) (batch_init fs w) b → terminal b →
  t ∈ (plan (items fs) (fault fs) d).1 →
  startswith (task_url t) (lit "http") = true → get_fails (task_url t) = true →
  ∃ e,
    (∀ w', download_file (task_url t) (task_name t) (task_dir t) w' =
           (Ok tt, printed (DownloadFailed (task_url t) e)
                     (recorded (Get (task_url t)) w'))) ∧
    DownloadFailed (task_url t) e ∈ console (world b) ∧
    completed b ≡ₚ (plan (items fs) (fault fs) d).1 ∧
    pc b = end_pc (plan (items fs) (fault fs) d).2 ∧
    ∀ t', t' ∈ (plan (items fs) (fault fs) d).1 →
          download_line t' (dirs w) ∈ console (world b).
Proof.
  intros Hrun Hterm Ht Hhttp Hget.
  destruct (batch_terminal_facts _ _ _ _ Hrun Hterm)
    as (_ & _ & Hc & Hpc & _ & Hsame & _ & Hlines).
  assert (∀ t', t' ∈ (plan (items fs) (fault fs) d).1 →
                download_line t' (dirs w) ∈ console (world b)) as Hall.
  { intros t' Ht'. rewrite <- (sd_dirs _ _ Hsame). apply Hlines. by rewrite Hc. }
  destruct (download_line_failed t (dirs w) Hhttp Hget) as [e He].
  exists e. split_and!; [|by rewrite <- He; apply Hall|done..].
  intros w'.
  destruct (download_file_spec (task_url t) (task_name t) (task_dir t) w')
    as (fs' & Hrun' & Hfs & _ & _).
  rewrite Hrun', Hhttp, (Hfs (or_intror Hget)).
  replace (mkTask (task_url t) (task_name t) (task_dir t)) with t by by destruct t.
  by rewrite (download_line_failed_same t (dirs w') (dirs w) Hhttp Hget), He.
Qed.

(** C9. When the size probe of a file raises (the files before it being
    skipped or probed without fault), [process_files] raises that
    exception to its caller; the only tasks ever submitted are those of
    the files before it, and they have all run when the call ends. *)
Theorem size_probe_failure_propagates (pre post : list File) (f : File)
    (fl : option Exn) (d : str) (w : World) (e : Exn) :
  Forall probe_answers pre →
  falsy (url f) = false → probe (default [] (url f)) = Raise e →
  (process_files (mkListing (pre ++ f :: post) fl) d w).1 = Raise e ∧
  ∀ b, rtc (batch_step d) (batch_init (mkListing (pre ++ f :: post) fl) w) b →
    queue b ++ running b ++ completed b ⊆+
      task_of d <$> filter (λ f, falsy (url f) = false) pre ∧
    (terminal b →
       pc b = Propagated e ∧
       completed b ≡ₚ task_of d <$> filter (λ f, falsy (url f) = false) pre).
Proof.
  intros Hpre Hu He.
  destruct (plan_first_failure pre f post fl d e Hpre Hu He) as [Hplan _].
  assert (∀ b, rtc (batch_step d) (batch_init (mkListing (pre ++ f :: post) fl) w) b →
    terminal b →
    pc b = Propagated e ∧
    completed b ≡ₚ task_of d <$> filter (λ f, falsy (url f) = false) pre) as Hend.
  { intros b Hrun Hterm.
    destruct (batch_terminal_facts _ _ _ _ Hrun Hterm) as (_ & _ & Hc & Hpc & _).
    simpl in *. by rewrite Hplan in Hc, Hpc. }
  split.
  - destruct (Hend _ (run_batch_run _ d w) (run_batch_terminal _ _ _)) as [Hpc _].
    unfold process_files; simpl. by rewrite Hpc.
  - intros b Hrun. split; [|by apply Hend].
    destruct (batch_run_kept d _ _ Hrun) as [Htasks _ _ _ _ _ _].
    unfold all_tasks in Htasks; simpl in Htasks. rewrite Hplan in Htasks; simpl in Htasks.
    rewrite <- Htasks, !app_assoc. apply submseteq_inserts_r. done.
Qed.

(** C10. For a URL that does not start with [http], [download_file] prints
    the invalid-URL line and returns: no request is made and the disk is
    as it was. *)
Theorem download_file_invalid_url (u n d : str) (w : World) :
  startswith u (lit "http") = false →
  download_file u n d w = (Ok tt, printed (InvalidURL u) w).
Proof. unfold download_file. by intros ->. Qed.

(** *** Sessions *)

Lemma idle_executors past :
  Forall (λ b, running b = []) past → sum_list (length ∘ running <$> past) = 0.
Proof.
  induction 1 as [|b past Hb _ IH]; [done|].
  rewrite fmap_cons; simpl. rewrite Hb, IH. done.
Qed.

Lemma session_ok_in_flight s : session_ok s → in_flight s = length (running (current s)).
Proof. intros [_ Hpast]. unfold in_flight. rewrite idle_executors by done. lia. Qed.

Lemma session_step_ok s s' : session_ok s → session_step s s' → session_ok s'.
Proof.
  intros [Hcur Hpast]. destruct 1 as [d b b' past Hstep|d b past fs d' Hterm]; simpl in *.
  - split; simpl; [by eapply batch_step_ok|done].
  - split; simpl; [apply batch_init_ok|].
    constructor; [|done]. by destruct (ok_idle _ Hcur Hterm).
Qed.

Lemma session_run_ok s s' : session_ok s → rtc session_step s s' → session_ok s'.
Proof. intros Hok. induction 1; eauto using session_step_ok. Qed.

Lemma session_lift d past b b' :
  rtc (batch_step d) b b' → rtc session_step (mkSession b d past) (mkSession b' d past).
Proof.
  induction 1 as [|b1 b2 b3 Hstep _ IH]; [done|].
  eapply rtc_l; [by apply session_batch|done].
Qed.

(** C6. Over any sequence of [process_files] calls, at most [MAX_THREADS]
    = 2 downloads are in flight at any moment, counting the executors of
    all the calls made so far; and when a call is over (returned or
    raised) its executor has no task queued or in flight: all the tasks
    it was given have completed. *)
Theorem at_most_two_downloads_in_flight (fs : Listing File) (d : str) (w : World)
    (s : Session) :
  rtc session_step (session_init fs d w) s →
  in_flight s ≤ 2 ∧
  length (running (current s)) ≤ MAX_THREADS ∧
  (terminal (current s) →
     queue (current s) = [] ∧ running (current s) = []) ∧
  Forall (λ b, running b = []) (earlier s).
Proof.
  intros Hrun.
  assert (session_ok (session_init fs d w)) as Hinit.
  { split; simpl; [apply batch_init_ok|constructor]. }
  pose proof (session_run_ok _ _ Hinit Hrun) as Hok.
  rewrite (session_ok_in_flight _ Hok).
  destruct Hok as [[Hbound Hidle] Hpast]. by split_and!.
Qed.

(** ** [process_files] as a function *)

Lemma process_files_facts fs d w :
  (process_files fs d w).1 =
    match (plan (items fs) (fault fs) d).2 with None => Ok tt | Some e => Raise e end ∧
  same_dirs w (process_files fs d w).2 ∧
  unauthorized_lines (console (process_files fs d w).2) = unauthorized_lines (console w) ∧
  ∀ t, t ∈ (plan (items fs) (fault fs) d).1 → task_done t (process_files fs d w).2.
Proof.
  destruct (batch_terminal_facts _ _ _ _ (run_batch_run fs d w)
              (run_batch_terminal fs d w))
    as (_ & _ & Hc & Hpc & _ & Hsame & Hun & Hdone).
  unfold process_files; simpl. split_and!; [|done..|].
  - rewrite Hpc. by destruct (plan (items fs) (fault fs) d).2.
  - intros t Ht. apply Hdone. by rewrite Hc.
Qed.

Lemma plan_no_fault files fl d ts :
  plan files fl d = (ts, None) →
  ∀ f, f ∈ files → falsy (url f) = false → task_of d f ∈ ts.
Proof.
  revert ts. induction files as [|g files IH]; intros ts Hplan f Hf Hu.
  { by apply not_elem_of_nil in Hf. }
  simpl in Hplan. unfold turn in Hplan.
  destruct (plan files fl d) as [ts' out] eqn:Hrest.
  apply elem_of_cons in Hf as [->|Hf].
  - rewrite Hu in Hplan. destruct (probe _); simplify_eq/=. apply elem_of_cons. by left.
  - destruct (falsy (url g)); [|destruct (probe _)]; simplify_eq/=.
    + by eapply IH.
    + apply elem_of_cons. right. by eapply IH.
Qed.

(** ** The folder walker *)

Lemma Folder_tree_ind (P : Folder → Prop) :
  (∀ i n fn fs subs fl, Forall P subs → P (mkFolder i n fn fs subs fl)) →
  ∀ f, P f.
Proof.
  intros Hnode. fix IH 1. intros [i n fn fs subs fl]. apply Hnode.
  induction subs as [|s subs IHsubs]; constructor; [apply IH|apply IHsubs].
Qed.

Lemma download_folder_contents_unfold folder d :
  download_folder_contents folder d =
  try_except (walk_body folder d)
             (except_unauthorized (UnauthorizedFolder (folder_id folder))).
Proof. by destruct folder. Qed.

Lemma grows_ret {A} (a : A) : grows (ret a).
Proof. by intros w. Qed.

Lemma grows_raise {A} e : grows (@raise A e).
Proof. by intros w. Qed.

Lemma grows_lift {A} (r : Res A) : grows (lift r).
Proof. by intros w. Qed.

Lemma grows_bind {A B} (m : M A) (k : A → M B) :
  grows m → (∀ a, grows (k a)) → grows (bind m k).
Proof.
  intros Hm Hk w. unfold bind. specialize (Hm w).
  destruct (m w) as [[a|e] w']; simpl in *; [|done].
  etrans; [exact Hm|apply Hk].
Qed.

Lemma grows_try {A} (m : M A) (h : Exn → M A) :
  grows m → (∀ e, grows (h e)) → grows (try_except m h).
Proof.
  intros Hm Hh w. unfold try_except. specialize (Hm w).
  destruct (m w) as [[a|e] w']; simpl in *; [done|].
  etrans; [exact Hm|apply Hh].
Qed.

Lemma grows_print l : grows (print l).
Proof. intros w. split; simpl; [done..|by apply prefix_app_r|done]. Qed.

Lemma grows_call {A} c (r : Res A) : grows (call c r).
Proof. intros w. split; simpl; [done..|by apply prefix_app_r]. Qed.

Lemma grows_makedirs p : grows (os_makedirs p).
Proof.
  intros w. unfold os_makedirs. case_match; [done|].
  split; simpl; [set_solver|done..].
Qed.

Lemma grows_exists p : grows (os_path_exists p).
Proof. by intros w. Qed.

Lemma grows_for_each {A} (body : A → M unit) fl l :
  (∀ x, x ∈ l → grows (body x)) → grows (for_each body fl l).
Proof.
  induction l as [|x l IH]; intros Hbody; simpl.
  - destruct fl; [apply grows_raise|apply grows_ret].
  - apply grows_bind; [apply Hbody; by left|]. intros _. apply IH.
    intros y Hy. apply Hbody. by right.
Qed.

Lemma grows_process_files fs d : grows (process_files fs d).
Proof. intros w. apply same_dirs_extends, process_files_facts. Qed.

Lemma grows_except_unauthorized line e : grows (except_unauthorized line e).
Proof. destruct e; simpl; auto using grows_print, grows_raise. Qed.

Lemma grows_download_folder_contents folder d : grows (download_folder_contents folder d).
Proof.
  revert d. induction folder as [i n fn fs subs fl IH] using Folder_tree_ind. intros d.
  rewrite download_folder_contents_unfold.
  apply grows_try; [|apply grows_except_unauthorized].
  unfold walk_body; simpl.
  apply grows_bind; [apply grows_call|]. intros fs'.
  apply grows_bind; [apply grows_process_files|]. intros _.
  apply grows_bind; [apply grows_call|]. intros _.
  apply grows_for_each. intros s Hs. unfold subfolder_body.
  apply grows_bind; [apply grows_makedirs|]. intros _.
  rewrite Forall_forall in IH. by apply IH.
Qed.

Lemma grows_walk_body folder d : grows (walk_body folder d).
Proof.
  unfold walk_body.
  apply grows_bind; [apply grows_call|]. intros fs'.
  apply grows_bind; [apply grows_process_files|]. intros _.
  apply grows_bind; [apply grows_call|]. intros _.
  apply grows_for_each. intros s Hs. unfold subfolder_body.
  apply grows_bind; [apply grows_makedirs|]. intros _.
  apply grows_download_folder_contents.
Qed.

Lemma grows_subfolder_loop d fl subs : grows (for_each (subfolder_body d) fl subs).
Proof.
  apply grows_for_each. intros s _. unfold subfolder_body.
  apply grows_bind; [apply grows_makedirs|]. intros _.
  apply grows_download_folder_contents.
Qed.

Lemma never_unauthorized folder d w :
  (download_folder_contents folder d w).1 ≠ Raise Unauthorized.
Proof.
  rewrite download_folder_contents_unfold. unfold try_except.
  destruct (walk_body folder d w) as [[[]|e] w1]; [done|].
  by destruct e.
Qed.

Lemma unauthorized_is_reported folder d w w1 :
  walk_body folder d w = (Raise Unauthorized, w1) →
  download_folder_contents folder d w =
    (Ok tt, printed (UnauthorizedFolder (folder_id folder) Unauthorized) w1).
Proof.
  intros Hbody. rewrite download_folder_contents_unfold. unfold try_except.
  by rewrite Hbody.
Qed.

Lemma grows_recorded c w : extends w (recorded c w).
Proof. split; simpl; [done..|by apply prefix_app_r]. Qed.

Lemma grows_printed l w : extends w (printed l w).
Proof. split; simpl; [done..|by apply prefix_app_r|done]. Qed.

Lemma walk_body_unfold folder d w :
  walk_body folder d w =
  match process_files (folder_files folder) d
          (recorded (FolderGetFiles (folder_id folder)) w) with
  | (Ok _, wb) =>
      for_each (subfolder_body d) (folder_subfolders_fault folder)
        (folder_subfolders folder) (recorded (FolderGetFolders (folder_id folder)) wb)
  | (Raise e, wb) => (Raise e, wb)
  end.
Proof.
  unfold walk_body, bind, call.
  by destruct (process_files _ d _) as [[[]|e] wb].
Qed.

Lemma walk_records_folder folder d w :
  FolderGetFiles (folder_id folder) ∈ calls (download_folder_contents folder d w).2.
Proof.
  assert (extends (recorded (FolderGetFiles (folder_id folder)) w)
            (download_folder_contents folder d w).2) as [_ _ _ [k Hk]].
  { rewrite download_folder_contents_unfold. unfold try_except.
    rewrite walk_body_unfold.
    pose proof (grows_process_files (folder_files folder) d
                  (recorded (FolderGetFiles (folder_id folder)) w)) as Ea.
    destruct (process_files _ d _) as [[[]|e] wb]; simpl in Ea.
    - pose proof (grows_subfolder_loop d (folder_subfolders_fault folder)
                    (folder_subfolders folder)
                    (recorded (FolderGetFolders (folder_id folder)) wb)) as Eb.
      destruct (for_each _ _ _ _) as [[[]|e] wc]; simpl in Eb.
      + simpl. trans wb; [done|]. trans (recorded (FolderGetFolders (folder_id folder)) wb);
          [apply grows_recorded|done].
      + trans wc; [|apply grows_except_unauthorized].
        trans wb; [done|]. trans (recorded (FolderGetFolders (folder_id folder)) wb);
          [apply grows_recorded|done].
    - trans wb; [done|apply grows_except_unauthorized]. }
  rewrite Hk. apply elem_of_app. left. apply elem_of_app. right.
  by apply list_elem_of_singleton.
Qed.

Lemma subfolder_loop_cons d fl s subs w :
  for_each (subfolder_body d) fl (s :: subs) w =
  match os_makedirs (os_path_join d (sanitize_filename (folder_name s))) w with
  | (Ok _, w1) =>
      match download_folder_contents s
              (os_path_join d (sanitize_filename (folder_name s))) w1 with
      | (Ok _, w2) => for_each (subfolder_body d) fl subs w2
      | (Raise e, w2) => (Raise e, w2)
      end
  | (Raise e, w1) => (Raise e, w1)
  end.
Proof.
  simpl. unfold bind, subfolder_body, bind.
  destruct (os_makedirs _ w) as [[[]|e] w1]; [|done].
  by destruct (download_folder_contents s _ w1) as [[[]|e] w2].
Qed.

Lemma subfolder_loop_visits d fl subs w :
  (∀ s, s ∈ subs →
        FolderGetFiles (folder_id s) ∈ calls (for_each (subfolder_body d) fl subs w).2) ∨
  (∃ e, (for_each (subfolder_body d) fl subs w).1 = Raise e ∧ e ≠ Unauthorized).
Proof.
  revert w. induction subs as [|s subs IH]; intros w.
  { left. intros s Hs. by apply not_elem_of_nil in Hs. }
  rewrite subfolder_loop_cons.
  set (p := os_path_join d (sanitize_filename (folder_name s))).
  destruct (os_makedirs p w) as [[[]|e] w1] eqn:Hmk.
  2:{ right. exists e. split; [done|]. unfold os_makedirs in Hmk.
      by case_match; simplify_eq. }
  pose proof (walk_records_folder s p w1) as Hvisit.
  pose proof (never_unauthorized s p w1) as Hnever.
  destruct (download_folder_contents s p w1) as [[[]|e] w2]; simpl in *.
  2:{ right. exists e. split; [done|]. by intros ->. }
  destruct (IH w2) as [Hall|Hcut]; [left|by right].
  intros s' [->|Hs']%elem_of_cons; [|by apply Hall].
  destruct (grows_subfolder_loop d fl subs w2) as [_ _ _ [k ->]].
  apply elem_of_app. by left.
Qed.

(** C5. An authorization failure raised while a subfolder is processed is
    caught in the walk of that subfolder and reported on the console; the
    walk of a folder never raises [Unauthorized] to its parent; and the
    loop of the parent over its subfolders reaches every subfolder listed
    unless an exception that is not an authorization failure ends it. *)
Theorem unauthorized_subfolder_does_not_stop_siblings (d : str) (subs : list Folder)
    (fl : option Exn) (w : World) :
  (∀ s ds w0 w1,
     walk_body s ds w0 = (Raise Unauthorized, w1) →
     download_folder_contents s ds w0 =
       (Ok tt, printed (UnauthorizedFolder (folder_id s) Unauthorized) w1)) ∧
  (∀ s ds w0, (download_folder_contents s ds w0).1 ≠ Raise Unauthorized) ∧
  ((∀ s, s ∈ subs →
         FolderGetFiles (folder_id s) ∈ calls (for_each (subfolder_body d) fl subs w).2) ∨
   (∃ e, (for_each (subfolder_body d) fl subs w).1 = Raise e ∧ e ≠ Unauthorized)).
Proof.
  split_and!.
  - apply unauthorized_is_reported.
  - apply never_unauthorized.
  - apply subfolder_loop_visits.
Qed.

(** *** Walks that enter a folder *)

Lemma makedirs_ok p w w1 :
  os_makedirs p w = (Ok tt, w1) → p ∈ dirs w1 ∧ extends w w1.
Proof.
  intros Hmk. pose proof (grows_makedirs p w) as Hext. rewrite Hmk in Hext.
  split; [|done]. unfold os_makedirs in Hmk. case_match; simplify_eq/=.
  apply elem_of_union_r, elem_of_list_to_set, elem_of_app. right.
  by apply list_elem_of_singleton.
Qed.

Lemma for_each_app {A} (body : A → M unit) fl l1 l2 w :
  for_each body fl (l1 ++ l2) w =
  match for_each body None l1 w with
  | (Ok _, w1) => for_each body fl l2 w1
  | (Raise e, w1) => (Raise e, w1)
  end.
Proof.
  revert w. induction l1 as [|x l1 IH]; intros w; [done|].
  simpl. unfold bind. destruct (body x w) as [[[]|e] w1]; [apply IH|done].
Qed.

Lemma descent_unfold folder d i w :
  descent folder d i w =
  match process_files (folder_files folder) d
          (recorded (FolderGetFiles (folder_id folder)) w) with
  | (Ok _, wb) =>
      for_each (subfolder_body d) None (take i (folder_subfolders folder))
        (recorded (FolderGetFolders (folder_id folder)) wb)
  | (Raise e, wb) => (Raise e, wb)
  end.
Proof.
  unfold descent, bind, call.
  by destruct (process_files _ d _) as [[[]|e] wb].
Qed.

Lemma walk_extends_body folder d w :
  extends (walk_body folder d w).2 (download_folder_contents folder d w).2.
Proof.
  rewrite download_folder_contents_unfold. unfold try_except.
  destruct (walk_body folder d w) as [[[]|e] wb]; [done|].
  apply grows_except_unauthorized.
Qed.

Lemma walk_extends_batch folder d w :
  extends (process_files (folder_files folder) d
             (recorded (FolderGetFiles (folder_id folder)) w)).2
          (download_folder_contents folder d w).2.
Proof.
  etrans; [|apply walk_extends_body]. rewrite walk_body_unfold.
  destruct (process_files _ _ _) as [[[]|e] wb]; simpl; [|done].
  etrans; [apply grows_recorded|]. apply grows_subfolder_loop.
Qed.

(** Once the walk of a folder has entered a subfolder, the directory of
    the subfolder is there and whatever the walk of the subfolder does
    stays done. *)
Lemma enters_walk folder d i s w w1 :
  enters folder d i s w w1 →
  child_dir d s ∈ dirs w1 ∧
  extends (download_folder_contents s (child_dir d s) w1).2
          (download_folder_contents folder d w).2.
Proof.
  intros [Hi _ _ Hrun]. unfold bind in Hrun.
  destruct (descent folder d i w) as [[[]|e] w0] eqn:Hdesc; [|done].
  destruct (makedirs_ok _ _ _ Hrun) as [Hdir _]. split; [done|].
  etrans; [|apply walk_extends_body]. rewrite walk_body_unfold.
  rewrite descent_unfold in Hdesc.
  destruct (process_files _ _ _) as [[[]|e] wb]; [|done].
  pose proof (take_drop_middle _ _ _ Hi) as Hsplit. rewrite <- Hsplit.
  rewrite for_each_app, Hdesc, subfolder_loop_cons. fold (child_dir d s). rewrite Hrun.
  destruct (download_folder_contents s (child_dir d s) w1) as [[[]|e] w2]; simpl; [|done].
  apply grows_subfolder_loop.
Qed.

Lemma plan_reaches files fl d n f :
  files !! n = Some f → falsy (url f) = false →
  Forall probe_answers (take (S n) files) →
  task_of d f ∈ (plan files fl d).1.
Proof.
  revert n. induction files as [|g files IH]; intros n Hn Hu Hp; [done|].
  cbn [take] in Hp. apply Forall_cons in Hp as [Hg Hp].
  simpl. unfold turn. destruct n as [|n]; simpl in Hn.
  - injection Hn as ->. rewrite Hu. destruct (Hg Hu) as [x ->].
    destruct (plan files fl d). simpl. apply elem_of_cons. by left.
  - specialize (IH n Hn Hu Hp). destruct (falsy (url g)) eqn:Hug.
    + by destruct (plan files fl d).
    + destruct (Hg Hug) as [x ->]. destruct (plan files fl d). simpl in *.
      apply elem_of_cons. by right.
Qed.

Lemma download_line_dest t ds p :
  download_line t ds = Downloaded p → p = dest_of (task_name t) (task_dir t).
Proof.
  unfold download_line. repeat (case_match; try done). by intros [= <-].
Qed.

Lemma download_line_cases t ds :
  download_line t ds = InvalidURL (task_url t) ∨
  (∃ e, download_line t ds = DownloadFailed (task_url t) e) ∨
  download_line t ds = Downloaded (dest_of (task_name t) (task_dir t)).
Proof. unfold download_line. repeat case_match; eauto. Qed.

(** *** Plain paths *)

Lemma proper_name_nonempty n : proper_name n = true → n ≠ [].
Proof. intros Hn ->. discriminate Hn. Qed.

Lemma last_no_sep (b : str) : b ≠ [] → sep ∉ b → ∃ x, last b = Some x ∧ x ≠ sep.
Proof.
  intros Hb Hsep. destruct (last b) as [x|] eqn:Hx.
  - exists x. split; [done|]. apply last_Some in Hx as [l' ->].
    intros ->. apply Hsep, elem_of_app. right. by left.
  - by apply last_None in Hx.
Qed.

Lemma join_parts (d n : str) :
  sep ∉ n → d ≠ [] → last d ≠ Some sep →
  dirname (os_path_join d n) = d ∧ basename (os_path_join d n) = n.
Proof.
  intros Hn Hd Hl. rewrite (os_path_join_under d _ Hd Hl Hn). unfold dirname, basename.
  by rewrite (split_last_sep_app d _ Hn).
Qed.

Lemma join_ends (d n : str) :
  sep ∉ n → n ≠ [] → os_path_join d n ≠ [] ∧ last (os_path_join d n) ≠ Some sep.
Proof.
  intros Hn Hne. destruct (last_no_sep n Hne Hn) as (x & Hx & Hxs).
  unfold os_path_join. rewrite (startswith_sep_false n Hn).
  destruct (last d) as [c|]; [|split; [done|congruence]].
  destruct (c =? sep)%N.
  - split; [by destruct d, n|]. rewrite last_app, Hx. congruence.
  - split; [by destruct d|]. rewrite last_app, last_cons, Hx. congruence.
Qed.

Lemma components_from_ends (acc p : str) :
  sep ∉ acc → forallb proper_name (components_from acc p) = true →
  acc ++ p ≠ [] ∧ last (acc ++ p) ≠ Some sep.
Proof.
  revert acc. induction p as [|c p IH]; intros acc Hacc Hall;
    cbn [components_from] in Hall.
  - rewrite app_nil_r. cbn [forallb] in Hall. rewrite andb_true_r in Hall.
    apply proper_name_nonempty in Hall.
    destruct (last_no_sep acc Hall Hacc) as (x & -> & Hx). split; [done|congruence].
  - destruct (c =? sep)%N eqn:Ec.
    + cbn [forallb] in Hall. apply andb_true_iff in Hall as [_ Hall].
      destruct (IH [] (not_elem_of_nil _) Hall) as [Hne Hl]. simpl in Hne, Hl.
      split; [by destruct acc|]. rewrite last_app, last_cons.
      by destruct (last p) as [y|] eqn:Hy; [|apply last_None in Hy].
    + assert (sep ∉ acc ++ [c]) as Hacc'.
      { intros [?|Hc%list_elem_of_singleton]%elem_of_app; [done|].
        subst c. by rewrite N.eqb_refl in Ec. }
      destruct (IH (acc ++ [c]) Hacc' Hall) as [Hne Hl].
      by rewrite <- app_assoc in Hne, Hl.
Qed.

Lemma plain_ends (d : str) : plain d = true → d ≠ [] ∧ last d ≠ Some sep.
Proof. intros Hd. by apply (components_from_ends [] d (not_elem_of_nil _)). Qed.

(** C7 (amended). On a real disk and from a plain directory, when the
    walk of a folder enters three nested subfolders [a], [b], [c] one
    after the other (nothing raised on the way to each, refused listings
    included, its directory could be made, and the folders met so far have
    proper names), the three are mirrored by three nested local
    directories: each is there when the walk is over, whatever happens
    after it was entered, each is the directory of the next, and each is
    named by the sanitized name of its folder.  A file of [c] with a URL,
    the size probes up to which answer, was handed to a download, and a
    download that succeeded put the file in the innermost directory under
    its sanitized display name. *)
Theorem walk_mirrors_three_levels (root a b c : Folder) (i j k : nat)
    (d : str) (w wa wb wc : World) :
  isalnum sep = false →
  real_disk w →
  plain d = true →
  enters root d i a w wa →
  enters a (child_dir d a) j b wa wb →
  enters b (child_dir (child_dir d a) b) k c wb wc →
  let da := child_dir d a in
  let db := child_dir da b in
  let dc := child_dir db c in
  let w' := (download_folder_contents root d w).2 in
  (da ∈ dirs w' ∧ db ∈ dirs w' ∧ dc ∈ dirs w') ∧
  (dirname da = d ∧ dirname db = da ∧ dirname dc = db) ∧
  (basename da = sanitize_filename (folder_name a) ∧
   basename db = sanitize_filename (folder_name b) ∧
   basename dc = sanitize_filename (folder_name c)) ∧
  ∀ n f,
    items (folder_files c) !! n = Some f →
    falsy (url f) = false →
    Forall probe_answers (take (S n) (items (folder_files c))) →
    let dest := os_path_join dc (sanitize_filename (display_name f)) in
    dirname dest = dc ∧
    basename dest = sanitize_filename (display_name f) ∧
    ∃ l, l ∈ console w' ∧
      (l = InvalidURL (default [] (url f)) ∨
       (∃ e, l = DownloadFailed (default [] (url f)) e) ∨
       (l = Downloaded dest ∧ dest ∈ dom (files w'))).
Proof.
  intros Hsep _ Hd Ha Hb Hc da db dc w'.
  destruct (enters_walk _ _ _ _ _ _ Ha) as [Hda Ea].
  destruct (enters_walk _ _ _ _ _ _ Hb) as [Hdb Eb].
  destruct (enters_walk _ _ _ _ _ _ Hc) as [Hdc Ec].
  fold da in Hda, Hdb, Hdc, Ea, Eb, Ec. fold db in Hdb, Hdc, Eb, Ec.
  fold dc in Hdc, Ec. fold w' in Ea.
  pose proof (grows_download_folder_contents a da wa) as Ga.
  pose proof (grows_download_folder_contents b db wb) as Gb.
  pose proof (grows_download_folder_contents c dc wc) as Gc.
  assert (extends (download_folder_contents b db wb).2 w') as Eb' by (by etrans).
  assert (extends (download_folder_contents c dc wc).2 w') as Ec' by (by etrans).
  pose proof (sanitize_filename_no_sep (folder_name a) Hsep) as Hna.
  pose proof (sanitize_filename_no_sep (folder_name b) Hsep) as Hnb.
  pose proof (sanitize_filename_no_sep (folder_name c) Hsep) as Hnc.
  destruct (plain_ends d Hd) as [Hd1 Hd2].
  destruct (join_ends d _ Hna (proper_name_nonempty _ (enters_name _ _ _ _ _ _ Ha)))
    as [Hda1 Hda2].
  destruct (join_ends da _ Hnb (proper_name_nonempty _ (enters_name _ _ _ _ _ _ Hb)))
    as [Hdb1 Hdb2].
  destruct (join_ends db _ Hnc (proper_name_nonempty _ (enters_name _ _ _ _ _ _ Hc)))
    as [Hdc1 Hdc2].
  destruct (join_parts d _ Hna Hd1 Hd2) as [Da Ba].
  destruct (join_parts da _ Hnb Hda1 Hda2) as [Db Bb].
  destruct (join_parts db _ Hnc Hdb1 Hdb2) as [Dc Bc].
  split_and!; try done.
  - apply (ext_dirs _ _ Ea), (ext_dirs _ _ Ga), Hda.
  - apply (ext_dirs _ _ Eb'), (ext_dirs _ _ Gb), Hdb.
  - apply (ext_dirs _ _ Ec'), (ext_dirs _ _ Gc), Hdc.
  - intros n f Hf Hu Hp dest.
    pose proof (sanitize_filename_no_sep (display_name f) Hsep) as Hnf.
    destruct (join_parts dc _ Hnf Hdc1 Hdc2) as [Df Bf].
    split; [done|]. split; [done|].
    destruct (process_files_facts (folder_files c) dc
                (recorded (FolderGetFiles (folder_id c)) wc)) as (_ & _ & _ & Hdone).
    destruct (Hdone (task_of dc f)) as [Hline Hfile].
    { by eapply plan_reaches. }
    pose proof (walk_extends_batch c dc wc) as Ebatch.
    assert (extends (process_files (folder_files c) dc
                       (recorded (FolderGetFiles (folder_id c)) wc)).2 w') as Ew
      by (by etrans).
    eexists. split.
    + destruct (ext_console _ _ Ew) as [x ->]. apply elem_of_app. left. exact Hline.
    + destruct (download_line_cases (task_of dc f)
                  (dirs (process_files (folder_files c) dc
                           (recorded (FolderGetFiles (folder_id c)) wc)).2))
        as [Hl|[[e Hl]|Hl]].
      * by left.
      * right; left. by exists e.
      * right; right. split; [done|]. apply (ext_files _ _ Ew). by apply Hfile.
Qed.

(** ** The course processor *)

Lemma skip_existing_course course_id course w :
  canvas_get_course course_id = Ok course →
  course_dir_of course ∈ dirs w →
  download_course_files course_id w =
    (Ok tt, printed (SkipCourse (course_name course))
              (printed (ProcessingCourse (course_name course))
                 (recorded (GetCourse course_id) w))).
Proof.
  intros Hcourse Hdir.
  unfold download_course_files, try_except, bind, call, print, os_path_exists, is_dir.
  rewrite Hcourse; simpl. by rewrite bool_decide_true by done.
Qed.

(** C2. For a course that resolves and whose local directory exists,
    [download_course_files] makes the one call that resolves the course,
    prints the two lines (processing, skipping) and returns: the
    directories and files of the disk are what they were and no other
    call is made; running it again does the same again. *)
Theorem existing_course_directory_is_skipped (course_id : Z) (course : Course)
    (w : World) :
  canvas_get_course course_id = Ok course →
  course_dir_of course ∈ dirs w →
  download_course_files course_id w =
    (Ok tt, printed (SkipCourse (course_name course))
              (printed (ProcessingCourse (course_name course))
                 (recorded (GetCourse course_id) w))) ∧
  (download_course_files course_id (download_course_files course_id w).2).1 = Ok tt ∧
  dirs (download_course_files course_id (download_course_files course_id w).2).2 = dirs w ∧
  files (download_course_files course_id (download_course_files course_id w).2).2 = files w.
Proof.
  intros Hcourse Hdir.
  rewrite (skip_existing_course _ _ w Hcourse Hdir). split; [done|]. simpl.
  by rewrite (skip_existing_course course_id course (printed _ (printed _ (recorded _ w)))
                Hcourse Hdir).
Qed.

Lemma makedirs_spec (p : str) w :
  p ≠ [] →
  (∀ q, q ∈ ancestors p ++ [p] → q ∉ dom (files w)) →
  os_makedirs p w =
    (Ok tt, mkWorld (dirs w ∪ list_to_set (ancestors p ++ [p])) (files w)
              (console w) (calls w)).
Proof.
  intros Hp Hfiles. unfold os_makedirs.
  rewrite (bool_decide_false (p = [])) by done.
  destruct (existsb (λ q, is_file q w) (ancestors p ++ [p])) eqn:Hex; [exfalso|done].
  apply existsb_exists in Hex as (q & Hq & Hf).
  unfold is_file in Hf. apply bool_decide_eq_true in Hf. apply (Hfiles q); [|done].
  by apply list_elem_of_In.
Qed.

Lemma os_path_join_nonempty a b : a ≠ [] → os_path_join a b ≠ [].
Proof.
  intros Ha. unfold os_path_join.
  destruct (startswith b [sep]) eqn:Hb.
  - by destruct b.
  - destruct (last a) as [c|] eqn:Hl.
    + destruct (c =? sep)%N; by destruct a.
    + by apply last_None in Hl.
Qed.

Lemma next_where_first fl (l : list Folder) :
  next_where is_course_files fl l =
  match list_find (λ f, folder_full_name f = lit "course files") l with
  | Some (_, root) => Ok root
  | None => Raise (default StopIteration fl)
  end.
Proof.
  induction l as [|x l IH]; [done|].
  simpl. unfold is_course_files at 1.
  destruct (decide (folder_full_name x = lit "course files")) as [Hx|Hx].
  - by rewrite bool_decide_true.
  - rewrite bool_decide_false by done. rewrite IH.
    by destruct (list_find _ l) as [[]|].
Qed.

Lemma folder_pass_root course course_id d w :
  folder_pass course course_id d w =
  match list_find (λ f, folder_full_name f = lit "course files")
          (items (course_folders course)) with
  | Some (_, root) =>
      try_except (download_folder_contents root d) (folder_pass_handler course_id)
        (recorded (CourseGetFolders course_id) w)
  | None =>
      folder_pass_handler course_id (default StopIteration (fault (course_folders course)))
        (recorded (CourseGetFolders course_id) w)
  end.
Proof.
  unfold folder_pass, try_except, bind, call, lift. simpl.
  rewrite next_where_first.
  by destruct (list_find _ (items (course_folders course))) as [[]|].
Qed.

Lemma folder_pass_returns course course_id d w :
  (folder_pass course course_id d w).1 = Ok tt.
Proof.
  unfold folder_pass, try_except.
  match goal with |- context [?m w] => destruct (m w) as [[[]|e] w1] end; [done|].
  by destruct e.
Qed.

(** * Further properties *)

(** ** Names and paths *)

Lemma sanitize_filename_length s : length (sanitize_filename s) = length s.
Proof. induction s as [|c s IH]; [done|]. rewrite sanitize_filename_cons; simpl; lia. Qed.

Lemma sanitize_filename_lookup s i c :
  s !! i = Some c →
  sanitize_filename s !! i =
    Some (if class_matches true sanitize_set c then chr "_" else c).
Proof.
  revert i. induction s as [|c' s IH]; intros i Hi; [done|].
  rewrite sanitize_filename_cons. destruct i as [|i]; simpl in *.
  - by injection Hi as ->.
  - by apply IH.
Qed.

(** X1. [sanitize_filename] leaves a name unchanged exactly when all its
    characters are on the allow-list. *)
Theorem sanitize_filename_unchanged_iff (s : str) :
  sanitize_filename s = s ↔ Forall allow_listed s.
Proof.
  split.
  - intros Hs. rewrite <- Hs. apply sanitize_filename_allowed.
  - apply sanitize_filename_fixed.
Qed.

(** X2. [sanitize_filename] works in place: the result has the length of
    the name, each character is kept or replaced by an underscore, and,
    the slash not being alphanumeric, the result holds no slash. *)
Theorem sanitize_filename_in_place (s : str) :
  isalnum sep = false →
  length (sanitize_filename s) = length s ∧
  (∀ i c, s !! i = Some c →
          sanitize_filename s !! i = Some c ∨ sanitize_filename s !! i = Some (chr "_")) ∧
  sep ∉ sanitize_filename s.
Proof.
  intros Hsep. split_and!.
  - apply sanitize_filename_length.
  - intros i c Hi. rewrite (sanitize_filename_lookup s i c Hi).
    destruct (class_matches true sanitize_set c); auto.
  - by apply sanitize_filename_no_sep.
Qed.

(** X3. A sanitized name joined to a directory (non-empty, not ending in
    a slash) is the directory, a slash and the name, and splits back:
    [dirname] gives the directory and [basename] the sanitized name.
    (The names [.] and [..] pass [sanitize_filename] unchanged, so this
    says nothing on where such a path leads.) *)
Theorem sanitized_join_splits_back (d n : str) :
  isalnum sep = false → d ≠ [] → last d ≠ Some sep →
  os_path_join d (sanitize_filename n) = d ++ sep :: sanitize_filename n ∧
  dirname (os_path_join d (sanitize_filename n)) = d ∧
  basename (os_path_join d (sanitize_filename n)) = sanitize_filename n.
Proof.
  intros Hsep Hd Hl.
  pose proof (sanitize_filename_no_sep n Hsep) as Hn.
  rewrite (os_path_join_under d _ Hd Hl Hn). unfold dirname, basename.
  by rewrite (split_last_sep_app d _ Hn).
Qed.

(** ** What a download does to the disk *)

Lemma written_insert (p : str) (c0 : list N) (chunks : list (list N))
    (fs : gmap str (list N)) :
  written p chunks (<[p := c0]> fs) = <[p := c0 ++ concat chunks]> fs.
Proof.
  revert c0. induction chunks as [|c chunks IH]; intros c0; simpl.
  - by rewrite app_nil_r.
  - destruct c as [|x c]; [apply IH|].
    rewrite lookup_insert_eq, insert_insert_eq. simpl. rewrite IH.
    by rewrite <- app_assoc.
Qed.

Lemma download_file_result u n d w :
  download_file u n d w =
    (Ok tt, mkWorld (dirs w) (download_disk (mkTask u n d) w)
              (console w ++ [download_line (mkTask u n d) (dirs w)])
              (calls w ++ if startswith u (lit "http") then [Get u] else [])).
Proof.
  unfold download_file, download_line, download_disk; simpl.
  destruct (startswith u (lit "http")) eqn:Ehttp; simpl.
  2:{ unfold print, printed. by rewrite app_nil_r. }
  unfold try_except, bind, call, recorded.
  destruct (requests_get u) as [r|e]; simpl; [|done].
  unfold raise_for_status.
  destruct (bool_decide (400 ≤ status_code r < 600)%Z) eqn:Est; simpl; [done|].
  unfold ret, open_wb, names_directory, parent_missing, is_dir, cannot_open, dest_of; simpl.
  set (dest := os_path_join d (sanitize_filename n)).
  destruct (bool_decide (dest ∈ dirs w) || bool_decide (basename dest = [])
            || bool_decide (basename dest = lit ".")
            || bool_decide (basename dest = lit "..")
            || negb (bool_decide (dirname dest = []) || bool_decide (dirname dest ∈ dirs w)))
    eqn:Eopen; simpl; [done|].
  rewrite write_chunks_spec; simpl. rewrite written_insert. simpl.
  by destruct (fault (body r)).
Qed.

(** X4. When the URL starts with [http], the GET request is answered with
    a status outside 400-599, the destination can be opened and the
    stream does not break, [download_file] leaves exactly the streamed
    chunks, in order, in the file at the sanitized name under the folder
    directory (whatever was there before), prints the success line and
    has made the one GET request. *)
Theorem download_file_writes_the_body (u n d : str) (w : World) (r : Response) :
  startswith u (lit "http") = true →
  requests_get u = Ok r →
  ¬ (400 ≤ status_code r < 600)%Z →
  cannot_open (os_path_join d (sanitize_filename n)) (dirs w) = false →
  fault (body r) = None →
  download_file u n d w =
    (Ok tt,
     mkWorld (dirs w)
       (<[os_path_join d (sanitize_filename n) := concat (items (body r))]> (files w))
       (console w ++ [Downloaded (os_path_join d (sanitize_filename n))])
       (calls w ++ [Get u])).
Proof.
  intros Hhttp Hget Hst Hopen Hfault.
  rewrite download_file_result. unfold download_disk, download_line, dest_of; simpl.
  rewrite Hhttp, Hget; simpl. rewrite bool_decide_false by done.
  by rewrite Hopen, Hfault.
Qed.

(** X5. When the stream breaks after some chunks, the chunks received
    stay in the destination file: [download_file] prints the failure line
    and returns, and nothing removes the partial file. *)
Theorem download_file_broken_stream_leaves_partial_file (u n d : str) (w : World)
    (r : Response) (e : Exn) :
  startswith u (lit "http") = true →
  requests_get u = Ok r →
  ¬ (400 ≤ status_code r < 600)%Z →
  cannot_open (os_path_join d (sanitize_filename n)) (dirs w) = false →
  fault (body r) = Some e →
  download_file u n d w =
    (Ok tt,
     mkWorld (dirs w)
       (<[os_path_join d (sanitize_filename n) := concat (items (body r))]> (files w))
       (console w ++ [DownloadFailed u e])
       (calls w ++ [Get u])).
Proof.
  intros Hhttp Hget Hst Hopen Hfault.
  rewrite download_file_result. unfold download_disk, download_line, dest_of; simpl.
  rewrite Hhttp, Hget; simpl. rewrite bool_decide_false by done.
  by rewrite Hopen, Hfault.
Qed.

(** X6. Whatever happens, [download_file] returns without raising, makes
    no directory, makes at most its one GET request, prints one line, and
    leaves every file other than its destination as it was. *)
Theorem download_file_touches_only_its_destination (u n d : str) (w : World) :
  (download_file u n d w).1 = Ok tt ∧
  dirs (download_file u n d w).2 = dirs w ∧
  (∀ p, p ≠ os_path_join d (sanitize_filename n) →
        files (download_file u n d w).2 !! p = files w !! p) ∧
  (calls (download_file u n d w).2 = calls w ∨
   calls (download_file u n d w).2 = calls w ++ [Get u]) ∧
  length (console (download_file u n d w).2) = S (length (console w)).
Proof.
  rewrite download_file_result; simpl. split_and!; [done..| | |].
  - intros p Hp. unfold download_disk, dest_of; simpl.
    repeat case_match; try done. by rewrite lookup_insert_ne.
  - destruct (startswith u (lit "http")); [by right|left; by rewrite app_nil_r].
  - rewrite length_app; simpl. lia.
Qed.

(** ** More on the executor *)

Lemma adds_calls_refl P w : adds_calls P w w.
Proof. exists []. by rewrite app_nil_r. Qed.

Lemma adds_calls_trans P w1 w2 w3 :
  adds_calls P w1 w2 → adds_calls P w2 w3 → adds_calls P w1 w3.
Proof.
  intros (k1 & E1 & F1) (k2 & E2 & F2). exists (k1 ++ k2).
  split; [by rewrite E2, E1, app_assoc|by apply Forall_app].
Qed.

Lemma adds_calls_impl (P Q : Call → Prop) w w' :
  (∀ c, P c → Q c) → adds_calls P w w' → adds_calls Q w w'.
Proof. intros HPQ (k & E & F). exists k. split; [done|]. by eapply Forall_impl. Qed.

Lemma batch_step_calls d b b' :
  batch_step d b b' → adds_calls is_http_call (world b) (world b').
Proof.
  destruct 1 as [file todo fl q r c w ot w' Hb|file todo fl q r c w e w' Hb
                |q r c w|e q r c w|p t q r c w Hlen|p q r1 t r2 c w|c w|e c w];
    simpl; try apply adds_calls_refl.
  - rewrite loop_body_spec in Hb. injection Hb as _ <-. eexists. split; [done|].
    destruct (falsy (url file)); repeat constructor.
  - rewrite loop_body_spec in Hb. injection Hb as _ <-. eexists. split; [done|].
    destruct (falsy (url file)); repeat constructor.
  - destruct (run_task_spec t w) as (fs' & -> & _). eexists. split; [done|].
    destruct (startswith _ _); repeat constructor.
Qed.

Lemma batch_run_calls d b b' :
  rtc (batch_step d) b b' → adds_calls is_http_call (world b) (world b').
Proof.
  induction 1 as [b|b1 b2 b3 Hstep _ IH]; [apply adds_calls_refl|].
  eapply adds_calls_trans; [by eapply batch_step_calls|done].
Qed.

(** X7. At every moment of a call of [process_files], under every
    interleaving, the directories of the disk are those the call found,
    no file has disappeared, the console and the record of calls have
    only grown, and the calls added are HEAD and GET requests. *)
Theorem process_files_only_downloads (fs : Listing File) (d : str) (w : World)
    (b : Batch) :
  rtc (batch_step d) (batch_init fs w) b →
  dirs (world b) = dirs w ∧
  dom (files w) ⊆ dom (files (world b)) ∧
  console w `prefix_of` console (world b) ∧
  ∃ k, calls (world b) = calls w ++ k ∧ Forall is_http_call k.
Proof.
  intros Hrun.
  destruct (batch_run_kept d _ _ Hrun) as [_ _ _ [Hd Hf Hc _] _ _ _].
  destruct (batch_run_calls d _ _ Hrun) as (k & Hk & HF). simpl in *.
  split_and!; [done..|]. by exists k.
Qed.

Lemma batch_step_lines d ds b b' :
  batch_step d b b' → dirs (world b) = ds →
  console (world b') ++ pending_lines d ds b' ≡ₚ
  console (world b) ++ pending_lines d ds b.
Proof.
  destruct 1 as [file todo fl q r c w ot w' Hb|file todo fl q r c w e w' Hb
                |q r c w|e q r c w|p t q r c w Hlen|p q r1 t r2 c w|c w|e c w];
    unfold pending_lines; simpl; intros Hds; try done.
  - rewrite loop_body_spec in Hb. injection Hb as Ht <-. simpl. rewrite Ht.
    destruct (plan todo fl d) as [ts out]; simpl.
    assert ((if falsy (url file) then [SkipNoURL file] else []) =
            SkipNoURL <$> (if falsy (url file) then [file] else [])) as ->
      by by destruct (falsy (url file)).
    rewrite !fmap_app. solve_Permutation.
  - rewrite loop_body_spec in Hb. injection Hb as Ht <-. simpl. rewrite Ht. simpl.
    unfold turn in Ht. destruct (falsy (url file)); [done|]. simpl.
    by rewrite !app_nil_r.
  - rewrite !fmap_app. simpl. solve_Permutation.
  - destruct (run_task_spec t w) as (fs' & -> & _). simpl. subst ds.
    rewrite !fmap_app. simpl. solve_Permutation.
Qed.

Lemma batch_run_lines d b b' :
  rtc (batch_step d) b b' →
  console (world b') ++ pending_lines d (dirs (world b)) b' ≡ₚ
  console (world b) ++ pending_lines d (dirs (world b)) b.
Proof.
  induction 1 as [b|b1 b2 b3 Hstep _ IH]; [done|].
  pose proof (sd_dirs _ _ (kept_world _ _ _ (batch_step_kept d _ _ Hstep))) as Hd.
  rewrite Hd in IH. rewrite IH. by apply batch_step_lines.
Qed.

Lemma batch_terminal_console fs d w b :
  rtc (batch_step d) (batch_init fs w) b → terminal b →
  console (world b) ≡ₚ
    console w ++ (SkipNoURL <$> skips (items fs) d) ++
    ((λ t, download_line t (dirs w)) <$> (plan (items fs) (fault fs) d).1).
Proof.
  intros Hrun Hterm.
  destruct (batch_terminal_facts _ _ _ _ Hrun Hterm) as (Hq & Hr & _).
  pose proof (batch_run_lines d _ _ Hrun) as Hlines.
  unfold pending_lines in Hlines. rewrite Hq, Hr in Hlines. simpl in Hlines.
  unfold terminal in Hterm.
  destruct (pc b); try done; simpl in Hlines; by rewrite app_nil_r in Hlines.
Qed.

(** X8. The interleaving of the calling thread and the workers changes
    the order of the output only: two complete runs of the same call of
    [process_files] end the same way (both return, or both raise the same
    exception), have run the same downloads, leave the same directories
    and have printed the same lines up to their order, the skip lines in
    the same order. *)
Theorem interleaving_only_reorders_output (fs : Listing File) (d : str) (w : World)
    (b1 b2 : Batch) :
  rtc (batch_step d) (batch_init fs w) b1 → terminal b1 →
  rtc (batch_step d) (batch_init fs w) b2 → terminal b2 →
  pc b1 = pc b2 ∧
  completed b1 ≡ₚ completed b2 ∧
  console (world b1) ≡ₚ console (world b2) ∧
  skip_lines (console (world b1)) = skip_lines (console (world b2)) ∧
  dirs (world b1) = dirs (world b2).
Proof.
  intros Hrun1 Hterm1 Hrun2 Hterm2.
  pose proof (batch_terminal_console _ _ _ _ Hrun1 Hterm1) as Hc1.
  pose proof (batch_terminal_console _ _ _ _ Hrun2 Hterm2) as Hc2.
  destruct (batch_terminal_facts _ _ _ _ Hrun1 Hterm1)
    as (_ & _ & Hk1 & Hpc1 & Hs1 & [Hd1 _ _ _] & _).
  destruct (batch_terminal_facts _ _ _ _ Hrun2 Hterm2)
    as (_ & _ & Hk2 & Hpc2 & Hs2 & [Hd2 _ _ _] & _).
  split_and!; [congruence| | |congruence..].
  - by rewrite Hk1, Hk2.
  - by rewrite Hc1, Hc2.
Qed.

Lemma skipped_world_nil w : skipped_world w [] = w.
Proof. unfold skipped_world. simpl. rewrite app_nil_r. by destruct w. Qed.

Lemma batch_without_urls_run (batch : list File) d w b :
  Forall (λ f, falsy (url f) = true) batch →
  rtc (batch_step d) (batch_init (py_list batch) w) b →
  queue b = [] ∧ running b = [] ∧ completed b = [] ∧
  ∃ pre, world b = skipped_world w pre ∧
         ((∃ todo, pc b = Looping todo None ∧ batch = pre ++ todo) ∨
          (pre = batch ∧ (pc b = Waiting ∨ pc b = Returned))).
Proof.
  intros Hall. revert b. apply rtc_ind_r.
  { split_and!; [done..|]. exists []. split; [by rewrite skipped_world_nil|].
    left. by exists batch. }
  intros b b' Hrun Hstep (Hq & Hr & Hc & pre & Hw & Hpc).
  destruct Hstep as [file todo fl q r c w0 ot w' Hb|file todo fl q r c w0 e w' Hb
                    |q r c w0|e q r c w0|p t q r c w0 Hlen|p q r1 t r2 c w0|c w0|e c w0];
    simpl in *; subst; try done.
  - destruct Hpc as [(todo' & [= <- ->] & ->)|(_ & [[=]|[=]])].
    assert (falsy (url file) = true) as Hfile.
    { rewrite Forall_forall in Hall. apply Hall. apply elem_of_app. right. by left. }
    rewrite loop_body_spec in Hb. unfold turn in Hb. rewrite Hfile in Hb.
    injection Hb as <- <-. simpl. split_and!; [done..|].
    exists (pre ++ [file]). split.
    + unfold skipped_world. simpl. by rewrite fmap_app, !app_nil_r, <- app_assoc.
    + left. exists todo. by rewrite <- app_assoc.
  - destruct Hpc as [(todo' & [= <- ->] & ->)|(_ & [[=]|[=]])].
    assert (falsy (url file) = true) as Hfile.
    { rewrite Forall_forall in Hall. apply Hall. apply elem_of_app. right. by left. }
    rewrite loop_body_spec in Hb. unfold turn in Hb. by rewrite Hfile in Hb.
  - destruct Hpc as [(todo' & [= <-] & ->)|(_ & [[=]|[=]])].
    split_and!; [done..|]. exists pre. split; [done|]. right.
    rewrite app_nil_r. auto.
  - by destruct Hpc as [(todo' & [=] & _)|(_ & [[=]|[=]])].
  - by destruct r1.
  - split_and!; [done..|]. exists pre. split; [done|].
    destruct Hpc as [(todo' & [=] & _)|(-> & _)]. right. auto.
  - by destruct Hpc as [(todo' & [=] & _)|(_ & [[=]|[=]])].
Qed.

(** X10. A batch in which no file has a URL (the empty batch among them)
    makes no request and touches no file under any interleaving: when the
    call is over it has returned, and the world differs from the one it
    found by one skip line per file, in the order of the batch. *)
Theorem batch_without_urls_only_prints (batch : list File) (d : str) (w : World) :
  Forall (λ f, falsy (url f) = true) batch →
  process_files (py_list batch) d w = (Ok tt, skipped_world w batch) ∧
  ∀ b, rtc (batch_step d) (batch_init (py_list batch) w) b → terminal b →
       pc b = Returned ∧ completed b = [] ∧ world b = skipped_world w batch.
Proof.
  intros Hall.
  assert (∀ b, rtc (batch_step d) (batch_init (py_list batch) w) b → terminal b →
       pc b = Returned ∧ completed b = [] ∧ world b = skipped_world w batch) as Hend.
  { intros b Hrun Hterm.
    destruct (batch_without_urls_run batch d w b Hall Hrun)
      as (_ & _ & Hc & pre & Hw & Hpc).
    unfold terminal in Hterm.
    destruct Hpc as [(todo & Hpc & _)|(-> & [Hpc|Hpc])]; rewrite Hpc in Hterm; done. }
  split; [|done].
  destruct (Hend _ (run_batch_run (py_list batch) d w) (run_batch_terminal _ _ _))
    as (Hpc & _ & Hw).
  unfold process_files. by rewrite Hpc, Hw.
Qed.

(** ** Steps that keep a relation *)

Section Keeps.
Context (R : relation World) `{!PreOrder R}.
#[local] Set Default Proof Using "All".

Lemma keeps_ret {A} (a : A) : keeps R (ret a).
Proof. by intros w. Qed.

Lemma keeps_raise {A} e : keeps R (@raise A e).
Proof. by intros w. Qed.

Lemma keeps_lift {A} (r : Res A) : keeps R (lift r).
Proof. by intros w. Qed.

Lemma keeps_exists p : keeps R (os_path_exists p).
Proof. by intros w. Qed.

Lemma keeps_bind {A B} (m : M A) (k : A → M B) :
  keeps R m → (∀ a, keeps R (k a)) → keeps R (bind m k).
Proof.
  intros Hm Hk w. unfold bind. specialize (Hm w).
  destruct (m w) as [[a|e] w']; simpl in *; [|done].
  etrans; [exact Hm|apply Hk].
Qed.

Lemma keeps_try {A} (m : M A) (h : Exn → M A) :
  keeps R m → (∀ e, keeps R (h e)) → keeps R (try_except m h).
Proof.
  intros Hm Hh w. unfold try_except. specialize (Hm w).
  destruct (m w) as [[a|e] w']; simpl in *; [done|].
  etrans; [exact Hm|apply Hh].
Qed.

Lemma keeps_for_each {A} (body : A → M unit) fl l :
  (∀ x, x ∈ l → keeps R (body x)) → keeps R (for_each body fl l).
Proof.
  induction l as [|x l IH]; intros Hbody; simpl.
  - destruct fl; [apply keeps_raise|apply keeps_ret].
  - apply keeps_bind; [apply Hbody; by left|]. intros _. apply IH.
    intros y Hy. apply Hbody. by right.
Qed.

Lemma keeps_if {A} (c : bool) (m1 m2 : M A) :
  keeps R m1 → keeps R m2 → keeps R (if c then m1 else m2).
Proof. by destruct c. Qed.

End Keeps.

Lemma download_course_files_unfold course_id :
  download_course_files course_id =
  try_except
    (course <- call (GetCourse course_id) (canvas_get_course course_id) ;;
     course_body course_id course)
    (course_handler course_id).
Proof. reflexivity. Qed.

(** ** What the functions keep, from what their steps keep *)

Section Structure.
Context (R : relation World) `{!PreOrder R} (C : Call → Prop) (D : str → Prop).
Context (Djoin : ∀ d n, D d → D (os_path_join d (sanitize_filename n))).
Context (Rprint : ∀ l, keeps R (print l)).
Context (Rmakedirs : ∀ p, D p → keeps R (os_makedirs p)).
Context (Rcall : ∀ A c (r : Res A), C c → keeps R (call c r)).
Context (Rbatch : ∀ fs d, D d → keeps R (process_files fs d)).
#[local] Set Default Proof Using "All".

Lemma keeps_download_folder_contents folder d :
  D d → (∀ i, C (FolderGetFiles i)) → (∀ i, C (FolderGetFolders i)) →
  keeps R (download_folder_contents folder d).
Proof.
  intros Hd Hfiles Hfolders.
  revert d Hd. induction folder as [i n fn fs subs fl IH] using Folder_tree_ind.
  intros d Hd.
  rewrite download_folder_contents_unfold.
  apply keeps_try; [apply _| |].
  2:{ intros e. destruct e; simpl; first [apply Rprint|apply keeps_raise; apply _]. }
  unfold walk_body; simpl.
  apply keeps_bind; [apply _|by apply Rcall|]. intros fs'.
  apply keeps_bind; [apply _|by apply Rbatch|]. intros _.
  apply keeps_bind; [apply _|by apply Rcall|]. intros _.
  apply keeps_for_each; [apply _|]. intros s Hs. unfold subfolder_body.
  apply keeps_bind; [apply _|by apply Rmakedirs, Djoin|]. intros _.
  rewrite Forall_forall in IH. by apply IH, Djoin.
Qed.

Lemma keeps_folder_pass course course_id d :
  D d → (∀ i, C (FolderGetFiles i)) → (∀ i, C (FolderGetFolders i)) →
  C (CourseGetFolders course_id) →
  keeps R (folder_pass course course_id d).
Proof.
  intros Hd Hfiles Hfolders Hcourse. unfold folder_pass.
  apply keeps_try; [apply _| |].
  2:{ intros e. destruct e; apply Rprint. }
  apply keeps_bind; [apply _|by apply Rcall|]. intros folders.
  apply keeps_bind; [apply _|apply keeps_lift; apply _|]. intros root.
  by apply keeps_download_folder_contents.
Qed.

Lemma keeps_module_item_body course_id d item :
  D d → (∀ i, C (GetFile i)) →
  keeps R (module_item_body course_id d item).
Proof.
  intros Hd Hfile. unfold module_item_body. case_match; [|apply keeps_ret; apply _].
  apply keeps_try; [apply _| |].
  2:{ intros e. destruct e; first [apply Rprint|apply keeps_raise; apply _]. }
  apply keeps_bind; [apply _|by apply Rcall|]. intros file.
  apply keeps_if; [apply _|by apply Rbatch|apply Rprint].
Qed.

Lemma keeps_module_body course_id d module :
  D d → (∀ i, C (GetFile i)) → (∀ i, C (ModuleGetItems i)) →
  keeps R (module_body course_id d module).
Proof.
  intros Hd Hfile Hitems. unfold module_body.
  apply keeps_bind; [apply _|by apply Rmakedirs, Djoin|]. intros _.
  apply keeps_try; [apply _| |].
  2:{ intros e. destruct e; apply Rprint. }
  apply keeps_bind; [apply _|by apply Rcall|]. intros items'.
  apply keeps_for_each; [apply _|]. intros item _.
  by apply keeps_module_item_body; [apply Djoin|].
Qed.

Lemma keeps_module_pass course course_id d :
  D d → (∀ i, C (GetFile i)) → (∀ i, C (ModuleGetItems i)) →
  C (CourseGetModules course_id) →
  keeps R (module_pass course course_id d).
Proof.
  intros Hd Hfile Hitems Hmodules. unfold module_pass.
  apply keeps_try; [apply _| |].
  2:{ intros e. destruct e; apply Rprint. }
  apply keeps_bind; [apply _|by apply Rcall|]. intros modules.
  apply keeps_for_each; [apply _|]. intros module _.
  by apply keeps_module_body.
Qed.

Lemma keeps_course_body course_id course :
  D (lit "canvas_downloads") →
  (∀ i, C (FolderGetFiles i)) → (∀ i, C (FolderGetFolders i)) →
  (∀ i, C (GetFile i)) → (∀ i, C (ModuleGetItems i)) →
  C (CourseGetFolders course_id) → C (CourseGetModules course_id) →
  keeps R (course_body course_id course).
Proof.
  intros Hd **. unfold course_body.
  assert (D (course_dir_of course)) as Hd' by by apply Djoin.
  apply keeps_bind; [apply _|apply Rprint|]. intros _.
  apply keeps_bind; [apply _|apply keeps_exists; apply _|]. intros there.
  apply keeps_if; [apply _|apply Rprint|].
  apply keeps_bind; [apply _|by apply Rmakedirs|]. intros _.
  apply keeps_bind; [apply _|by apply keeps_folder_pass|]. intros _.
  by apply keeps_module_pass.
Qed.

Lemma keeps_download_course_files course_id :
  D (lit "canvas_downloads") →
  (∀ i, C (FolderGetFiles i)) → (∀ i, C (FolderGetFolders i)) →
  (∀ i, C (GetFile i)) → (∀ i, C (ModuleGetItems i)) →
  C (CourseGetFolders course_id) → C (CourseGetModules course_id) →
  C (GetCourse course_id) →
  keeps R (download_course_files course_id).
Proof.
  intros. rewrite download_course_files_unfold.
  apply keeps_try; [apply _| |].
  2:{ intros e. destruct e; apply Rprint. }
  apply keeps_bind; [apply _|by apply Rcall|]. intros course.
  by apply keeps_course_body.
Qed.

End Structure.

(** *** The calls made *)

Global Instance adds_calls_preorder P : PreOrder (adds_calls P).
Proof.
  split; [intros w; apply adds_calls_refl|intros w1 w2 w3; apply adds_calls_trans].
Qed.

Section Calls.
Context (P : Call → Prop) (Phttp : ∀ c, is_http_call c → P c).
#[local] Set Default Proof Using "All".

Lemma calls_print l : keeps (adds_calls P) (print l).
Proof. intros w. exists []. simpl. by rewrite app_nil_r. Qed.

Lemma calls_makedirs p : keeps (adds_calls P) (os_makedirs p).
Proof.
  intros w. unfold os_makedirs. case_match; simpl; exists []; by rewrite app_nil_r.
Qed.

Lemma calls_call A c (r : Res A) : P c → keeps (adds_calls P) (call c r).
Proof. intros Hc w. exists [c]. split; [done|]. by constructor. Qed.

Lemma calls_process_files fs d : keeps (adds_calls P) (process_files fs d).
Proof.
  intros w. unfold process_files; simpl.
  eapply adds_calls_impl; [exact Phttp|].
  apply (batch_run_calls d _ _ (run_batch_run fs d w)).
Qed.

End Calls.

Lemma http_not_get_course c : is_http_call c → not_get_course c.
Proof. by destruct c. Qed.

Lemma calls_course_body course_id course :
  keeps (adds_calls not_get_course) (course_body course_id course).
Proof.
  apply (keeps_course_body (adds_calls not_get_course) not_get_course (λ _, True)
           (λ _ _ _, I)
           (calls_print _ http_not_get_course)
           (λ p _, calls_makedirs _ http_not_get_course p)
           (calls_call _ http_not_get_course)
           (λ fs d _, calls_process_files _ http_not_get_course fs d));
    done.
Qed.

(** *** Growth *)

Global Instance extends_preorder : PreOrder extends.
Proof. split; apply _. Qed.

Lemma grows_course_body course_id course : keeps extends (course_body course_id course).
Proof.
  apply (keeps_course_body extends (λ _, True) (λ _, True) (λ _ _ _, I) grows_print
           (λ p _, grows_makedirs p) (λ A c r _, grows_call c r)
           (λ fs d _, grows_process_files fs d)); done.
Qed.

Lemma grows_download_course_files course_id :
  keeps extends (download_course_files course_id).
Proof.
  apply (keeps_download_course_files extends (λ _, True) (λ _, True) (λ _ _ _, I) grows_print
           (λ p _, grows_makedirs p) (λ A c r _, grows_call c r)
           (λ fs d _, grows_process_files fs d)); done.
Qed.

Lemma course_handler_prints course_id e w :
  ∃ l, course_handler course_id e w = (Ok tt, printed l w).
Proof. destruct e; by eexists. Qed.

Lemma download_course_files_run course_id w :
  (download_course_files course_id w).1 = Ok tt ∧
  ∃ k, calls (download_course_files course_id w).2 =
         calls w ++ GetCourse course_id :: k ∧
       Forall not_get_course k.
Proof.
  rewrite download_course_files_unfold. unfold try_except, bind, call.
  destruct (canvas_get_course course_id) as [course|e].
  - pose proof (calls_course_body course_id course
                  (recorded (GetCourse course_id) w)) as (k & Hk & HF).
    destruct (course_body course_id course _) as [[[]|e] w1]; simpl in *.
    + split; [done|]. exists k. by rewrite Hk, <- app_assoc.
    + destruct (course_handler_prints course_id e w1) as [l ->]. simpl.
      split; [done|]. exists k. by rewrite Hk, <- app_assoc.
  - destruct (course_handler_prints course_id e (recorded (GetCourse course_id) w))
      as [l ->]. simpl. split; [done|]. by exists [].
Qed.

(** X11. [download_course_files] never raises, whatever the services
    answer and whatever the interleaving of the downloads: every
    exception ends in a printed line.  Of the calls it makes, the first is
    the resolution of its own course and none of the others resolves a
    course. *)
Theorem download_course_files_never_raises (course_id : Z) (w : World) :
  (download_course_files course_id w).1 = Ok tt ∧
  ∃ k, calls (download_course_files course_id w).2 =
         calls w ++ GetCourse course_id :: k ∧
       Forall not_get_course k.
Proof. apply download_course_files_run. Qed.

(** ** The two passes over a course *)

Lemma http_walk_call c : is_http_call c → is_walk_call c.
Proof. by destruct c. Qed.

Lemma http_module_call c : is_http_call c → is_module_call c.
Proof. by destruct c. Qed.

Lemma folder_pass_calls course course_id d w :
  ∃ k, calls (folder_pass course course_id d w).2 =
         calls w ++ CourseGetFolders course_id :: k ∧
       Forall is_walk_call k.
Proof.
  unfold folder_pass, try_except, bind, call, lift.
  destruct (next_where _ _ _) as [root|e].
  - pose proof (keeps_download_folder_contents (adds_calls is_walk_call) is_walk_call
                  (λ _, True) (λ _ _ _, I)
                  (calls_print _ http_walk_call)
                  (λ p _, calls_makedirs _ http_walk_call p)
                  (calls_call _ http_walk_call)
                  (λ fs d' _, calls_process_files _ http_walk_call fs d')
                  root d I (λ _, I) (λ _, I) (recorded (CourseGetFolders course_id) w))
      as (k & Hk & HF).
    destruct (download_folder_contents root d _) as [[[]|e] w1]; simpl in *.
    + exists k. by rewrite Hk, <- app_assoc.
    + exists k. split; [|done]. destruct e; simpl; by rewrite Hk, <- app_assoc.
  - exists []. split; [|done]. by destruct e.
Qed.

Lemma module_pass_returns course course_id d w :
  (module_pass course course_id d w).1 = Ok tt.
Proof.
  unfold module_pass, try_except.
  match goal with |- context [?m w] => destruct (m w) as [[[]|e] w1] end; [done|].
  by destruct e.
Qed.

Lemma module_pass_calls course course_id d w :
  ∃ k, calls (module_pass course course_id d w).2 =
         calls w ++ CourseGetModules course_id :: k ∧
       Forall is_module_call k.
Proof.
  unfold module_pass, try_except, bind, call.
  assert (keeps (adds_calls is_module_call)
            (for_each (module_body course_id d) (fault (course_modules course))
               (items (course_modules course)))) as Hloop.
  { apply keeps_for_each; [apply _|]. intros module _.
    by apply (keeps_module_body (adds_calls is_module_call) is_module_call
                (λ _, True) (λ _ _ _, I)
                (calls_print _ http_module_call)
                (λ p _, calls_makedirs _ http_module_call p)
                (calls_call _ http_module_call)
                (λ fs d' _, calls_process_files _ http_module_call fs d')). }
  destruct (Hloop (recorded (CourseGetModules course_id) w)) as (k & Hk & HF).
  destruct (for_each _ _ _ _) as [[[]|e] w1]; simpl in *.
  - exists k. by rewrite Hk, <- app_assoc.
  - exists k. split; [|done]. destruct e; simpl; by rewrite Hk, <- app_assoc.
Qed.

Lemma grows_folder_pass course course_id d : keeps extends (folder_pass course course_id d).
Proof.
  apply (keeps_folder_pass extends (λ _, True) (λ _, True) (λ _ _ _, I) grows_print
           (λ p _, grows_makedirs p) (λ A c r _, grows_call c r)
           (λ fs d _, grows_process_files fs d)); done.
Qed.

Lemma grows_module_pass course course_id d : keeps extends (module_pass course course_id d).
Proof.
  apply (keeps_module_pass extends (λ _, True) (λ _, True) (λ _ _ _, I) grows_print
           (λ p _, grows_makedirs p) (λ A c r _, grows_call c r)
           (λ fs d _, grows_process_files fs d)); done.
Qed.

(** The world in which the passes over a new course start. *)
Lemma fresh_course_run course_id course w :
  canvas_get_course course_id = Ok course →
  course_dir_of course ∉ dirs w →
  (∀ q, q ∈ ancestors (course_dir_of course) ++ [course_dir_of course] →
        q ∉ dom (files w)) →
  download_course_files course_id w =
    module_pass course course_id (course_dir_of course)
      (folder_pass course course_id (course_dir_of course)
         (mkWorld (dirs w ∪ list_to_set (ancestors (course_dir_of course) ++
                                         [course_dir_of course]))
            (files w) (console w ++ [ProcessingCourse (course_name course)])
            (calls w ++ [GetCourse course_id]))).2.
Proof.
  intros Hcourse Hdir Hfiles.
  set (w0 := printed (ProcessingCourse (course_name course))
               (recorded (GetCourse course_id) w)).
  assert (is_dir (course_dir_of course) w0 = false) as Hd.
  { unfold is_dir. by apply bool_decide_false. }
  assert (is_file (course_dir_of course) w0 = false) as Hf.
  { unfold is_file. apply bool_decide_false, Hfiles.
    apply elem_of_app. right. by apply list_elem_of_singleton. }
  assert (course_dir_of course ≠ []) as Hne.
  { apply os_path_join_nonempty. intros Hlit. discriminate Hlit. }
  pose proof (makedirs_spec (course_dir_of course) w0 Hne Hfiles) as Hmk.
  pose proof (folder_pass_returns course course_id (course_dir_of course)
                (mkWorld (dirs w0 ∪ list_to_set (ancestors (course_dir_of course) ++
                                                 [course_dir_of course]))
                   (files w0) (console w0) (calls w0))) as Hret.
  unfold download_course_files, try_except, bind, call, print, os_path_exists.
  rewrite Hcourse. fold w0. rewrite Hd, Hf. cbn [orb]. rewrite Hmk.
  destruct (folder_pass course course_id (course_dir_of course) _) as [[[]|e] w2];
    [|done].
  pose proof (module_pass_returns course course_id (course_dir_of course) w2) as Hret'.
  cbn [snd].
  by destruct (module_pass course course_id (course_dir_of course) w2) as [[[]|e] w3].
Qed.

Lemma walk_first_call folder d w :
  ∃ k, calls (download_folder_contents folder d w).2 =
       calls w ++ FolderGetFiles (folder_id folder) :: k.
Proof.
  pose proof (walk_extends_batch folder d w) as E1.
  pose proof (grows_process_files (folder_files folder) d
                (recorded (FolderGetFiles (folder_id folder)) w)) as E2.
  destruct (ext_calls _ _ (transitivity E2 E1)) as [k Hk]. exists k.
  rewrite Hk. simpl. by rewrite <- app_assoc.
Qed.

Lemma real_disk_with (l : list str) :
  forallb plain l = true →
  forallb (λ p, forallb (λ q, bool_decide (q ∈ l)) (ancestors p)) l = true →
  real_disk (disk_with l).
Proof.
  intros Hp Ha. rewrite forallb_forall in Hp. rewrite forallb_forall in Ha.
  split; simpl.
  - intros p Hp'%elem_of_list_to_set. by apply Hp, list_elem_of_In.
  - intros p Hp'. rewrite dom_empty_L in Hp'. by apply not_elem_of_empty in Hp'.
  - intros p q Hp'%elem_of_list_to_set Hq. apply elem_of_list_to_set.
    apply list_elem_of_In in Hp', Hq. specialize (Ha p Hp').
    rewrite forallb_forall in Ha. specialize (Ha q Hq).
    by apply bool_decide_eq_true in Ha.
  - intros p q Hp'. rewrite dom_empty_L in Hp'. by apply not_elem_of_empty in Hp'.
Qed.

(** C8 (amended). For a course that resolves and has no local directory
    yet (its sanitized name is a proper name, and nothing of that name
    is on the disk), the walk of the folder pass starts, in the new
    directory of the course, from the first folder of the course whose
    full name is literally [course files]: the first folder whose files
    are asked for is that one.  When no folder has that full name, no
    folder is walked: the pass prints its error line and the module pass
    follows. *)
Theorem course_files_folder_is_the_root (course_id : Z) (course : Course) (w : World) :
  canvas_get_course course_id = Ok course →
  proper_name (sanitize_filename (course_name course)) = true →
  real_disk w →
  course_dir_of course ∉ dirs w →
  (∀ q, q ∈ ancestors (course_dir_of course) ++ [course_dir_of course] →
        q ∉ dom (files w)) →
  match list_find (λ f, folder_full_name f = lit "course files")
          (items (course_folders course)) with
  | Some (_, root) =>
      download_course_files course_id w =
        module_pass course course_id (course_dir_of course)
          (try_except (download_folder_contents root (course_dir_of course))
             (folder_pass_handler course_id) (walk_start course_id course w)).2 ∧
      ∃ k, calls (download_course_files course_id w).2 =
             calls w ++ GetCourse course_id :: CourseGetFolders course_id ::
                        FolderGetFiles (folder_id root) :: k
  | None =>
      no_root_line course_id course ∈ console (download_course_files course_id w).2 ∧
      ∃ k, calls (download_course_files course_id w).2 =
             calls w ++ GetCourse course_id :: CourseGetFolders course_id ::
                        CourseGetModules course_id :: k ∧
           Forall is_module_call k
  end.
Proof.
  intros Hcourse _ _ Hdir Hfiles.
  rewrite (fresh_course_run _ _ _ Hcourse Hdir Hfiles). rewrite folder_pass_root.
  match goal with |- context [recorded _ ?w0] =>
    replace (recorded (CourseGetFolders course_id) w0)
      with (walk_start course_id course w)
      by (unfold recorded, walk_start; simpl; by rewrite <- app_assoc)
  end.
  destruct (list_find _ (items (course_folders course))) as [[n root]|].
  - split; [done|].
    destruct (walk_first_call root (course_dir_of course)
                (walk_start course_id course w)) as [k Hk].
    destruct (module_pass_calls course course_id (course_dir_of course)
                (try_except (download_folder_contents root (course_dir_of course))
                   (folder_pass_handler course_id) (walk_start course_id course w)).2)
      as (k2 & Hk2 & _).
    eexists. rewrite Hk2. unfold try_except.
    destruct (download_folder_contents root (course_dir_of course) _) as [[[]|e] w2];
      simpl in *.
    + rewrite Hk. simpl. rewrite <- !app_assoc. simpl. reflexivity.
    + assert (calls (folder_pass_handler course_id e w2).2 = calls w2) as ->
        by by destruct e.
      rewrite Hk. simpl. rewrite <- !app_assoc. simpl. reflexivity.
  - assert (folder_pass_handler course_id
              (default StopIteration (fault (course_folders course)))
              (walk_start course_id course w) =
            (Ok tt, printed (no_root_line course_id course)
                      (walk_start course_id course w))) as ->.
    { unfold folder_pass_handler, no_root_line. by destruct (default _ _). }
    cbn [snd].
    pose proof (grows_module_pass course course_id (course_dir_of course)
                  (printed (no_root_line course_id course)
                     (walk_start course_id course w))) as Hext.
    destruct (module_pass_calls course course_id (course_dir_of course)
                (printed (no_root_line course_id course)
                   (walk_start course_id course w))) as (k2 & Hk2 & HF2).
    split.
    + destruct (ext_console _ _ Hext) as [x ->]. simpl.
      apply elem_of_app. left. apply elem_of_app. right. by left.
    + exists k2. split; [|done]. rewrite Hk2. simpl. by rewrite <- !app_assoc.
Qed.

(** X14. For a course that resolves and has no local directory yet (its
    sanitized name is a proper name, and nothing of that name is on the
    disk), the folder pass and then the module pass both run, whatever
    happens in the folder pass: after the course is resolved its folders
    are listed, the calls of the walk follow, then its modules are listed
    and the calls for the module items follow, and nothing else is
    called. *)
Theorem both_passes_always_run (course_id : Z) (course : Course) (w : World) :
  canvas_get_course course_id = Ok course →
  proper_name (sanitize_filename (course_name course)) = true →
  real_disk w →
  course_dir_of course ∉ dirs w →
  (∀ q, q ∈ ancestors (course_dir_of course) ++ [course_dir_of course] →
        q ∉ dom (files w)) →
  (download_course_files course_id w).1 = Ok tt ∧
  ∃ k1 k2,
    calls (download_course_files course_id w).2 =
      calls w ++ GetCourse course_id :: CourseGetFolders course_id :: k1 ++
                 CourseGetModules course_id :: k2 ∧
    Forall is_walk_call k1 ∧ Forall is_module_call k2.
Proof.
  intros Hcourse _ _ Hdir Hfiles.
  rewrite (fresh_course_run _ _ _ Hcourse Hdir Hfiles).
  split; [apply module_pass_returns|].
  match goal with |- context [folder_pass _ _ _ ?w0] => set (wm := w0) end.
  destruct (folder_pass_calls course course_id (course_dir_of course) wm)
    as (k1 & Hk1 & HF1).
  destruct (module_pass_calls course course_id (course_dir_of course)
              (folder_pass course course_id (course_dir_of course) wm).2)
    as (k2 & Hk2 & HF2).
  exists k1, k2. split; [|done]. rewrite Hk2, Hk1. simpl.
  by rewrite <- !app_assoc.
Qed.

(** X15. What one run of [download_course_files] leaves behind makes the
    next run skip the course: when the course resolves and no regular
    file stands at its directory or on the way to it, a second run only
    resolves the course and prints the two lines (processing, skipping),
    whatever failed or was left out in the first. *)
Theorem second_run_skips_the_course (course_id : Z) (course : Course) (w : World) :
  canvas_get_course course_id = Ok course →
  (∀ q, q ∈ ancestors (course_dir_of course) ++ [course_dir_of course] →
        q ∉ dom (files w)) →
  let w1 := (download_course_files course_id w).2 in
  download_course_files course_id w1 =
    (Ok tt, printed (SkipCourse (course_name course))
              (printed (ProcessingCourse (course_name course))
                 (recorded (GetCourse course_id) w1))).
Proof.
  intros Hcourse Hfiles w1.
  apply skip_existing_course; [done|]. unfold w1.
  destruct (decide (course_dir_of course ∈ dirs w)) as [Hdir|Hdir].
  - by rewrite (skip_existing_course _ _ w Hcourse Hdir).
  - rewrite (fresh_course_run _ _ _ Hcourse Hdir Hfiles).
    match goal with |- context [folder_pass _ _ _ ?w0] => set (wm := w0) end.
    pose proof (grows_folder_pass course course_id (course_dir_of course) wm) as H1'.
    pose proof (grows_module_pass course course_id (course_dir_of course)
                  (folder_pass course course_id (course_dir_of course) wm).2) as H2'.
    apply (ext_dirs _ _ H2'), (ext_dirs _ _ H1'). unfold wm. simpl.
    apply elem_of_union_r, elem_of_list_to_set, elem_of_app. right.
    by apply list_elem_of_singleton.
Qed.

(** ** The items of a module *)

Lemma file_calls_app k1 k2 : file_calls (k1 ++ k2) = file_calls k1 ++ file_calls k2.
Proof. apply omap_app. Qed.

Lemma file_calls_http k : Forall is_http_call k → file_calls k = [].
Proof.
  induction 1 as [|c k Hc _ IH]; [done|].
  change (c :: k) with ([c] ++ k). rewrite file_calls_app, IH. by destruct c.
Qed.

Lemma file_items_cons item l :
  file_items (item :: l) =
  (if bool_decide (item_type item = lit "File") then [content_id item] else []) ++
  file_items l.
Proof.
  unfold file_items. rewrite filter_cons. case_bool_decide; by case_decide.
Qed.

Lemma file_items_app l1 l2 : file_items (l1 ++ l2) = file_items l1 ++ file_items l2.
Proof. unfold file_items. by rewrite filter_app, fmap_app. Qed.

Lemma process_one_file f d w :
  probe_answers f →
  (process_files (py_list [f]) d w).1 = Ok tt ∧
  file_calls (calls (process_files (py_list [f]) d w).2) = file_calls (calls w).
Proof.
  intros Hf. split.
  - destruct (process_files_facts (py_list [f]) d w) as (-> & _).
    assert (Forall probe_answers [f]) as HF by (by constructor).
    change (items (py_list [f])) with [f]. change (fault (py_list [f])) with (@None Exn).
    by destruct (plan_probes_answer [f] None d HF) as [-> _].
  - destruct (calls_process_files is_http_call (λ _ Hc, Hc) (py_list [f]) d w)
      as (k & -> & Hk).
    by rewrite file_calls_app, (file_calls_http k Hk), app_nil_r.
Qed.

Lemma module_item_answers course_id d item w :
  item_answers item →
  (module_item_body course_id d item w).1 = Ok tt ∧
  file_calls (calls (module_item_body course_id d item w).2) =
    file_calls (calls w) ++ file_items [item].
Proof.
  intros Hitem. rewrite file_items_cons. unfold module_item_body.
  case_bool_decide as Htype; [|simpl; by rewrite app_nil_r].
  unfold try_except, bind, call.
  destruct (Hitem Htype) as [->|(f & -> & Hf)].
  - simpl. by rewrite file_calls_app.
  - destruct (falsy (url f)); cbn [negb].
    + simpl. by rewrite file_calls_app.
    + destruct (process_one_file f d (recorded (GetFile (content_id item)) w) Hf)
        as [Hok Hcalls].
      destruct (process_files _ _ _) as [[[]|e] w1]; [|done]. simpl in *.
      by rewrite Hcalls, file_calls_app.
Qed.

Lemma module_items_answer course_id d fl l w :
  Forall item_answers l →
  (for_each (module_item_body course_id d) fl l w).1 =
    match fl with None => Ok tt | Some e => Raise e end ∧
  file_calls (calls (for_each (module_item_body course_id d) fl l w).2) =
    file_calls (calls w) ++ file_items l ∧
  (fl = None →
   ∃ w', for_each (module_item_body course_id d) fl l w = (Ok tt, w')).
Proof.
  intros Hl. revert w. induction Hl as [|item l Hitem _ IH]; intros w.
  - simpl. destruct fl; simpl; rewrite app_nil_r; split_and!; try done.
    intros _. by eexists.
  - cbn [for_each]. unfold bind.
    destruct (module_item_answers course_id d item w Hitem) as [Hok Hcalls].
    destruct (module_item_body course_id d item w) as [[[]|e] w1]; [|done].
    simpl in Hcalls. fold (for_each (module_item_body course_id d) fl).
    destruct (IH w1) as (Hok' & Hcalls' & Hw'). split_and!; [done| |done].
    rewrite Hcalls', Hcalls. change (item :: l) with ([item] ++ l).
    by rewrite file_items_app, <- app_assoc.
Qed.

Lemma module_body_unfold course_id d module w w1 :
  os_makedirs (module_dir_of d module) w = (Ok tt, w1) →
  module_body course_id d module w =
    try_except
      (for_each (module_item_body course_id (module_dir_of d module))
         (fault (module_items module)) (items (module_items module)))
      (λ e, print (module_items_handler module course_id e))
      (recorded (ModuleGetItems (module_id module)) w1) ∧
  calls w1 = calls w ∧ console w1 = console w.
Proof.
  intros Hmk. unfold module_body, bind. fold (module_dir_of d module). rewrite Hmk.
  split.
  - unfold try_except, call, bind.
    destruct (for_each _ _ _ _) as [[[]|e] w2]; [done|]. by destruct e.
  - unfold os_makedirs in Hmk. case_match; by simplify_eq.
Qed.

(** X16. A module item whose file does not exist does not stop the items
    after it: when the directory of the module can be made and every
    file item either has no file or has one whose size probe answers,
    the module is done without an exception and every item of type
    [File] was asked for, in the listed order, even if the listing of
    the items breaks at its end. *)
Theorem missing_module_file_does_not_stop_items (course_id : Z) (d : str)
    (module : Module) (w w1 : World) :
  os_makedirs (module_dir_of d module) w = (Ok tt, w1) →
  Forall item_answers (items (module_items module)) →
  (module_body course_id d module w).1 = Ok tt ∧
  file_calls (calls (module_body course_id d module w).2) =
    file_calls (calls w) ++ file_items (items (module_items module)).
Proof.
  intros Hmk Hitems.
  destruct (module_body_unfold course_id d module w w1 Hmk) as (-> & Hcalls & _).
  destruct (module_items_answer course_id (module_dir_of d module)
              (fault (module_items module)) (items (module_items module))
              (recorded (ModuleGetItems (module_id module)) w1) Hitems)
    as (Hok & Hc & _).
  unfold try_except.
  destruct (for_each _ _ _ _) as [[[]|e] w2]; simpl in *;
    (split; [done|]); rewrite Hc, Hcalls, file_calls_app; simpl;
    by rewrite app_nil_r.
Qed.

(** X17. Any other failure to get the file of a module item ends the
    items of that module, and only those: the items after it are not
    asked for, the line of the module is printed last, and the module
    ends without an exception, so that the next module is processed. *)
Theorem other_item_failure_ends_the_module (course_id : Z) (d : str)
    (module : Module) (pre post : list ModuleItem) (item : ModuleItem) (e : Exn)
    (w w1 : World) :
  os_makedirs (module_dir_of d module) w = (Ok tt, w1) →
  items (module_items module) = pre ++ item :: post →
  Forall item_answers pre →
  item_type item = lit "File" →
  canvas_get_file (content_id item) = Raise e →
  e ≠ ResourceDoesNotExist →
  (module_body course_id d module w).1 = Ok tt ∧
  file_calls (calls (module_body course_id d module w).2) =
    file_calls (calls w) ++ file_items pre ++ [content_id item] ∧
  last (console (module_body course_id d module w).2) =
    Some (module_items_handler module course_id e).
Proof.
  intros Hmk Hitems Hpre Htype Hfile He.
  destruct (module_body_unfold course_id d module w w1 Hmk) as (-> & Hcalls & _).
  rewrite Hitems. unfold try_except.
  set (w2 := recorded (ModuleGetItems (module_id module)) w1).
  assert (∀ fl l w0, Forall item_answers l →
            ∃ w', for_each (module_item_body course_id (module_dir_of d module)) fl
                    (l ++ item :: post) w0 =
                  (Raise e, recorded (GetFile (content_id item)) w') ∧
                  file_calls (calls w') = file_calls (calls w0) ++ file_items l)
    as Hloop.
  { intros fl l w0 Hl. revert w0. induction Hl as [|x l Hx _ IH]; intros w0.
    - exists w0. simpl. rewrite app_nil_r. split; [|done].
      unfold bind, module_item_body. rewrite bool_decide_true by done.
      unfold try_except, bind, call. rewrite Hfile. by destruct e.
    - cbn [app for_each]. unfold bind.
      destruct (module_item_answers course_id (module_dir_of d module) x w0 Hx)
        as [Hok Hc].
      destruct (module_item_body _ _ x w0) as [[[]|e'] w']; [|done].
      simpl in Hc. fold (for_each (module_item_body course_id (module_dir_of d module)) fl).
      destruct (IH w') as (w'' & -> & Hc'). exists w''. split; [done|].
      rewrite Hc', Hc. change (x :: l) with ([x] ++ l).
      by rewrite file_items_app, <- app_assoc. }
  destruct (Hloop (fault (module_items module)) pre w2 Hpre) as (w' & -> & Hc).
  simpl. split_and!; [done| |by rewrite last_snoc].
  rewrite file_calls_app, Hc. unfold w2; simpl.
  rewrite Hcalls, file_calls_app. simpl. by rewrite app_nil_r, <- app_assoc.
Qed.

(** ** Where the disk is written *)

Lemma os_path_join_prefix (a b : str) : sep ∉ b → a `prefix_of` os_path_join a b.
Proof.
  intros Hb. unfold os_path_join. rewrite (startswith_sep_false b Hb).
  destruct (last a) as [x|] eqn:Hx.
  - destruct (x =? sep)%N; by apply prefix_app_r.
  - apply last_None in Hx as ->. apply prefix_nil.
Qed.

Lemma sanitized_join_prefix (d0 d n : str) :
  isalnum sep = false → d0 `prefix_of` d →
  d0 `prefix_of` os_path_join d (sanitize_filename n).
Proof.
  intros Hsep Hd. etrans; [done|].
  by apply os_path_join_prefix, sanitize_filename_no_sep.
Qed.

Lemma ancestors_from_prefix (acc p q : str) :
  q ∈ ancestors_from acc p → q `prefix_of` acc ++ p.
Proof.
  revert acc. induction p as [|c p IH]; intros acc; cbn [ancestors_from].
  - by intros ?%elem_of_nil.
  - intros [Hq|Hq]%elem_of_app.
    + destruct ((c =? sep)%N && negb (bool_decide (acc = []))).
      * apply list_elem_of_singleton in Hq as ->. by apply prefix_app_r.
      * by apply elem_of_nil in Hq.
    + apply IH in Hq. by rewrite <- app_assoc in Hq.
Qed.

Lemma along_mono (d d' p : str) : d `prefix_of` d' → along d' p → along d p.
Proof.
  intros Hd [Hp|Hp].
  - destruct (prefix_weak_total p d d' Hp Hd); [by left|by right].
  - right. by etrans.
Qed.

Global Instance confined_preorder d : PreOrder (confined d).
Proof.
  split.
  - intros w. split; auto.
  - intros w1 w2 w3 [Hd1 Hf1] [Hd2 Hf2]. split; intros p Hp.
    + destruct (Hd2 p Hp); auto.
    + destruct (Hf2 p Hp); auto.
Qed.

Lemma confined_mono (d d' : str) w w' :
  d `prefix_of` d' → confined d' w w' → confined d w w'.
Proof.
  intros Hd [Hdirs Hfiles]. split; intros p Hp.
  - destruct (Hdirs p Hp); [by left|right]. by eapply along_mono.
  - destruct (Hfiles p Hp); [by left|right]. by etrans.
Qed.

Lemma confined_same d w w' :
  dirs w' = dirs w → files w' = files w → confined d w w'.
Proof. intros Hd Hf. split; intros p; rewrite ?Hd, ?Hf; auto. Qed.

Lemma confined_print d l : keeps (confined d) (print l).
Proof. intros w. by apply confined_same. Qed.

Lemma confined_call d {A} c (r : Res A) : keeps (confined d) (call c r).
Proof. intros w. by apply confined_same. Qed.

Lemma confined_makedirs (d p : str) : d `prefix_of` p → keeps (confined d) (os_makedirs p).
Proof.
  intros Hd w. unfold os_makedirs. case_match; [by apply confined_same|].
  split; simpl; [|by auto]. intros q [Hq|Hq]%elem_of_union; [by left|right].
  apply elem_of_list_to_set, elem_of_app in Hq as [Hq|Hq].
  - apply ancestors_from_prefix in Hq. simpl in Hq.
    destruct (prefix_weak_total q d p Hq Hd); [by left|by right].
  - apply list_elem_of_singleton in Hq as ->. by right.
Qed.

Lemma download_disk_dom t w p :
  isalnum sep = false →
  p ∈ dom (download_disk t w) → p ∈ dom (files w) ∨ task_dir t `prefix_of` p.
Proof.
  intros Hsep. unfold download_disk. repeat case_match; auto.
  rewrite dom_insert. intros [Hp|Hp]%elem_of_union; [right|by left].
  apply elem_of_singleton in Hp as ->.
  by apply os_path_join_prefix, sanitize_filename_no_sep.
Qed.

Lemma batch_step_confined d b b' :
  isalnum sep = false → batch_step d b b' → batch_in d b →
  batch_in d b' ∧ confined d (world b) (world b').
Proof.
  intros Hsep Hstep [Hq Hr]. revert Hq Hr.
  destruct Hstep as [file todo fl q r c w ot w' Hb|file todo fl q r c w e w' Hb
                    |q r c w|e q r c w|p t q r c w Hlen|p q r1 t r2 c w|c w|e c w];
    simpl; intros Hq Hr; try (split; [by split|by apply confined_same]).
  - rewrite loop_body_spec in Hb. injection Hb as Ht <-.
    split; [|by apply confined_same]. split; simpl; [|done].
    apply Forall_app. split; [done|]. unfold turn in Ht.
    destruct (falsy (url file)); [by simplify_eq|].
    destruct (probe _); simplify_eq. simpl. by repeat constructor.
  - rewrite loop_body_spec in Hb. injection Hb as Ht <-.
    split; [by split|by apply confined_same].
  - apply Forall_cons in Hq as [Ht Hq]. split; [|by apply confined_same].
    split; simpl; [done|]. apply Forall_app. split; [done|]. by repeat constructor.
  - apply Forall_app in Hr as [Hr1 Hr2]. apply Forall_cons in Hr2 as [Ht Hr2].
    split; [split; simpl; [done|by apply Forall_app]|].
    unfold run_task. destruct t as [u n d']. simpl in *. subst d'.
    rewrite download_file_result. split; simpl; [by auto|].
    intros x Hx. by apply (download_disk_dom (mkTask u n d) w x Hsep) in Hx.
Qed.

Lemma confined_process_files fs d :
  isalnum sep = false → keeps (confined d) (process_files fs d).
Proof.
  intros Hsep w. unfold process_files; simpl.
  assert (∀ b b', rtc (batch_step d) b b' → batch_in d b →
                  batch_in d b' ∧ confined d (world b) (world b')) as Hrun.
  { induction 1 as [b|b1 b2 b3 Hstep _ IH]; intros Hin; [done|].
    destruct (batch_step_confined d b1 b2 Hsep Hstep Hin) as [Hin2 Hc2].
    destruct (IH Hin2) as [Hin3 Hc3]. split; [done|]. by etrans. }
  apply (Hrun _ _ (run_batch_run fs d w)). by split.
Qed.

Lemma ancestors_from_sep (acc p q : str) :
  q ∈ ancestors_from acc p → ∃ rest, acc ++ p = q ++ sep :: rest.
Proof.
  revert acc. induction p as [|c p IH]; intros acc; cbn [ancestors_from].
  - by intros ?%elem_of_nil.
  - intros [Hq|Hq]%elem_of_app.
    + destruct (c =? sep)%N eqn:Ec; [|by apply elem_of_nil in Hq].
      destruct (negb (bool_decide (acc = []))); [|by apply elem_of_nil in Hq].
      apply list_elem_of_singleton in Hq as ->. apply N.eqb_eq in Ec as ->.
      by exists p.
    + apply IH in Hq as [rest Hq]. exists rest. by rewrite <- Hq, <- app_assoc.
Qed.

Lemma prefix_before_sep (d q rest : str) :
  sep ∉ d → d `prefix_of` q ++ sep :: rest → d `prefix_of` q.
Proof.
  intros Hd Hpre.
  destruct (prefix_weak_total q d (q ++ sep :: rest)) as [[k ->]|];
    [by apply prefix_app_r|done| |done].
  destruct Hpre as [k' Hk']. rewrite <- app_assoc in Hk'.
  apply app_inv_head in Hk'. destruct k as [|x k].
  - by rewrite app_nil_r.
  - injection Hk' as <- _. exfalso. apply Hd, elem_of_app. right. by left.
Qed.

Global Instance below_preorder d : PreOrder (below d).
Proof.
  split.
  - intros w. split; auto.
  - intros w1 w2 w3 [Hd1 Hf1] [Hd2 Hf2]. split; intros p Hp.
    + destruct (Hd2 p Hp); auto.
    + destruct (Hf2 p Hp); auto.
Qed.

Lemma below_same d w w' : dirs w' = dirs w → files w' = files w → below d w w'.
Proof. intros Hd Hf. split; intros p; rewrite ?Hd, ?Hf; auto. Qed.

Lemma below_print d l : keeps (below d) (print l).
Proof. intros w. by apply below_same. Qed.

Lemma below_call d {A} c (r : Res A) : keeps (below d) (call c r).
Proof. intros w. by apply below_same. Qed.

Lemma below_makedirs (d p : str) :
  sep ∉ d → d `prefix_of` p → keeps (below d) (os_makedirs p).
Proof.
  intros Hsep Hd w. unfold os_makedirs. case_match; [by apply below_same|].
  split; simpl; [|by auto]. intros q [Hq|Hq]%elem_of_union; [by left|right].
  apply elem_of_list_to_set, elem_of_app in Hq as [Hq|Hq].
  - apply ancestors_from_sep in Hq as [rest Hq]. simpl in Hq. subst p.
    by eapply prefix_before_sep.
  - by apply list_elem_of_singleton in Hq as ->.
Qed.

Lemma below_process_files fs (d0 d : str) :
  isalnum sep = false → d0 `prefix_of` d → keeps (below d0) (process_files fs d).
Proof.
  intros Hsep Hd w.
  destruct (confined_mono d0 d _ _ Hd (confined_process_files fs d Hsep w))
    as [_ Hfiles].
  destruct (process_files_facts fs d w) as (_ & [Hdirs _ _ _] & _).
  split; [|done]. intros p Hp. left. by rewrite <- Hdirs.
Qed.

Lemma downloads_root_no_sep : sep ∉ downloads_root.
Proof. apply (bool_decide_unpack _). vm_compute. exact I. Qed.

Lemma below_download_course_files course_id :
  isalnum sep = false →
  keeps (below downloads_root) (download_course_files course_id).
Proof.
  intros Hsep.
  apply (keeps_download_course_files (below downloads_root) (λ _, True)
           (λ p, downloads_root `prefix_of` p)
           (λ d n, sanitized_join_prefix downloads_root d n Hsep)
           (below_print downloads_root)
           (λ p, below_makedirs downloads_root p downloads_root_no_sep)
           (λ A c r _, below_call downloads_root c r)
           (λ fs d, below_process_files fs downloads_root d Hsep)); done.
Qed.

(** X18. The slash not being alphanumeric, what the walk of a folder
    adds to the disk is spelled below the directory it was given: every
    new file has the directory as a prefix of its path, and every new
    directory has it as a prefix or is on the way to it.  (The paths are
    taken as spelled: the name [..] passes [sanitize_filename].) *)
Theorem walk_stays_below_its_directory (folder : Folder) (d : str) (w : World) :
  isalnum sep = false →
  (∀ p, p ∈ dom (files (download_folder_contents folder d w).2) →
        p ∈ dom (files w) ∨ d `prefix_of` p) ∧
  (∀ p, p ∈ dirs (download_folder_contents folder d w).2 →
        p ∈ dirs w ∨ d `prefix_of` p ∨ p `prefix_of` d).
Proof.
  intros Hsep.
  pose proof (keeps_download_folder_contents (confined d) (λ _, True)
                (λ p, d `prefix_of` p)
                (λ d' n, sanitized_join_prefix d d' n Hsep)
                (confined_print d) (confined_makedirs d)
                (λ A c r _, confined_call d c r)
                (λ fs d' Hd', λ w', confined_mono d d' _ _ Hd'
                                      (confined_process_files fs d' Hsep w'))
                folder d (reflexivity d) (λ _, I) (λ _, I) w) as [Hdirs Hfiles].
  split; [done|]. intros p Hp. destruct (Hdirs p Hp) as [?|[?|?]]; auto.
Qed.

(** ** The script *)

Section Script.
Context `{!Enrollment}.

Lemma course_calls_app k1 k2 : course_calls (k1 ++ k2) = course_calls k1 ++ course_calls k2.
Proof. apply omap_app. Qed.

Lemma course_calls_none k : Forall not_get_course k → course_calls k = [].
Proof.
  induction 1 as [|c k Hc _ IH]; [done|].
  change (c :: k) with ([c] ++ k). rewrite course_calls_app, IH. by destruct c.
Qed.

Lemma rooted_there w :
  downloads_root ∈ dirs (rooted w) ∨ downloads_root ∈ dom (files (rooted w)).
Proof.
  unfold rooted. destruct (is_dir downloads_root w || is_file downloads_root w) eqn:E.
  - apply orb_true_iff in E as [E|E]; apply bool_decide_eq_true in E; auto.
  - left. simpl. set_solver.
Qed.

Lemma main_unfold w :
  main w =
  match py_list_of canvas_get_courses with
  | Ok course_ids => for_each download_course_files None (reverse course_ids) (rooted w)
  | Raise e => (Raise e, rooted w)
  end.
Proof.
  unfold main, bind, os_path_exists, os_makedirs_new, rooted, lift, ret.
  fold downloads_root.
  destruct (is_dir downloads_root w || is_file downloads_root w) eqn:E; [done|].
  pose proof E as E'. apply orb_false_iff in E' as [_ Ef].
  assert (os_makedirs downloads_root w =
          (Ok tt, mkWorld (dirs w ∪ {[downloads_root]}) (files w) (console w) (calls w)))
    as ->.
  { unfold os_makedirs.
    change (ancestors downloads_root ++ [downloads_root]) with [downloads_root].
    rewrite (bool_decide_false (downloads_root = [])) by done.
    cbn [existsb orb]. rewrite Ef. cbn [orb].
    change (list_to_set [downloads_root] : gset str)
      with ({[downloads_root]} ∪ (∅ : gset str)).
    by rewrite (right_id_L ∅ (∪)). }
  by rewrite E.
Qed.

Lemma courses_loop ids w :
  (for_each download_course_files None ids w).1 = Ok tt ∧
  course_calls (calls (for_each download_course_files None ids w).2) =
    course_calls (calls w) ++ ids ∧
  extends w (for_each download_course_files None ids w).2.
Proof.
  revert w. induction ids as [|i ids IH]; intros w.
  - simpl. by rewrite app_nil_r.
  - cbn [for_each]. unfold bind.
    destruct (download_course_files_run i w) as (Hok & k & Hk & HF).
    pose proof (grows_download_course_files i w) as Hext.
    destruct (download_course_files i w) as [r w1]. simpl in Hok, Hk, Hext. subst r.
    destruct (IH w1) as (Hok' & Hc & Hext'). split_and!; [done| |by etrans].
    fold (for_each download_course_files None). rewrite Hc, Hk.
    rewrite course_calls_app. change (GetCourse i :: k) with ([GetCourse i] ++ k).
    rewrite course_calls_app, (course_calls_none k HF). simpl.
    by rewrite <- app_assoc.
Qed.

(** X12. When the listing of the courses comes through, the script makes
    sure of its download root, processes every listed course once, in the
    reverse of the listed order and one after the other, and ends without
    an exception, whatever happens inside the courses. *)
Theorem main_processes_courses_in_reverse (w : World) :
  fault canvas_get_courses = None →
  (main w).1 = Ok tt ∧
  course_calls (calls (main w).2) =
    course_calls (calls w) ++ reverse (items canvas_get_courses) ∧
  (downloads_root ∈ dirs (main w).2 ∨ downloads_root ∈ dom (files (main w).2)).
Proof.
  intros Hfault. rewrite main_unfold. unfold py_list_of. rewrite Hfault.
  destruct (courses_loop (reverse (items canvas_get_courses)) (rooted w))
    as (Hok & Hc & Hext).
  split_and!; [done| |].
  - rewrite Hc. f_equal. unfold rooted. by case_match.
  - destruct (rooted_there w) as [Hd|Hf]; [left|right].
    + by apply (ext_dirs _ _ Hext).
    + by apply (ext_files _ _ Hext).
Qed.

(** X13. When the listing of the courses breaks, even after some courses
    were listed, the exception leaves the script before any course is
    processed: only the download root may have been made, nothing is
    printed and no call is on the record. *)
Theorem main_listing_failure_stops_everything (w : World) (e : Exn) :
  fault canvas_get_courses = Some e →
  main w = (Raise e, rooted w) ∧
  console (rooted w) = console w ∧ calls (rooted w) = calls w ∧
  files (rooted w) = files w.
Proof.
  intros Hfault. rewrite main_unfold. unfold py_list_of. rewrite Hfault.
  split; [done|]. unfold rooted. by case_match.
Qed.

(** X19. The slash not being alphanumeric, whatever the services answer,
    the script adds to the disk only below its download root, as the
    paths are spelled: every new file and every new directory has
    [canvas_downloads] as a prefix of its path. *)
Theorem script_stays_below_its_root (w : World) :
  isalnum sep = false →
  (∀ p, p ∈ dom (files (main w).2) →
        p ∈ dom (files w) ∨ downloads_root `prefix_of` p) ∧
  (∀ p, p ∈ dirs (main w).2 → p ∈ dirs w ∨ downloads_root `prefix_of` p).
Proof.
  intros Hsep.
  assert (below downloads_root w (rooted w)) as Hroot.
  { unfold rooted. case_match; [reflexivity|]. split; simpl; [|by auto].
    intros p [Hp|Hp]%elem_of_union; [by left|right].
    by apply elem_of_singleton in Hp as ->. }
  assert (below downloads_root w (main w).2) as [Hdirs Hfiles].
  { rewrite main_unfold. destruct (py_list_of canvas_get_courses) as [ids|e]; [|done].
    etrans; [done|].
    apply (keeps_for_each (below downloads_root) download_course_files None
             (reverse ids)).
    intros i _. by apply below_download_course_files. }
  done.
Qed.

End Script.

End Properties.

(** * The theorems at work on the samples *)

Section Samples.
Existing Instance sample_unicode.
Existing Instance sample_services.
Existing Instance in_order_scheduler.

Lemma busy_batch_reached :
  rtc (batch_step (lit "d")) (batch_init four_files (disk_with [lit "d"])) busy_batch.
Proof.
  apply (moves_sound (lit "d") [Main; Main; Main; Start; Start]).
  vm_compute. reflexivity.
Qed.

Lemma busy_batch_two_in_flight : length (running busy_batch) = 2 ∧ length (queue busy_batch) = 1.
Proof. split; reflexivity. Qed.

(** With two downloads in flight no third one can start. *)
Lemma busy_batch_cannot_start : move (lit "d") Start busy_batch = None.
Proof. vm_compute. reflexivity. Qed.

Lemma sanitize_filename_sample :
  sanitize_filename (lit "a?/b c:d.txt") = lit "a__b c_d.txt".
Proof. vm_compute. reflexivity. Qed.

Lemma existing_course_directory_is_skipped_witness :
  canvas_get_course 7 = Ok (mkCourse (lit "Bio: 101")
      (py_list [mkFolder 1 (lit "course files") (lit "course files") (py_list []) [] None])
      (py_list [])) ∧
  lit "canvas_downloads/Bio_ 101" ∈
    dirs (disk_with [lit "canvas_downloads"; lit "canvas_downloads/Bio_ 101"]) ∧
  download_course_files 7
    (disk_with [lit "canvas_downloads"; lit "canvas_downloads/Bio_ 101"]) =
  (Ok tt,
   mkWorld (dirs (disk_with [lit "canvas_downloads"; lit "canvas_downloads/Bio_ 101"])) ∅
     [ProcessingCourse (lit "Bio: 101"); SkipCourse (lit "Bio: 101")] [GetCourse 7]).
Proof.
  split; [reflexivity|]. split; [vm_compute; reflexivity|].
  refine (proj1 (existing_course_directory_is_skipped 7
           (mkCourse (lit "Bio: 101")
              (py_list [mkFolder 1 (lit "course files") (lit "course files")
                          (py_list []) [] None])
              (py_list []))
           (disk_with [lit "canvas_downloads"; lit "canvas_downloads/Bio_ 101"]) _ _)).
  - reflexivity.
  - vm_compute. reflexivity.
Defined.

(** The definitions at work. *)

Example os_path_join_samples :
  os_path_join (lit "canvas_downloads") (lit "Bio_ 101") = lit "canvas_downloads/Bio_ 101" ∧
  os_path_join (lit "a/") (lit "b") = lit "a/b" ∧
  os_path_join (lit "a") (lit "/b") = lit "/b" ∧
  os_path_join [] (lit "b") = lit "b".
Proof. split_and!; reflexivity. Qed.

Example ancestors_sample :
  ancestors (lit "canvas_downloads/Bio/x") = [lit "canvas_downloads"; lit "canvas_downloads/Bio"].
Proof. reflexivity. Qed.

Example process_files_sample :
  (process_files (py_list [file_a; file_nourl; file_gone; file_upper]) (lit "d")
     (disk_with [lit "d"])).1 = Ok tt ∧
  console (process_files (py_list [file_a; file_nourl; file_gone; file_upper]) (lit "d")
             (disk_with [lit "d"])).2 =
    [SkipNoURL file_nourl; Downloaded (lit "d/a_.txt");
     DownloadFailed (lit "http://h/gone") (HTTPError 404); InvalidURL (lit "HTTP://h/g")] ∧
  files (process_files (py_list [file_a; file_nourl; file_gone; file_upper]) (lit "d")
           (disk_with [lit "d"])).2 = {[ lit "d/a_.txt" := [1; 2; 3; 4]%N ]}.
Proof. split_and!; vm_compute; reflexivity. Qed.

Example download_course_files_sample :
  (download_course_files 7 (disk_with [lit "canvas_downloads"])).1 = Ok tt ∧
  calls (download_course_files 7 (disk_with [lit "canvas_downloads"])).2 =
    [GetCourse 7; CourseGetFolders 7; FolderGetFiles 1; FolderGetFolders 1;
     CourseGetModules 7] ∧
  dirs (download_course_files 7 (disk_with [lit "canvas_downloads"])).2 =
    {[ lit "canvas_downloads"; lit "canvas_downloads/Bio_ 101" ]}.
Proof. split_and!; vm_compute; reflexivity. Qed.

Example unknown_course_sample :
  download_course_files 8 (disk_with [lit "canvas_downloads"]) =
  (Ok tt, mkWorld (dirs (disk_with [lit "canvas_downloads"])) ∅
            [CourseDoesNotExist 8 ResourceDoesNotExist] [GetCourse 8]).
Proof. vm_compute. reflexivity. Qed.

Lemma process_files_skips_and_attempts_witness :
  Forall probe_answers [file_a; file_nourl; file_empty_url] ∧
  (process_files (py_list [file_a; file_nourl; file_empty_url]) (lit "d")
     (disk_with [lit "d"])).1 = Ok tt ∧
  ∀ b, rtc (batch_step (lit "d"))
         (batch_init (py_list [file_a; file_nourl; file_empty_url]) (disk_with [lit "d"])) b →
       terminal b →
       pc b = Returned ∧
       skip_lines (console (world b)) = [file_nourl; file_empty_url] ∧
       length (completed b) = 1.
Proof.
  assert (Forall probe_answers [file_a; file_nourl; file_empty_url]) as Hp.
  { repeat constructor; intros Hf; try discriminate Hf; eexists; vm_compute; reflexivity. }
  split; [exact Hp|].
  destruct (process_files_skips_and_attempts [file_a; file_nourl; file_empty_url]
              (lit "d") (disk_with [lit "d"]) Hp) as (_ & Hret & _ & Hall).
  split; [exact Hret|exact Hall].
Defined.

(** C3 as stated fails: of two files, one without URL, when the size
    probe of the first raises no skip line is printed and no download is
    attempted (the claim promises one of each). *)
Lemma process_files_probe_failure_breaks_counts :
  length [file_noprobe; file_nourl] = 2 ∧
  length (filter (λ f, falsy (url f) = true) [file_noprobe; file_nourl]) = 1 ∧
  (∃ b, rtc (batch_step (lit "d"))
          (batch_init (py_list [file_noprobe; file_nourl]) (disk_with [lit "d"])) b ∧
        terminal b) ∧
  ∀ b, rtc (batch_step (lit "d"))
         (batch_init (py_list [file_noprobe; file_nourl]) (disk_with [lit "d"])) b →
       terminal b →
       pc b = Propagated ConnectionError ∧
       skip_lines (console (world b)) = [] ∧
       completed b = [].
Proof.
  split; [reflexivity|]. split; [reflexivity|]. split; [apply batch_finishes|].
  intros b Hrun Hterm.
  destruct (batch_terminal_facts _ _ _ _ Hrun Hterm) as (_ & _ & Hc & Hpc & Hsk & _).
  split; [exact Hpc|]. split; [exact Hsk|].
  by apply Permutation_nil_r in Hc.
Qed.

Lemma download_failure_is_contained_witness :
  task_of (lit "d") file_gone ∈ (plan (items batch_with_failure) None (lit "d")).1 ∧
  startswith (lit "http://h/gone") (lit "http") = true ∧
  get_fails (lit "http://h/gone") = true ∧
  ∃ e, DownloadFailed (lit "http://h/gone") e ∈
         console (world (run_batch batch_with_failure (lit "d") (disk_with [lit "d"]))) ∧
       completed (run_batch batch_with_failure (lit "d") (disk_with [lit "d"])) ≡ₚ
         [task_of (lit "d") file_a; task_of (lit "d") file_gone] ∧
       pc (run_batch batch_with_failure (lit "d") (disk_with [lit "d"])) = Returned.
Proof.
  assert (task_of (lit "d") file_gone ∈ (plan (items batch_with_failure) None (lit "d")).1)
    as Ht by (vm_compute; right; left).
  split; [exact Ht|]. split; [reflexivity|]. split; [reflexivity|].
  destruct (download_failure_is_contained batch_with_failure (lit "d")
              (disk_with [lit "d"])
              (run_batch batch_with_failure (lit "d") (disk_with [lit "d"]))
              (task_of (lit "d") file_gone)
              (run_batch_run _ _ _) (run_batch_terminal _ _ _) Ht
              eq_refl eq_refl) as (e & _ & Hline & Hc & Hpc & _).
  exists e. split; [exact Hline|]. split; [exact Hc|exact Hpc].
Defined.

(** C4 as stated fails: a GET answered with status 304, which is not a
    2xx status, is not treated as a failure: the body is written and the
    download is reported as done. *)
Lemma status_304_is_not_a_failure :
  requests_get (lit "http://h/moved") = Ok (mkResponse 304 (py_list [])) ∧
  (download_file (lit "http://h/moved") (lit "f.txt") (lit "d") (disk_with [lit "d"])).1 =
    Ok tt ∧
  console (download_file (lit "http://h/moved") (lit "f.txt") (lit "d")
             (disk_with [lit "d"])).2 = [Downloaded (lit "d/f.txt")] ∧
  files (download_file (lit "http://h/moved") (lit "f.txt") (lit "d")
           (disk_with [lit "d"])).2 !! lit "d/f.txt" = Some [].
Proof. split_and!; vm_compute; reflexivity. Qed.

Lemma unauthorized_subfolder_does_not_stop_siblings_witness :
  (walk_body sibling_2 (lit "d/two") (disk_with [lit "d"; lit "d/two"])).1 =
    Raise Unauthorized ∧
  console (download_folder_contents sibling_2 (lit "d/two")
             (disk_with [lit "d"; lit "d/two"])).2 =
    [UnauthorizedFolder 22 Unauthorized] ∧
  ∀ s, s ∈ [sibling_1; sibling_2; sibling_3] →
       FolderGetFiles (folder_id s) ∈
         calls (for_each (subfolder_body (lit "d")) None
                  [sibling_1; sibling_2; sibling_3] (disk_with [lit "d"])).2.
Proof.
  destruct (unauthorized_subfolder_does_not_stop_siblings (lit "d")
              [sibling_1; sibling_2; sibling_3] None (disk_with [lit "d"]))
    as (Hcatch & _ & [Hall|(e & He & Hne)]).
  - split; [vm_compute; reflexivity|]. split; [|exact Hall].
    rewrite (Hcatch sibling_2 (lit "d/two") (disk_with [lit "d"; lit "d/two"])
               (walk_body sibling_2 (lit "d/two") (disk_with [lit "d"; lit "d/two"])).2).
    + vm_compute. reflexivity.
    + vm_compute. reflexivity.
  - exfalso. vm_compute in He. discriminate He.
Defined.

Lemma at_most_two_downloads_in_flight_witness :
  rtc session_step
    (session_init four_files (lit "d") (disk_with [lit "d"; lit "e"]))
    (mkSession second_batch_busy (lit "e") [first_batch_over]) ∧
  length (running second_batch_busy) = 2 ∧
  in_flight (mkSession second_batch_busy (lit "e") [first_batch_over]) ≤ 2.
Proof.
  assert (rtc session_step
            (session_init four_files (lit "d") (disk_with [lit "d"; lit "e"]))
            (mkSession second_batch_busy (lit "e") [first_batch_over])) as Hrun.
  { trans (mkSession first_batch_over (lit "d") []).
    { exact (session_lift (lit "d") [] _ _
               (run_batch_run four_files (lit "d") (disk_with [lit "d"; lit "e"]))). }
    eapply rtc_l.
    { apply (session_next (lit "d") first_batch_over [] four_files (lit "e")).
      exact I. }
    apply session_lift.
    apply (moves_sound (lit "e") [Main; Main; Start; Main; Start]).
    vm_compute. reflexivity. }
  split; [exact Hrun|]. split; [reflexivity|].
  exact (proj1 (at_most_two_downloads_in_flight four_files (lit "d")
                  (disk_with [lit "d"; lit "e"])
                  (mkSession second_batch_busy (lit "e") [first_batch_over]) Hrun)).
Defined.

Lemma walk_mirrors_three_levels_witness :
  real_disk (disk_with [lit "d"]) ∧
  plain (lit "d") = true ∧
  lit "d/Week 1" ∈
    dirs (download_folder_contents sample_root (lit "d") (disk_with [lit "d"])).2 ∧
  lit "d/Week 1/Lab_A" ∈
    dirs (download_folder_contents sample_root (lit "d") (disk_with [lit "d"])).2 ∧
  lit "d/Week 1/Lab_A/data" ∈
    dirs (download_folder_contents sample_root (lit "d") (disk_with [lit "d"])).2 ∧
  dirname (lit "d/Week 1/Lab_A/data") = lit "d/Week 1/Lab_A" ∧
  basename (lit "d/Week 1/Lab_A/data") = sanitize_filename (lit "data").
Proof.
  assert (isalnum sep = false) as Hsep by reflexivity.
  assert (real_disk (disk_with [lit "d"])) as Hdisk
    by (apply real_disk_with; reflexivity).
  set (w := disk_with [lit "d"]).
  set (wa := ((descent sample_root (lit "d") 0 ;;
               os_makedirs (child_dir (lit "d") folder_a)) w).2).
  set (wb := ((descent folder_a (child_dir (lit "d") folder_a) 0 ;;
               os_makedirs (child_dir (child_dir (lit "d") folder_a) folder_b)) wa).2).
  set (wc := ((descent folder_b (child_dir (child_dir (lit "d") folder_a) folder_b) 0 ;;
               os_makedirs
                 (child_dir (child_dir (child_dir (lit "d") folder_a) folder_b)
                    folder_c)) wb).2).
  assert (enters sample_root (lit "d") 0 folder_a w wa) as Ha.
  { split; [reflexivity|reflexivity|reflexivity|vm_compute; reflexivity]. }
  assert (enters folder_a (child_dir (lit "d") folder_a) 0 folder_b wa wb) as Hb.
  { split; [reflexivity|reflexivity|reflexivity|vm_compute; reflexivity]. }
  assert (enters folder_b (child_dir (child_dir (lit "d") folder_a) folder_b) 0
            folder_c wb wc) as Hc.
  { split; [reflexivity|reflexivity|reflexivity|vm_compute; reflexivity]. }
  destruct (walk_mirrors_three_levels sample_root folder_a folder_b folder_c
              0 0 0 (lit "d") w wa wb wc Hsep Hdisk eq_refl Ha Hb Hc)
    as ((Hda & Hdb & Hdc) & (_ & _ & Hdir) & (_ & _ & Hbase) & _).
  split; [exact Hdisk|]. split; [reflexivity|]. split; [exact Hda|].
  split; [exact Hdb|]. split; [exact Hdc|]. split; [exact Hdir|exact Hbase].
Defined.

(** C7 as stated fails: with a file three folders below the root, when
    Canvas refuses to list the files of the first folder the walk returns
    with the first local directory only. *)
Lemma refused_folder_leaves_a_shallow_tree :
  folder_subfolders sample_root_refused = [folder_a_refused] ∧
  folder_subfolders folder_a_refused = [folder_b] ∧
  folder_subfolders folder_b = [folder_c] ∧
  items (folder_files folder_c) = [file_a] ∧
  (download_folder_contents sample_root_refused (lit "d") (disk_with [lit "d"])).1 = Ok tt ∧
  console (download_folder_contents sample_root_refused (lit "d") (disk_with [lit "d"])).2 =
    [UnauthorizedFolder 11 Unauthorized] ∧
  dirs (download_folder_contents sample_root_refused (lit "d") (disk_with [lit "d"])).2 =
    {[ lit "d"; lit "d/Week 1" ]} ∧
  lit "d/Week 1/Lab_A" ∉
    dirs (download_folder_contents sample_root_refused (lit "d") (disk_with [lit "d"])).2.
Proof.
  split_and!; try reflexivity; try (vm_compute; reflexivity).
  apply (bool_decide_unpack _). vm_compute. exact I.
Qed.

Lemma course_files_folder_is_the_root_witness :
  canvas_get_course 7 = Ok course_7 ∧
  proper_name (sanitize_filename (course_name course_7)) = true ∧
  real_disk (disk_with [lit "canvas_downloads"]) ∧
  (course_dir_of course_7 ∉ dirs (disk_with [lit "canvas_downloads"])) ∧
  ∃ k, calls (download_course_files 7 (disk_with [lit "canvas_downloads"])).2 =
         calls (disk_with [lit "canvas_downloads"]) ++
         GetCourse 7 :: CourseGetFolders 7 :: FolderGetFiles 1 :: k.
Proof.
  assert (canvas_get_course 7 = Ok course_7) as Hcourse by reflexivity.
  assert (proper_name (sanitize_filename (course_name course_7)) = true) as Hname
    by reflexivity.
  assert (real_disk (disk_with [lit "canvas_downloads"])) as Hdisk
    by (apply real_disk_with; reflexivity).
  assert (course_dir_of course_7 ∉ dirs (disk_with [lit "canvas_downloads"])) as Hdir.
  { apply (bool_decide_unpack _). vm_compute. exact I. }
  assert (∀ q, q ∈ ancestors (course_dir_of course_7) ++ [course_dir_of course_7] →
               q ∉ dom (files (disk_with [lit "canvas_downloads"]))) as Hfiles.
  { intros q _. simpl. rewrite dom_empty_L. apply not_elem_of_empty. }
  pose proof (course_files_folder_is_the_root 7 course_7
                (disk_with [lit "canvas_downloads"]) Hcourse Hname Hdisk Hdir Hfiles)
    as Hroot.
  assert (list_find (λ f, folder_full_name f = lit "course files")
            (items (course_folders course_7)) =
          Some (0, mkFolder 1 (lit "course files") (lit "course files")
                     (py_list []) [] None)) as Hfind by (vm_compute; reflexivity).
  rewrite Hfind in Hroot.
  split; [exact Hcourse|]. split; [exact Hname|]. split; [exact Hdisk|].
  split; [exact Hdir|exact (proj2 Hroot)].
Defined.

Lemma size_probe_failure_propagates_witness :
  Forall probe_answers [file_a; file_nourl] ∧
  falsy (url file_noprobe) = false ∧
  probe (default [] (url file_noprobe)) = Raise ConnectionError ∧
  (process_files (py_list [file_a; file_nourl; file_noprobe; file_gone]) (lit "d")
     (disk_with [lit "d"])).1 = Raise ConnectionError.
Proof.
  assert (Forall probe_answers [file_a; file_nourl]) as Hp.
  { repeat constructor; intros Hf; try discriminate Hf; eexists; vm_compute; reflexivity. }
  split; [exact Hp|]. split; [reflexivity|]. split; [reflexivity|].
  exact (proj1 (size_probe_failure_propagates [file_a; file_nourl] [file_gone]
                  file_noprobe None (lit "d") (disk_with [lit "d"]) ConnectionError
                  Hp eq_refl eq_refl)).
Defined.

Lemma download_file_invalid_url_witness :
  startswith (lit "HTTP://h/g") (lit "http") = false ∧
  download_file (lit "HTTP://h/g") (lit "g.txt") (lit "d") (disk_with [lit "d"]) =
    (Ok tt, mkWorld (dirs (disk_with [lit "d"])) ∅ [InvalidURL (lit "HTTP://h/g")] []).
Proof.
  split; [reflexivity|].
  exact (download_file_invalid_url (lit "HTTP://h/g") (lit "g.txt") (lit "d")
           (disk_with [lit "d"]) eq_refl).
Defined.

(** The further properties on the samples. *)

Lemma sanitize_filename_in_place_witness :
  isalnum sep = false ∧
  length (sanitize_filename (lit "a/b:c")) = 5 ∧
  sep ∉ sanitize_filename (lit "a/b:c").
Proof.
  assert (isalnum sep = false) as Hsep by reflexivity.
  destruct (sanitize_filename_in_place (lit "a/b:c") Hsep) as (Hl & _ & Hs).
  split; [exact Hsep|]. split; [exact Hl|exact Hs].
Defined.

Lemma sanitized_join_splits_back_witness :
  isalnum sep = false ∧
  dirname (os_path_join (lit "canvas_downloads") (sanitize_filename (lit "Bio: 101"))) =
    lit "canvas_downloads" ∧
  basename (os_path_join (lit "canvas_downloads") (sanitize_filename (lit "Bio: 101"))) =
    sanitize_filename (lit "Bio: 101").
Proof.
  assert (isalnum sep = false) as Hsep by reflexivity.
  split; [exact Hsep|].
  refine (proj2 (sanitized_join_splits_back (lit "canvas_downloads")
                   (lit "Bio: 101") Hsep _ _)).
  - discriminate.
  - vm_compute. discriminate.
Defined.

Lemma download_file_writes_the_body_witness :
  requests_get (lit "http://h/a") = Ok (mkResponse 200 sample_body) ∧
  download_file (lit "http://h/a") (lit "a?.txt") (lit "d") (disk_with [lit "d"]) =
    (Ok tt,
     mkWorld (dirs (disk_with [lit "d"]))
       (<[os_path_join (lit "d") (sanitize_filename (lit "a?.txt")) := [1; 2; 3; 4]%N]> ∅)
       [Downloaded (os_path_join (lit "d") (sanitize_filename (lit "a?.txt")))]
       [Get (lit "http://h/a")]).
Proof.
  split; [vm_compute; reflexivity|].
  refine (download_file_writes_the_body (lit "http://h/a") (lit "a?.txt") (lit "d")
            (disk_with [lit "d"]) (mkResponse 200 sample_body) eq_refl _ _ _ eq_refl).
  - vm_compute. reflexivity.
  - simpl. lia.
  - vm_compute. reflexivity.
Defined.

Lemma process_files_only_downloads_witness :
  rtc (batch_step (lit "d")) (batch_init four_files (disk_with [lit "d"])) busy_batch ∧
  dirs (world busy_batch) = dirs (disk_with [lit "d"]) ∧
  ∃ k, calls (world busy_batch) = calls (disk_with [lit "d"]) ++ k ∧
       Forall is_http_call k.
Proof.
  assert (rtc (batch_step (lit "d")) (batch_init four_files (disk_with [lit "d"]))
            busy_batch) as Hrun.
  { apply (moves_sound (lit "d") [Main; Main; Main; Start; Start]).
    vm_compute. reflexivity. }
  split; [exact Hrun|].
  destruct (process_files_only_downloads four_files (lit "d") (disk_with [lit "d"])
              busy_batch Hrun) as (Hd & _ & _ & Hk).
  split; [exact Hd|exact Hk].
Defined.

Lemma interleaving_only_reorders_output_witness :
  rtc (batch_step (lit "d")) (batch_init four_files (disk_with [lit "d"]))
    reordered_batch ∧
  terminal reordered_batch ∧
  console (world reordered_batch) ≠
    console (world (run_batch four_files (lit "d") (disk_with [lit "d"]))) ∧
  console (world (run_batch four_files (lit "d") (disk_with [lit "d"]))) ≡ₚ
    console (world reordered_batch).
Proof.
  assert (rtc (batch_step (lit "d")) (batch_init four_files (disk_with [lit "d"]))
            reordered_batch) as Hrun.
  { apply (moves_sound (lit "d")
             [Main; Start; Main; Start; Finish 1; Main; Start; Main; Main;
              Finish 0; Finish 0; Main]).
    vm_compute. reflexivity. }
  split; [exact Hrun|]. split; [exact I|]. split; [vm_compute; discriminate|].
  destruct (interleaving_only_reorders_output four_files (lit "d") (disk_with [lit "d"])
              (run_batch four_files (lit "d") (disk_with [lit "d"])) reordered_batch
              (run_batch_run _ _ _) (run_batch_terminal _ _ _) Hrun I)
    as (_ & _ & Hc & _).
  exact Hc.
Defined.

Lemma batch_without_urls_only_prints_witness :
  Forall (λ f, falsy (url f) = true) [file_nourl; file_empty_url] ∧
  process_files (py_list [file_nourl; file_empty_url]) (lit "d") (disk_with [lit "d"]) =
    (Ok tt, mkWorld (dirs (disk_with [lit "d"])) ∅
              [SkipNoURL file_nourl; SkipNoURL file_empty_url] []).
Proof.
  assert (Forall (λ f, falsy (url f) = true) [file_nourl; file_empty_url]) as Hb.
  { repeat constructor. }
  split; [exact Hb|].
  exact (proj1 (batch_without_urls_only_prints [file_nourl; file_empty_url] (lit "d")
                  (disk_with [lit "d"]) Hb)).
Defined.

Lemma both_passes_always_run_witness :
  canvas_get_course 7 = Ok course_7 ∧
  proper_name (sanitize_filename (course_name course_7)) = true ∧
  real_disk (disk_with [lit "canvas_downloads"]) ∧
  (course_dir_of course_7 ∉ dirs (disk_with [lit "canvas_downloads"])) ∧
  ∃ k1 k2,
    calls (download_course_files 7 (disk_with [lit "canvas_downloads"])).2 =
      calls (disk_with [lit "canvas_downloads"]) ++
      GetCourse 7 :: CourseGetFolders 7 :: k1 ++ CourseGetModules 7 :: k2 ∧
    Forall is_walk_call k1 ∧ Forall is_module_call k2.
Proof.
  assert (canvas_get_course 7 = Ok course_7) as Hcourse by reflexivity.
  assert (proper_name (sanitize_filename (course_name course_7)) = true) as Hname
    by reflexivity.
  assert (real_disk (disk_with [lit "canvas_downloads"])) as Hdisk
    by (apply real_disk_with; reflexivity).
  assert (course_dir_of course_7 ∉ dirs (disk_with [lit "canvas_downloads"])) as Hdir.
  { apply (bool_decide_unpack _). vm_compute. exact I. }
  split; [exact Hcourse|]. split; [exact Hname|]. split; [exact Hdisk|].
  split; [exact Hdir|].
  refine (proj2 (both_passes_always_run 7 course_7 (disk_with [lit "canvas_downloads"])
                   Hcourse Hname Hdisk Hdir _)).
  intros q _. simpl. rewrite dom_empty_L. apply not_elem_of_empty.
Defined.

Lemma second_run_skips_the_course_witness :
  canvas_get_course 7 = Ok course_7 ∧
  console (download_course_files 7
             (download_course_files 7 (disk_with [lit "canvas_downloads"])).2).2 =
    console (download_course_files 7 (disk_with [lit "canvas_downloads"])).2 ++
    [ProcessingCourse (lit "Bio: 101"); SkipCourse (lit "Bio: 101")].
Proof.
  assert (canvas_get_course 7 = Ok course_7) as Hcourse by reflexivity.
  split; [exact Hcourse|].
  rewrite (second_run_skips_the_course 7 course_7 (disk_with [lit "canvas_downloads"])
             Hcourse).
  - simpl. by rewrite <- app_assoc.
  - intros q _. simpl. rewrite dom_empty_L. apply not_elem_of_empty.
Defined.

Lemma walk_stays_below_its_directory_witness :
  isalnum sep = false ∧
  ∀ p, p ∈ dom (files (download_folder_contents sample_root (lit "d")
                         (disk_with [lit "d"])).2) →
       p ∈ dom (files (disk_with [lit "d"])) ∨ lit "d" `prefix_of` p.
Proof.
  assert (isalnum sep = false) as Hsep by reflexivity.
  split; [exact Hsep|].
  exact (proj1 (walk_stays_below_its_directory sample_root (lit "d")
                  (disk_with [lit "d"]) Hsep)).
Defined.

End Samples.


(** * The second set of services *)

Section ModuleSamples.
Existing Instance sample_unicode.
Existing Instance module_services.
Existing Instance in_order_scheduler.

Lemma download_file_broken_stream_leaves_partial_file_witness :
  requests_get (lit "http://h/cut") = Ok (mkResponse 200 cut_body) ∧
  fault cut_body = Some ConnectionError ∧
  download_file (lit "http://h/cut") (lit "h.txt") (lit "d") (disk_with [lit "d"]) =
    (Ok tt,
     mkWorld (dirs (disk_with [lit "d"]))
       (<[os_path_join (lit "d") (sanitize_filename (lit "h.txt")) := [1; 2]%N]> ∅)
       [DownloadFailed (lit "http://h/cut") ConnectionError]
       [Get (lit "http://h/cut")]).
Proof.
  split; [vm_compute; reflexivity|]. split; [reflexivity|].
  refine (download_file_broken_stream_leaves_partial_file (lit "http://h/cut")
            (lit "h.txt") (lit "d") (disk_with [lit "d"]) (mkResponse 200 cut_body)
            ConnectionError eq_refl _ _ _ eq_refl).
  - vm_compute. reflexivity.
  - simpl. lia.
  - vm_compute. reflexivity.
Defined.

Lemma missing_module_file_does_not_stop_items_witness :
  canvas_get_file (content_id item_missing) = Raise ResourceDoesNotExist ∧
  Forall item_answers [item_missing; item_page; item_there] ∧
  (module_body 7 (lit "c") sample_module (disk_with [lit "c"])).1 = Ok tt ∧
  file_calls (calls (module_body 7 (lit "c") sample_module (disk_with [lit "c"])).2) =
    [2; 1]%Z.
Proof.
  assert (Forall item_answers [item_missing; item_page; item_there]) as Hitems.
  { constructor; [|constructor; [|constructor; [|constructor]]].
    - intros _. left. vm_compute. reflexivity.
    - intros Htype. vm_compute in Htype. discriminate Htype.
    - intros _. right. exists file_a. split; [vm_compute; reflexivity|].
      intros _. eexists. vm_compute. reflexivity. }
  split; [vm_compute; reflexivity|]. split; [exact Hitems|].
  refine (missing_module_file_does_not_stop_items 7 (lit "c") sample_module
            (disk_with [lit "c"])
            (os_makedirs (module_dir_of (lit "c") sample_module) (disk_with [lit "c"])).2
            _ Hitems).
  vm_compute. reflexivity.
Defined.

Lemma other_item_failure_ends_the_module_witness :
  canvas_get_file (content_id item_refused) = Raise Unauthorized ∧
  (module_body 7 (lit "c") refused_module (disk_with [lit "c"])).1 = Ok tt ∧
  file_calls (calls (module_body 7 (lit "c") refused_module (disk_with [lit "c"])).2) =
    [2; 3]%Z ∧
  last (console (module_body 7 (lit "c") refused_module (disk_with [lit "c"])).2) =
    Some (UnauthorizedModuleItems 32 7 Unauthorized).
Proof.
  split; [vm_compute; reflexivity|].
  refine (other_item_failure_ends_the_module 7 (lit "c") refused_module
            [item_missing] [item_there] item_refused Unauthorized
            (disk_with [lit "c"])
            (os_makedirs (module_dir_of (lit "c") refused_module) (disk_with [lit "c"])).2
            _ eq_refl _ eq_refl _ _).
  - vm_compute. reflexivity.
  - constructor; [|constructor]. intros _. left. vm_compute. reflexivity.
  - vm_compute. reflexivity.
  - discriminate.
Defined.

End ModuleSamples.

(** * The script on the samples *)

Section ScriptSamples.
Existing Instance sample_unicode.
Existing Instance sample_services.
Existing Instance in_order_scheduler.
Existing Instance sample_enrollment.

Lemma main_processes_courses_in_reverse_witness :
  fault canvas_get_courses = None ∧
  (main (disk_with [])).1 = Ok tt ∧
  course_calls (calls (main (disk_with [])).2) = [9; 8; 7]%Z.
Proof.
  assert (fault canvas_get_courses = None) as Hfault by reflexivity.
  split; [exact Hfault|].
  destruct (main_processes_courses_in_reverse (disk_with []) Hfault)
    as (Hok & Hcalls & _).
  split; [exact Hok|exact Hcalls].
Defined.

Lemma script_stays_below_its_root_witness :
  isalnum sep = false ∧
  ∀ p, p ∈ dirs (main (disk_with [])).2 →
       p ∈ dirs (disk_with []) ∨ downloads_root `prefix_of` p.
Proof.
  assert (isalnum sep = false) as Hsep by reflexivity.
  split; [exact Hsep|].
  exact (proj2 (script_stays_below_its_root (disk_with []) Hsep)).
Defined.

End ScriptSamples.

Section BrokenListing.
Existing Instance sample_unicode.
Existing Instance sample_services.
Existing Instance in_order_scheduler.
Existing Instance broken_enrollment.

Lemma main_listing_failure_stops_everything_witness :
  fault canvas_get_courses = Some ConnectionError ∧
  main (disk_with []) = (Raise ConnectionError, rooted (disk_with [])) ∧
  calls (rooted (disk_with [])) = [].
Proof.
  assert (fault canvas_get_courses = Some ConnectionError) as Hfault by reflexivity.
  split; [exact Hfault|].
  destruct (main_listing_failure_stops_everything (disk_with []) ConnectionError Hfault)
    as (Hmain & _ & Hcalls & _).
  split; [exact Hmain|exact Hcalls].
Defined.

End BrokenListing.

(** * A course without a top-level [course files] folder *)

Section NestedSamples.
Existing Instance sample_unicode.
Existing Instance nested_services.
Existing Instance in_order_scheduler.

(** C8 as stated fails: a folder of the course is literally named
    [course files] (it is the only one, and it holds a file), the course
    has no local directory yet, and the folder is not chosen as the root:
    its full name is not [course files], so no folder is walked and
    nothing is downloaded. *)
Lemma folder_named_course_files_is_not_the_root :
  canvas_get_course 5 = Ok nested_course ∧
  items (course_folders nested_course) = [folder_old] ∧
  folder_name folder_old = lit "course files" ∧
  items (folder_files folder_old) = [file_a] ∧
  (course_dir_of nested_course ∉ dirs (disk_with [lit "canvas_downloads"])) ∧
  (download_course_files 5 (disk_with [lit "canvas_downloads"])).1 = Ok tt ∧
  calls (download_course_files 5 (disk_with [lit "canvas_downloads"])).2 =
    [GetCourse 5; CourseGetFolders 5; CourseGetModules 5] ∧
  console (download_course_files 5 (disk_with [lit "canvas_downloads"])).2 =
    [ProcessingCourse (lit "Chem"); ErrorCourseFiles 5 StopIteration] ∧
  files (download_course_files 5 (disk_with [lit "canvas_downloads"])).2 = ∅.
Proof.
  split_and!; try reflexivity; try (vm_compute; reflexivity).
  apply (bool_decide_unpack _). vm_compute. exact I.
Qed.

End NestedSamples.
